(** * Webhook delivery engine: shallow embedding and verification

    The development embeds the webhook service of the SMS backend (the
    [WebhookService] class, the [/api/webhooks] routes and the [Webhook] and
    [WebhookEvent] schemas) and settles the properties stated for it.  It
    also embeds the password and account functions of [UserProfileService],
    which shares the service's source file, with their routes.

    Conventions.
    - JavaScript strings are [string]s read as their UTF-8 bytes.
    - JavaScript numbers that the service handles (counters, attempt
      numbers, milliseconds, HTTP status codes) are integers well inside the
      exactly representable range of a double; they are modelled as [Z].
    - [Date] values are modelled by their epoch milliseconds.
    - A rejected promise / thrown [Error] is a [Throw] carrying the message. *)

From Stdlib Require Import ZArith Ascii String List Bool Lia.
From stdpp Require Import base option list strings gmap pretty.
Import ListNotations.
Local Open Scope Z_scope.

(* ===================================================================== *)
(** ** Node's [crypto]: SHA-256, HMAC and hex digests *)
(* ===================================================================== *)

Module Crypto.

(** 32-bit words are integers in [0, 2^32). *)
Definition w32 (x : Z) : Z := x mod 4294967296.
Definition add32 (a b : Z) : Z := w32 (a + b).
Definition rotr (n x : Z) : Z := w32 (Z.lor (Z.shiftr x n) (Z.shiftl x (32 - n))).
Definition shr (n x : Z) : Z := Z.shiftr x n.
Definition not32 (x : Z) : Z := Z.lxor x 4294967295.

Definition Ch (x y z : Z) : Z := Z.lxor (Z.land x y) (Z.land (not32 x) z).
Definition Maj (x y z : Z) : Z :=
  Z.lxor (Z.lxor (Z.land x y) (Z.land x z)) (Z.land y z).
Definition bigSigma0 (x : Z) : Z := Z.lxor (Z.lxor (rotr 2 x) (rotr 13 x)) (rotr 22 x).
Definition bigSigma1 (x : Z) : Z := Z.lxor (Z.lxor (rotr 6 x) (rotr 11 x)) (rotr 25 x).
Definition smallSigma0 (x : Z) : Z := Z.lxor (Z.lxor (rotr 7 x) (rotr 18 x)) (shr 3 x).
Definition smallSigma1 (x : Z) : Z := Z.lxor (Z.lxor (rotr 17 x) (rotr 19 x)) (shr 10 x).

(** The round constants are the first 32 bits of the fractional parts of
    the cube roots of the first 64 primes; the initial chaining words are
    the same for the square roots of the first 8 primes. *)
Definition is_prime (n : Z) : bool :=
  (1 <? n) && forallb (fun d => negb (n mod d =? 0)) (map Z.of_nat (seq 2 (Z.to_nat n - 2))).

Definition primes64 : list Z :=
  Eval vm_compute in List.filter is_prime (map Z.of_nat (seq 2 310)).

(** Largest [r] with [r^3 <= n], found bit by bit from [2^(bits-1)] down. *)
Fixpoint cube_root (bits : nat) (n r : Z) : Z :=
  match bits with
  | O => r
  | S b =>
      let r' := r + 2 ^ Z.of_nat b in
      cube_root b n (if r' * r' * r' <=? n then r' else r)
  end.

Definition K256 : list Z :=
  Eval vm_compute in map (fun p => w32 (cube_root 40 (p * 2 ^ 96) 0)) primes64.

(** The eight chaining words. *)
Record regs := Regs { ra : Z; rb : Z; rc : Z; rd : Z; re : Z; rf : Z; rg : Z; rh : Z }.

Definition frac_sqrt (p : Z) : Z := w32 (Z.sqrt (p * 2 ^ 64)).

Definition H0 : regs :=
  Eval vm_compute in
    Regs (frac_sqrt 2) (frac_sqrt 3) (frac_sqrt 5) (frac_sqrt 7)
         (frac_sqrt 11) (frac_sqrt 13) (frac_sqrt 17) (frac_sqrt 19).

Definition round (s : regs) (k w : Z) : regs :=
  let t1 := add32 (add32 (add32 (add32 (rh s) (bigSigma1 (re s))) (Ch (re s) (rf s) (rg s))) k) w in
  let t2 := add32 (bigSigma0 (ra s)) (Maj (ra s) (rb s) (rc s)) in
  Regs (add32 t1 t2) (ra s) (rb s) (rc s) (add32 (rd s) t1) (re s) (rf s) (rg s).

(** The message schedule is kept as a sliding window of sixteen words:
    at round [t] the window holds W[t .. t+15]. *)
Definition slide (w : list Z) : list Z :=
  let nxt := add32 (add32 (add32 (smallSigma1 (nth 14 w 0)) (nth 9 w 0))
                          (smallSigma0 (nth 1 w 0))) (nth 0 w 0) in
  tl w ++ [nxt].

Fixpoint rounds (ks : list Z) (w : list Z) (s : regs) : regs :=
  match ks with
  | [] => s
  | k :: ks' => rounds ks' (slide w) (round s k (hd 0 w))
  end.

Definition compress (s : regs) (block : list Z) : regs :=
  let s' := rounds K256 block s in
  Regs (add32 (ra s) (ra s')) (add32 (rb s) (rb s')) (add32 (rc s) (rc s'))
       (add32 (rd s) (rd s')) (add32 (re s) (re s')) (add32 (rf s) (rf s'))
       (add32 (rg s) (rg s')) (add32 (rh s) (rh s')).

(** Big-endian packing of bytes into words, and of a length into bytes. *)
Fixpoint words_of_bytes (bs : list Z) : list Z :=
  match bs with
  | b0 :: b1 :: b2 :: b3 :: rest =>
      (b0 * 16777216 + b1 * 65536 + b2 * 256 + b3) :: words_of_bytes rest
  | _ => []
  end.

Definition bytes_of_word (w : Z) : list Z :=
  [ Z.shiftr w 24 mod 256; Z.shiftr w 16 mod 256; Z.shiftr w 8 mod 256; w mod 256 ].

Definition length_bytes (bits : Z) : list Z :=
  bytes_of_word (Z.shiftr bits 32 mod 4294967296) ++ bytes_of_word (bits mod 4294967296).

Definition pad (msg : list Z) : list Z :=
  let n := Z.of_nat (length msg) in
  let zeros := Z.to_nat ((55 - n) mod 64) in
  msg ++ [128] ++ repeat 0 zeros ++ length_bytes (8 * n).

(** Blocks of sixteen words; the fuel is the number of words. *)
Fixpoint blocks (fuel : nat) (ws : list Z) : list (list Z) :=
  match fuel with
  | O => []
  | S fuel' =>
      match ws with
      | [] => []
      | _ => firstn 16 ws :: blocks fuel' (skipn 16 ws)
      end
  end.

Definition sha256_regs (msg : list Z) : regs :=
  let ws := words_of_bytes (pad msg) in
  fold_left compress (blocks (length ws) ws) H0.

Definition regs_bytes (s : regs) : list Z :=
  bytes_of_word (ra s) ++ bytes_of_word (rb s) ++ bytes_of_word (rc s) ++
  bytes_of_word (rd s) ++ bytes_of_word (re s) ++ bytes_of_word (rf s) ++
  bytes_of_word (rg s) ++ bytes_of_word (rh s).

Definition sha256 (msg : list Z) : list Z := regs_bytes (sha256_regs msg).

(** HMAC (RFC 2104) with the 64-byte block of SHA-256. *)
Definition hmac_key (key : list Z) : list Z :=
  let k := if (64 <? Z.of_nat (length key)) then sha256 key else key in
  k ++ repeat 0 (64 - length k)%nat.

Definition hmac_sha256 (key msg : list Z) : list Z :=
  let k := hmac_key key in
  let ipad := map (fun b => Z.lxor b 0x36) k in
  let opad := map (fun b => Z.lxor b 0x5c) k in
  sha256 (opad ++ sha256 (ipad ++ msg)).

(** Lowercase hexadecimal, two digits per byte: [digest('hex')] and
    [Buffer.toString('hex')]. *)
Definition hex_digit (n : Z) : ascii :=
  match n with
  | 0 => "0" | 1 => "1" | 2 => "2" | 3 => "3" | 4 => "4" | 5 => "5" | 6 => "6" | 7 => "7"
  | 8 => "8" | 9 => "9" | 10 => "a" | 11 => "b" | 12 => "c" | 13 => "d" | 14 => "e" | _ => "f"
  end%char.

Fixpoint hex (bs : list Z) : string :=
  match bs with
  | [] => EmptyString
  | b :: rest => String (hex_digit (b / 16 mod 16)) (String (hex_digit (b mod 16)) (hex rest))
  end.

(** [Buffer.from(str)]: the UTF-8 bytes of a string. *)
Definition utf8 (s : string) : list Z :=
  map (fun c => Z.of_N (N_of_ascii c)) (list_ascii_of_string s).

End Crypto.

(* ===================================================================== *)
(** ** Exceptions and strings *)
(* ===================================================================== *)

(** The outcome of a call that may throw: [Throw msg] is a thrown
    [Error] (or rejected promise) whose [message] is [msg]. *)
Inductive Result (A : Type) : Type :=
| Ok (a : A)
| Throw (msg : string).
Arguments Ok {A} a.
Arguments Throw {A} msg.

Definition rbind {A B} (r : Result A) (k : A -> Result B) : Result B :=
  match r with
  | Ok a => k a
  | Throw m => Throw m
  end.

(** [try { body } catch (error) { handler(error.message) }] *)
Definition try_catch {A} (body : Result A) (handler : string -> Result A) : Result A :=
  match body with
  | Ok a => Ok a
  | Throw m => handler m
  end.

(** With these instances stdpp's [x ← m; k] sequences calls that may throw. *)
#[global] Instance Result_ret : MRet Result := fun A a => Ok a.
#[global] Instance Result_bind : MBind Result := fun A B k r => rbind r k.

Module Str.

Definition quote_char : ascii := ascii_of_N 34.
Definition backslash : ascii := ascii_of_N 92.

Definition code (c : ascii) : Z := Z.of_N (N_of_ascii c).

(** [s.startsWith(p)] *)
Fixpoint startsWith (p s : string) : bool :=
  match p, s with
  | EmptyString, _ => true
  | String a p', String b s' => if Ascii.eqb a b then startsWith p' s' else false
  | String _ _, EmptyString => false
  end.

(** [s.includes(p)] *)
Fixpoint includes (p s : string) : bool :=
  if startsWith p s then true
  else match s with
       | EmptyString => false
       | String _ s' => includes p s'
       end.

Fixpoint drop (n : nat) (s : string) : string :=
  match n, s with
  | O, _ => s
  | S n', String _ s' => drop n' s'
  | S _, EmptyString => EmptyString
  end.

(** Left padding of a decimal rendering with zeros, as [padStart(n, '0')]. *)
Fixpoint zeros (n : nat) : string :=
  match n with
  | O => EmptyString
  | S n' => String "0"%char (zeros n')
  end.

Definition pad_num (width : nat) (z : Z) : string :=
  let s := pretty z in
  zeros (width - String.length s) +:+ s.

End Str.

(* ===================================================================== *)
(** ** JSON values and [JSON.stringify] *)
(* ===================================================================== *)

(** JSON data as the service receives and forwards it.  Objects keep their
    keys in insertion order, which is the order [JSON.stringify] emits.
    Integral numbers are [JNum]; a non-integral number is a [JReal] holding
    the decimal text that [JSON.stringify] prints for it. *)
#[local] Set Warnings "-register-all".
Inductive JSON : Type :=
| JNull
| JBool (b : bool)
| JNum (z : Z)
| JReal (decimal : string)
| JStr (s : string)
| JArr (items : list JSON)
| JObj (fields : list (string * JSON)).

Module Json.

(** Escaping of one character inside a JSON string literal. *)
Definition escape (c : ascii) : string :=
  let n := Str.code c in
  if n =? 34 then String Str.backslash (String Str.quote_char EmptyString)
  else if n =? 92 then String Str.backslash (String Str.backslash EmptyString)
  else if n =? 8 then String Str.backslash "b"
  else if n =? 9 then String Str.backslash "t"
  else if n =? 10 then String Str.backslash "n"
  else if n =? 12 then String Str.backslash "f"
  else if n =? 13 then String Str.backslash "r"
  else if n <? 32 then String Str.backslash ("u00" +:+ Crypto.hex [n])
  else String c EmptyString.

Fixpoint escape_all (s : string) : string :=
  match s with
  | EmptyString => EmptyString
  | String c s' => escape c +:+ escape_all s'
  end.

Definition quote (s : string) : string :=
  String Str.quote_char (escape_all s +:+ String Str.quote_char EmptyString).

Fixpoint stringify (v : JSON) : string :=
  match v with
  | JNull => "null"
  | JBool true => "true"
  | JBool false => "false"
  | JNum z => pretty z
  | JReal d => d
  | JStr s => quote s
  | JArr items =>
      "[" +:+
      (fix elems (l : list JSON) : string :=
         match l with
         | [] => EmptyString
         | x :: rest =>
             stringify x +:+
             match rest with
             | [] => EmptyString
             | _ => "," +:+ elems rest
             end
         end) items +:+ "]"
  | JObj fields =>
      "{" +:+
      (fix members (l : list (string * JSON)) : string :=
         match l with
         | [] => EmptyString
         | (k, x) :: rest =>
             quote k +:+ ":" +:+ stringify x +:+
             match rest with
             | [] => EmptyString
             | _ => "," +:+ members rest
             end
         end) fields +:+ "}"
  end.

(** [obj[key]] on a JSON object: the first field named [key]. *)
Fixpoint field (key : string) (fields : list (string * JSON)) : option JSON :=
  match fields with
  | [] => None
  | (k, v) :: rest => if String.eqb k key then Some v else field key rest
  end.

(** JavaScript truthiness of a JSON value. *)
Definition truthy (v : JSON) : bool :=
  match v with
  | JNull => false
  | JBool b => b
  | JNum z => negb (z =? 0)
  | JReal _ => true
  | JStr s => negb (String.eqb s "")
  | JArr _ | JObj _ => true
  end.

End Json.

(* ===================================================================== *)
(** ** Dates: [Date.prototype.toISOString] *)
(* ===================================================================== *)

Module DateTime.

Record civil := Civil { year : Z; month : Z; day : Z }.

(** Gregorian date of a day count relative to 1970-01-01. *)
Definition civil_of_days (days : Z) : civil :=
  let z := days + 719468 in
  let era := z / 146097 in
  let doe := z - era * 146097 in
  let yoe := (doe - doe / 1460 + doe / 36524 - doe / 146096) / 365 in
  let doy := doe - (365 * yoe + yoe / 4 - yoe / 100) in
  let mp := (5 * doy + 2) / 153 in
  let d := doy - (153 * mp + 2) / 5 + 1 in
  let m := if mp <? 10 then mp + 3 else mp - 9 in
  let y := yoe + era * 400 + (if m <=? 2 then 1 else 0) in
  Civil y m d.

Definition year_string (y : Z) : string :=
  if (0 <=? y) && (y <=? 9999) then Str.pad_num 4 y
  else if y <? 0 then "-" +:+ Str.pad_num 6 (- y)
  else "+" +:+ Str.pad_num 6 y.

Definition toISOString (ms : Z) : string :=
  let days := ms / 86400000 in
  let rest := ms mod 86400000 in
  let c := civil_of_days days in
  year_string (year c) +:+ "-" +:+ Str.pad_num 2 (month c) +:+ "-" +:+ Str.pad_num 2 (day c)
    +:+ "T" +:+ Str.pad_num 2 (rest / 3600000)
    +:+ ":" +:+ Str.pad_num 2 (rest / 60000 mod 60)
    +:+ ":" +:+ Str.pad_num 2 (rest / 1000 mod 60)
    +:+ "." +:+ Str.pad_num 3 (rest mod 1000) +:+ "Z".

End DateTime.

(* ===================================================================== *)
(** ** Data model (model/Webhook.js, model/WebhookEvent.js) *)
(* ===================================================================== *)

(** The [enum] shared by [Webhook.events] and [WebhookEvent.eventType]. *)
Definition event_enum : list string :=
  ["sms.sent"; "sms.delivered"; "sms.failed"; "sms.bounced"; "sms.read"].

Definition str_in (s : string) (l : list string) : bool := existsb (String.eqb s) l.

Module Stats.
Record t := Make {
  totalCalls : Z;
  successfulCalls : Z;
  failedCalls : Z;
  lastCall : option Z;
  lastCallStatus : option Z;
  averageResponseTime : option Z
}.

(** Schema defaults of a new document. *)
Definition initial : t := Make 0 0 0 None None None.
End Stats.

Module Webhook.
Record t := Make {
  _id : string;
  username : string;
  url : string;
  name : string;
  description : option string;
  events : list string;
  isActive : bool;
  secret : string;
  retryEnabled : bool;
  retryCount : Z;
  retryBackoffMs : Z;
  stats : Stats.t;
  notifyOnFailure : bool;
  maxPayloadSize : Z;
  created_at : Z;
  updated_at : Z;
  lastUpdatedBy : option string
}.

Definition set_url (v : string) (w : t) : t :=
  Make (_id w) (username w) v (name w) (description w) (events w) (isActive w) (secret w)
       (retryEnabled w) (retryCount w) (retryBackoffMs w) (stats w) (notifyOnFailure w)
       (maxPayloadSize w) (created_at w) (updated_at w) (lastUpdatedBy w).
Definition set_name (v : string) (w : t) : t :=
  Make (_id w) (username w) (url w) v (description w) (events w) (isActive w) (secret w)
       (retryEnabled w) (retryCount w) (retryBackoffMs w) (stats w) (notifyOnFailure w)
       (maxPayloadSize w) (created_at w) (updated_at w) (lastUpdatedBy w).
Definition set_description (v : option string) (w : t) : t :=
  Make (_id w) (username w) (url w) (name w) v (events w) (isActive w) (secret w)
       (retryEnabled w) (retryCount w) (retryBackoffMs w) (stats w) (notifyOnFailure w)
       (maxPayloadSize w) (created_at w) (updated_at w) (lastUpdatedBy w).
Definition set_events (v : list string) (w : t) : t :=
  Make (_id w) (username w) (url w) (name w) (description w) v (isActive w) (secret w)
       (retryEnabled w) (retryCount w) (retryBackoffMs w) (stats w) (notifyOnFailure w)
       (maxPayloadSize w) (created_at w) (updated_at w) (lastUpdatedBy w).
Definition set_isActive (v : bool) (w : t) : t :=
  Make (_id w) (username w) (url w) (name w) (description w) (events w) v (secret w)
       (retryEnabled w) (retryCount w) (retryBackoffMs w) (stats w) (notifyOnFailure w)
       (maxPayloadSize w) (created_at w) (updated_at w) (lastUpdatedBy w).
Definition set_secret (v : string) (w : t) : t :=
  Make (_id w) (username w) (url w) (name w) (description w) (events w) (isActive w) v
       (retryEnabled w) (retryCount w) (retryBackoffMs w) (stats w) (notifyOnFailure w)
       (maxPayloadSize w) (created_at w) (updated_at w) (lastUpdatedBy w).
Definition set_retryCount (v : Z) (w : t) : t :=
  Make (_id w) (username w) (url w) (name w) (description w) (events w) (isActive w) (secret w)
       (retryEnabled w) v (retryBackoffMs w) (stats w) (notifyOnFailure w)
       (maxPayloadSize w) (created_at w) (updated_at w) (lastUpdatedBy w).
Definition set_retryBackoffMs (v : Z) (w : t) : t :=
  Make (_id w) (username w) (url w) (name w) (description w) (events w) (isActive w) (secret w)
       (retryEnabled w) (retryCount w) v (stats w) (notifyOnFailure w)
       (maxPayloadSize w) (created_at w) (updated_at w) (lastUpdatedBy w).
Definition set_stats (v : Stats.t) (w : t) : t :=
  Make (_id w) (username w) (url w) (name w) (description w) (events w) (isActive w) (secret w)
       (retryEnabled w) (retryCount w) (retryBackoffMs w) v (notifyOnFailure w)
       (maxPayloadSize w) (created_at w) (updated_at w) (lastUpdatedBy w).
Definition set_notifyOnFailure (v : bool) (w : t) : t :=
  Make (_id w) (username w) (url w) (name w) (description w) (events w) (isActive w) (secret w)
       (retryEnabled w) (retryCount w) (retryBackoffMs w) (stats w) v
       (maxPayloadSize w) (created_at w) (updated_at w) (lastUpdatedBy w).
Definition set_updated_at (v : Z) (w : t) : t :=
  Make (_id w) (username w) (url w) (name w) (description w) (events w) (isActive w) (secret w)
       (retryEnabled w) (retryCount w) (retryBackoffMs w) (stats w) (notifyOnFailure w)
       (maxPayloadSize w) (created_at w) v (lastUpdatedBy w).
Definition set_lastUpdatedBy (v : option string) (w : t) : t :=
  Make (_id w) (username w) (url w) (name w) (description w) (events w) (isActive w) (secret w)
       (retryEnabled w) (retryCount w) (retryBackoffMs w) (stats w) (notifyOnFailure w)
       (maxPayloadSize w) (created_at w) (updated_at w) v.

(** The [url] validator [/^https?:\/\/.+/]: the scheme prefix followed by
    at least one character that is not a line terminator (LF, CR,
    U+2028, U+2029; the last two are E2 80 A8 and E2 80 A9 in UTF-8). *)
Definition line_terminator_first (s : string) : bool :=
  match s with
  | EmptyString => true
  | String c rest =>
      (Str.code c =? 10) || (Str.code c =? 13)
      || Str.startsWith (String (ascii_of_N 226) (String (ascii_of_N 128) (String (ascii_of_N 168) EmptyString))) s
      || Str.startsWith (String (ascii_of_N 226) (String (ascii_of_N 128) (String (ascii_of_N 169) EmptyString))) s
  end.

Definition url_regex (u : string) : bool :=
  if Str.startsWith "http://" u then negb (line_terminator_first (Str.drop 7 u))
  else if Str.startsWith "https://" u then negb (line_terminator_first (Str.drop 8 u))
  else false.

Definition nonempty (s : string) : bool := negb (String.eqb s "").

(** Every schema path that carries a validator. *)
Definition all_paths : list string :=
  ["username"; "url"; "name"; "events"; "secret"; "retryCount"; "retryBackoffMs";
   "maxPayloadSize"].

(** Document validation run by [save()].  Mongoose validates the
    [required] paths and the paths in [modified] (every path, for a new
    document).  [strict_arrays] says whether the installed Mongoose lets
    [required] reject an empty array (Mongoose 4 does, later versions do
    not). *)
Definition valid (strict_arrays : bool) (modified : list string) (w : t) : bool :=
  nonempty (username w)
  && nonempty (url w) && url_regex (url w)
  && nonempty (name w)
  && forallb (fun e => str_in e event_enum) (events w)
  && (negb strict_arrays || negb (Nat.eqb (length (events w)) 0))
  && nonempty (secret w)
  && (negb (str_in "retryCount" modified)
      || ((1 <=? retryCount w) && (retryCount w <=? 10)))
  && (negb (str_in "retryBackoffMs" modified)
      || ((1000 <=? retryBackoffMs w) && (retryBackoffMs w <=? 3600000)))
  && (negb (str_in "maxPayloadSize" modified)
      || ((10240 <=? maxPayloadSize w) && (maxPayloadSize w <=? 10485760))).
End Webhook.

Inductive Status : Type := pending | sent | failed | success.

Definition Status_eqb (a b : Status) : bool :=
  match a, b with
  | pending, pending | sent, sent | failed, failed | success, success => true
  | _, _ => false
  end.

Definition Status_name (s : Status) : string :=
  match s with
  | pending => "pending"
  | sent => "sent"
  | failed => "failed"
  | success => "success"
  end.

Module WebhookEvent.
Record t := Make {
  _id : string;
  webhookId : string;
  logId : option string;
  eventType : string;
  payload : JSON;
  status : Status;
  httpStatusCode : option Z;
  httpResponseBody : option string;
  attempts : Z;
  maxAttempts : Z;
  lastAttemptTime : option Z;
  lastAttemptError : option string;
  nextRetryTime : option Z;
  requestDurationMs : option Z;
  signature : option string;
  createdAt : Z;
  sentAt : option Z
}.

(** [payload] is [required]: null is rejected. *)
Definition payload_present (p : JSON) : bool :=
  match p with
  | JNull => false
  | _ => true
  end.

(** [webhookId] is taken from a stored document, so its [required] check
    always passes and is left out. *)
Definition valid (e : t) : bool :=
  str_in (eventType e) event_enum
  && payload_present (payload e)
  && (0 <=? attempts e)
  && (1 <=? maxAttempts e).
End WebhookEvent.

(** The two collections, and the counter from which fresh ObjectIds are
    minted. *)
Record Store := MkStore {
  webhooks : list Webhook.t;
  webhook_events : list WebhookEvent.t;
  oid_counter : N
}.

Module Db.

(** A fresh ObjectId, rendered as its 24 hexadecimal digits. *)
Definition oid_string (n : N) : string :=
  let z := Z.of_N n in
  "0000000000000000" +:+ Crypto.hex (Crypto.bytes_of_word (z mod 4294967296)).

(** [Webhook.findById(id)] *)
Fixpoint findById (id : string) (l : list Webhook.t) : option Webhook.t :=
  match l with
  | [] => None
  | w :: rest => if String.eqb (Webhook._id w) id then Some w else findById id rest
  end.

(** Writing back the document [w]: the stored document with the same
    [_id] is replaced. *)
Fixpoint replace_webhook (w : Webhook.t) (l : list Webhook.t) : list Webhook.t :=
  match l with
  | [] => []
  | x :: rest =>
      if String.eqb (Webhook._id x) (Webhook._id w) then w :: rest
      else x :: replace_webhook w rest
  end.

(** [Webhook.findByIdAndUpdate(id, update)]: one atomic update of the
    stored document, a no-op when the id is absent. *)
Fixpoint update_webhook (id : string) (f : Webhook.t -> Webhook.t) (l : list Webhook.t)
  : list Webhook.t :=
  match l with
  | [] => []
  | x :: rest =>
      if String.eqb (Webhook._id x) id then f x :: rest
      else x :: update_webhook id f rest
  end.

(** [Webhook.deleteOne({ _id: id })] *)
Fixpoint delete_webhook (id : string) (l : list Webhook.t) : list Webhook.t :=
  match l with
  | [] => []
  | x :: rest =>
      if String.eqb (Webhook._id x) id then rest
      else x :: delete_webhook id rest
  end.

Fixpoint replace_event (e : WebhookEvent.t) (l : list WebhookEvent.t) : list WebhookEvent.t :=
  match l with
  | [] => []
  | x :: rest =>
      if String.eqb (WebhookEvent._id x) (WebhookEvent._id e) then e :: rest
      else x :: replace_event e rest
  end.

Definition with_webhooks (l : list Webhook.t) (st : Store) : Store :=
  MkStore l (webhook_events st) (oid_counter st).

Definition with_events (l : list WebhookEvent.t) (st : Store) : Store :=
  MkStore (webhooks st) l (oid_counter st).

(** Minting an ObjectId for a [new] document. *)
Definition mint (st : Store) : string * Store :=
  (oid_string (oid_counter st),
   MkStore (webhooks st) (webhook_events st) (N.succ (oid_counter st))).

End Db.

(* ===================================================================== *)
(** ** The HTTP client ([axios]) *)
(* ===================================================================== *)

(** What the network does with one POST: the final response status (after
    any redirects the client followed) or no response at all (DNS, connect,
    TLS, timeout). *)
Inductive HttpOutcome : Type :=
| Responded (code : Z)
| NoResponse (reason : string).

(** One exchange: the outcome and the time it took. *)
Record Reply := MkReply { outcome : HttpOutcome; latency : Z }.

(** The outbound request as the receiver sees it. *)
Record Request := MkRequest {
  req_url : string;
  req_body : string;
  X_Webhook_Signature : string;
  X_Webhook_Event : string;
  X_Webhook_Delivery : string;
  Content_Type : string
}.

Inductive AxiosResult : Type :=
| Resolved (status : Z)
| Rejected (message : string) (response_status : option Z).

Module Axios.

(** The default [validateStatus]. *)
Definition validateStatus (c : Z) : bool := (200 <=? c) && (c <? 300).

(** The default [transformRequest] serialises the [data] object with
    [JSON.stringify]. *)
Definition transformRequest (data : JSON) : string := Json.stringify data.

Definition byteLength (body : string) : Z := Z.of_nat (String.length body).

(** Does the body pass the [maxBodyLength] option ([None]: not set)? *)
Definition body_allowed (maxBodyLength : option Z) (body : string) : bool :=
  match maxBodyLength with
  | Some m => (m <? 0) || (byteLength body <=? m)
  | None => true
  end.

(** [axios.post]: either the request never leaves the client (the
    promise rejects with [message]) or it is sent and the promise settles
    on the network's outcome. *)
Inductive PostResult : Type :=
| NotSent (message : string)
| Sent (r : AxiosResult).

Definition settle (o : HttpOutcome) : AxiosResult :=
  match o with
  | Responded c =>
      if validateStatus c then Resolved c
      else Rejected ("Request failed with status code " +:+ pretty c) (Some c)
  | NoResponse reason => Rejected reason None
  end.

Definition post (maxBodyLength : option Z) (body : string) (o : HttpOutcome) : PostResult :=
  if body_allowed maxBodyLength body then Sent (settle o)
  else NotSent "Request body larger than maxBodyLength limit".

End Axios.

(* ===================================================================== *)
(** ** services/webhookService.js *)
(* ===================================================================== *)

(** The fields [createWebhook] destructures from its argument; [None] is
    [undefined]. *)
Module CreateData.
Record t := Make {
  username : string;
  url : option string;
  name : option string;
  description : option string;
  events : option (list string);
  retryCount : option Z;
  retryBackoffMs : option Z;
  notifyOnFailure : option bool
}.
End CreateData.

(** The source of [crypto.randomBytes(n)]. *)
Definition Entropy := nat -> list Z.

Module WebhookService.

(** [crypto.timingSafeEqual(a, b)]: throws when the byte lengths differ. *)
Fixpoint bytes_eqb (a b : list Z) : bool :=
  match a, b with
  | [], [] => true
  | x :: a', y :: b' => (x =? y) && bytes_eqb a' b'
  | _, _ => false
  end.

Definition timingSafeEqual (a b : list Z) : Result bool :=
  if Nat.eqb (length a) (length b) then Ok (bytes_eqb a b)
  else Throw "Input buffers must have the same byte length".

(** [x || d] on a number: [undefined] and [0] are falsy. *)
Definition or_default (x : option Z) (d : Z) : Z :=
  match x with
  | None => d
  | Some v => if v =? 0 then d else v
  end.

Definition generateSecret (rng : Entropy) : string := Crypto.hex (rng 16%nat).

Definition generateSignature (payload secret : string) : string :=
  Crypto.hex (Crypto.hmac_sha256 (Crypto.utf8 secret) (Crypto.utf8 payload)).

Definition verifySignature (payload signature secret : string) : Result bool :=
  let expectedSignature := generateSignature payload secret in
  timingSafeEqual (Crypto.utf8 signature) (Crypto.utf8 expectedSignature).

Definition createWebhook (strict_arrays : bool) (rng : Entropy) (now : Z)
           (st : Store) (data : CreateData.t) : Result (Webhook.t * Store) :=
  try_catch
    (let '(id, st1) := Db.mint st in
     let webhook :=
       Webhook.Make id
         (CreateData.username data)
         (default "" (CreateData.url data))
         (default "" (CreateData.name data))
         (CreateData.description data)
         (default ["sms.delivered"; "sms.failed"] (CreateData.events data))
         true
         (generateSecret rng)
         true
         (or_default (CreateData.retryCount data) 3)
         (or_default (CreateData.retryBackoffMs data) 5000)
         Stats.initial
         (match CreateData.notifyOnFailure data with Some false => false | _ => true end)
         1048576
         now now None in
     if Webhook.valid strict_arrays Webhook.all_paths webhook
     then Ok (webhook, Db.with_webhooks (webhooks st1 ++ [webhook]) st1)
     else Throw "webhooks validation failed")
    (fun m => Throw ("Failed to create webhook: " +:+ m)).

Definition not_found (webhookId : string) : string :=
  "Webhook not found with ID: " +:+ webhookId.

Definition getWebhookById (st : Store) (webhookId username : string) : Result Webhook.t :=
  try_catch
    (match Db.findById webhookId (webhooks st) with
     | None => Throw (not_found webhookId)
     | Some webhook =>
         if negb (String.eqb (Webhook.username webhook) username)
         then Throw "Unauthorized: Cannot access this webhook"
         else Ok webhook
     end)
    (fun m => Throw ("Failed to get webhook: " +:+ m)).

Definition allowedFields : list string :=
  ["url"; "name"; "description"; "events"; "isActive"; "retryCount"; "retryBackoffMs";
   "notifyOnFailure"].

Definition cast_error (field : string) : string :=
  "webhooks validation failed: " +:+ field +:+ ": Cast failed".

Fixpoint strings_of (items : list JSON) : option (list string) :=
  match items with
  | [] => Some []
  | JStr s :: rest => option_map (cons s) (strings_of rest)
  | _ :: _ => None
  end.

(** [webhook[field] = value] for one of the allowed fields.  A value of
    the path's own JSON type is stored; any other value is reported as a
    cast failure when the document is saved (the conversions Mongoose
    would still attempt are not modelled). *)
Definition assign (field : string) (value : JSON) (w : Webhook.t) : Result Webhook.t :=
  if String.eqb field "url" then
    match value with JStr s => Ok (Webhook.set_url s w) | _ => Throw (cast_error field) end
  else if String.eqb field "name" then
    match value with JStr s => Ok (Webhook.set_name s w) | _ => Throw (cast_error field) end
  else if String.eqb field "description" then
    match value with
    | JStr s => Ok (Webhook.set_description (Some s) w)
    | JNull => Ok (Webhook.set_description None w)
    | _ => Throw (cast_error field)
    end
  else if String.eqb field "events" then
    match value with
    | JArr items =>
        match strings_of items with
        | Some l => Ok (Webhook.set_events l w)
        | None => Throw (cast_error field)
        end
    | _ => Throw (cast_error field)
    end
  else if String.eqb field "isActive" then
    match value with JBool b => Ok (Webhook.set_isActive b w) | _ => Throw (cast_error field) end
  else if String.eqb field "retryCount" then
    match value with JNum z => Ok (Webhook.set_retryCount z w) | _ => Throw (cast_error field) end
  else if String.eqb field "retryBackoffMs" then
    match value with JNum z => Ok (Webhook.set_retryBackoffMs z w) | _ => Throw (cast_error field) end
  else if String.eqb field "notifyOnFailure" then
    match value with JBool b => Ok (Webhook.set_notifyOnFailure b w) | _ => Throw (cast_error field) end
  else Ok w.

(** [allowedFields.forEach(field => { if (field in updates) ... })] *)
Fixpoint apply_updates (fields : list string) (updates : gmap string JSON) (w : Webhook.t)
  : Result Webhook.t :=
  match fields with
  | [] => Ok w
  | field :: rest =>
      match updates !! field with
      | Some value => w' ← assign field value w; apply_updates rest updates w'
      | None => apply_updates rest updates w
      end
  end.

Definition modified_paths (updates : gmap string JSON) : list string :=
  filter (fun field => is_Some (updates !! field)) allowedFields.

Definition updateWebhook (strict_arrays : bool) (now : Z) (st : Store)
           (webhookId username : string) (updates : gmap string JSON)
  : Result (Webhook.t * Store) :=
  try_catch
    (match Db.findById webhookId (webhooks st) with
     | None => Throw (not_found webhookId)
     | Some webhook =>
         if negb (String.eqb (Webhook.username webhook) username)
         then Throw "Unauthorized: Cannot update this webhook"
         else
           w1 ← apply_updates allowedFields updates webhook;
           let w2 := Webhook.set_lastUpdatedBy (Some username) (Webhook.set_updated_at now w1) in
           if Webhook.valid strict_arrays (modified_paths updates) w2
           then Ok (w2, Db.with_webhooks (Db.replace_webhook w2 (webhooks st)) st)
           else Throw "webhooks validation failed"
     end)
    (fun m => Throw ("Failed to update webhook: " +:+ m)).

Definition deleteWebhook (st : Store) (webhookId username : string) : Result Store :=
  try_catch
    (match Db.findById webhookId (webhooks st) with
     | None => Throw (not_found webhookId)
     | Some webhook =>
         if negb (String.eqb (Webhook.username webhook) username)
         then Throw "Unauthorized: Cannot delete this webhook"
         else Ok (Db.with_webhooks (Db.delete_webhook webhookId (webhooks st)) st)
     end)
    (fun m => Throw ("Failed to delete webhook: " +:+ m)).

Definition rotateSecret (strict_arrays : bool) (rng : Entropy) (now : Z) (st : Store)
           (webhookId username : string) : Result (Webhook.t * Store) :=
  try_catch
    (match Db.findById webhookId (webhooks st) with
     | None => Throw (not_found webhookId)
     | Some webhook =>
         if negb (String.eqb (Webhook.username webhook) username)
         then Throw "Unauthorized: Cannot rotate secret"
         else
           let w2 := Webhook.set_updated_at now (Webhook.set_secret (generateSecret rng) webhook) in
           if Webhook.valid strict_arrays ["secret"] w2
           then Ok (w2, Db.with_webhooks (Db.replace_webhook w2 (webhooks st)) st)
           else Throw "webhooks validation failed"
     end)
    (fun m => Throw ("Failed to rotate secret: " +:+ m)).

(** *** Event routing *)



(** A delivery deferred with [setImmediate]: the two documents the
    closure captured. *)
Definition Task : Type := Webhook.t * WebhookEvent.t.

(** [eventData.logId || null]: reading a property of [null] throws. *)
Definition logId_of (eventData : JSON) : Result (option JSON) :=
  match eventData with
  | JNull => Throw "Cannot read properties of null (reading 'logId')"
  | JObj fields =>
      Ok (match Json.field "logId" fields with
          | Some v => if Json.truthy v then Some v else None
          | None => None
          end)
  | _ => Ok None
  end.

Definition is_hex_char (c : ascii) : bool :=
  let n := Str.code c in
  ((48 <=? n) && (n <=? 57)) || ((97 <=? n) && (n <=? 102)) || ((65 <=? n) && (n <=? 70)).

Fixpoint all_hex (s : string) : bool :=
  match s with
  | EmptyString => true
  | String c s' => is_hex_char c && all_hex s'
  end.

(** The cast of [logId] to an ObjectId: a string of 24 hexadecimal
    digits is accepted, any other value is a cast failure. *)
Definition castObjectId (v : option JSON) : Result (option string) :=
  match v with
  | None => Ok None
  | Some (JStr s) =>
      if Nat.eqb (String.length s) 24 && all_hex s then Ok (Some s)
      else Throw "webhook_events validation failed: logId: Cast to ObjectId failed"
  | Some _ => Throw "webhook_events validation failed: logId: Cast to ObjectId failed"
  end.

(** The body of [queueWebhookEvent]'s [try] block and the whole function:
    a failure is logged and [undefined] ([None]) is returned. *)
Definition queueWebhookEvent (now : Z) (st : Store) (webhook : Webhook.t)
           (eventType : string) (eventData : JSON)
  : Result (Store * list Task * option WebhookEvent.t) :=
  try_catch
    (raw ← logId_of eventData;
     logId ← castObjectId raw;
     let '(id, st1) := Db.mint st in
     let webhookEvent :=
       WebhookEvent.Make id (Webhook._id webhook) logId eventType eventData pending
         None None 0 (Webhook.retryCount webhook) None None None None None now None in
     if WebhookEvent.valid webhookEvent
     then Ok (Db.with_events (webhook_events st1 ++ [webhookEvent]) st1,
              [(webhook, webhookEvent)], Some webhookEvent)
     else Throw "webhook_events validation failed")
    (fun m => Ok (st, [], None)).

(** [for (const webhook of webhooks) await this.queueWebhookEvent(...)] *)
Fixpoint queue_all (now : Z) (st : Store) (found : list Webhook.t)
         (eventType : string) (eventData : JSON) : Result (Store * list Task) :=
  match found with
  | [] => Ok (st, [])
  | webhook :: rest =>
      r ← queueWebhookEvent now st webhook eventType eventData;
      let '(st1, tasks, _) := r in
      r' ← queue_all now st1 rest eventType eventData;
      let '(st2, tasks') := r' in
      Ok (st2, tasks ++ tasks')
  end.


(** *** Dispatch *)

Record SendResult := MkSend {
  sr_store : Store;
  sr_event : WebhookEvent.t;
  sr_request : option Request;
  sr_finished : Z;
  sr_thrown : option string
}.

(** The object that is serialised and signed. *)
Definition envelope (now : Z) (webhookEvent : WebhookEvent.t) : JSON :=
  JObj [("event", JStr (WebhookEvent.eventType webhookEvent));
        ("timestamp", JStr (DateTime.toISOString now));
        ("data", WebhookEvent.payload webhookEvent)].

Definition mark_success (t status duration : Z) (e : WebhookEvent.t) : WebhookEvent.t :=
  WebhookEvent.Make (WebhookEvent._id e) (WebhookEvent.webhookId e) (WebhookEvent.logId e)
    (WebhookEvent.eventType e) (WebhookEvent.payload e) success (Some status)
    (WebhookEvent.httpResponseBody e) (WebhookEvent.attempts e) (WebhookEvent.maxAttempts e)
    (WebhookEvent.lastAttemptTime e) (WebhookEvent.lastAttemptError e)
    (WebhookEvent.nextRetryTime e) (Some duration) (WebhookEvent.signature e)
    (WebhookEvent.createdAt e) (Some t).

(** [attempts += 1; lastAttemptTime = new Date(); lastAttemptError = message] *)
Definition mark_attempt (t : Z) (message : string) (e : WebhookEvent.t) : WebhookEvent.t :=
  WebhookEvent.Make (WebhookEvent._id e) (WebhookEvent.webhookId e) (WebhookEvent.logId e)
    (WebhookEvent.eventType e) (WebhookEvent.payload e) (WebhookEvent.status e)
    (WebhookEvent.httpStatusCode e) (WebhookEvent.httpResponseBody e)
    (WebhookEvent.attempts e + 1) (WebhookEvent.maxAttempts e)
    (Some t) (Some message)
    (WebhookEvent.nextRetryTime e) (WebhookEvent.requestDurationMs e) (WebhookEvent.signature e)
    (WebhookEvent.createdAt e) (WebhookEvent.sentAt e).

Definition schedule_retry (next : Z) (e : WebhookEvent.t) : WebhookEvent.t :=
  WebhookEvent.Make (WebhookEvent._id e) (WebhookEvent.webhookId e) (WebhookEvent.logId e)
    (WebhookEvent.eventType e) (WebhookEvent.payload e) pending
    (WebhookEvent.httpStatusCode e) (WebhookEvent.httpResponseBody e)
    (WebhookEvent.attempts e) (WebhookEvent.maxAttempts e)
    (WebhookEvent.lastAttemptTime e) (WebhookEvent.lastAttemptError e)
    (Some next) (WebhookEvent.requestDurationMs e) (WebhookEvent.signature e)
    (WebhookEvent.createdAt e) (WebhookEvent.sentAt e).

Definition mark_failed (e : WebhookEvent.t) : WebhookEvent.t :=
  WebhookEvent.Make (WebhookEvent._id e) (WebhookEvent.webhookId e) (WebhookEvent.logId e)
    (WebhookEvent.eventType e) (WebhookEvent.payload e) failed
    (WebhookEvent.httpStatusCode e) (WebhookEvent.httpResponseBody e)
    (WebhookEvent.attempts e) (WebhookEvent.maxAttempts e)
    (WebhookEvent.lastAttemptTime e) (WebhookEvent.lastAttemptError e)
    (WebhookEvent.nextRetryTime e) (WebhookEvent.requestDurationMs e) (WebhookEvent.signature e)
    (WebhookEvent.createdAt e) (WebhookEvent.sentAt e).

(** The two [findByIdAndUpdate] payloads. *)
Definition stats_success (t status duration : Z) (s : Stats.t) : Stats.t :=
  Stats.Make (Stats.totalCalls s + 1) (Stats.successfulCalls s + 1) (Stats.failedCalls s)
             (Some t) (Some status) (Some duration).

Definition stats_failure (t : Z) (s : Stats.t) : Stats.t :=
  Stats.Make (Stats.totalCalls s + 1) (Stats.successfulCalls s) (Stats.failedCalls s + 1)
             (Some t) (Some (-1)) (Stats.averageResponseTime s).

Definition bump (f : Stats.t -> Stats.t) (w : Webhook.t) : Webhook.t :=
  Webhook.set_stats (f (Webhook.stats w)) w.

Definition save_event (e : WebhookEvent.t) (st : Store) : Store :=
  Db.with_events (Db.replace_event e (webhook_events st)) st.

Definition inc_stats (id : string) (f : Stats.t -> Stats.t) (st : Store) : Store :=
  Db.with_webhooks (Db.update_webhook id (bump f) (webhooks st)) st.

(** [retryBackoffMs * Math.pow(2, attempts - 1)].  [attempts] is at least
    1 here (the schema keeps it non-negative before the increment), so the
    power is an exact integer. *)
Definition backoff (retryBackoffMs attempts : Z) : Z :=
  retryBackoffMs * 2 ^ (attempts - 1).

(** The [catch] block; [t] is the clock when it runs. *)
Definition on_failure (t : Z) (st : Store) (webhook : option Webhook.t)
           (webhookEvent : WebhookEvent.t) (message : string) (request : option Request)
  : SendResult :=
  let e1 := mark_attempt t message webhookEvent in
  if WebhookEvent.attempts e1 <? WebhookEvent.maxAttempts e1 then
    match webhook with
    | None =>
        MkSend st e1 request t (Some "Cannot read properties of null (reading 'retryBackoffMs')")
    | Some w =>
        let backoffMs := backoff (Webhook.retryBackoffMs w) (WebhookEvent.attempts e1) in
        let e2 := schedule_retry (t + backoffMs) e1 in
        MkSend (inc_stats (Webhook._id w) (stats_failure t) (save_event e2 st)) e2 request t None
    end
  else
    let e2 := mark_failed e1 in
    match webhook with
    | None =>
        MkSend (save_event e2 st) e2 request t
               (Some "Cannot read properties of null (reading '_id')")
    | Some w =>
        MkSend (inc_stats (Webhook._id w) (stats_failure t) (save_event e2 st)) e2 request t None
    end.

Definition sendWebhookEvent (now : Z) (st : Store) (webhook : option Webhook.t)
           (webhookEvent : WebhookEvent.t) (reply : Reply) : SendResult :=
  let payload := Json.stringify (envelope now webhookEvent) in
  match webhook with
  | None =>
      on_failure now st None webhookEvent
                 "Cannot read properties of null (reading 'secret')" None
  | Some w =>
      let signature := generateSignature payload (Webhook.secret w) in
      let body := Axios.transformRequest (WebhookEvent.payload webhookEvent) in
      let request :=
        MkRequest (Webhook.url w) body signature (WebhookEvent.eventType webhookEvent)
                  (WebhookEvent._id webhookEvent) "application/json" in
      match Axios.post (Some (Webhook.maxPayloadSize w)) body (outcome reply) with
      | Axios.Sent (Resolved status) =>
          let t := now + latency reply in
          let duration := t - now in
          let e1 := mark_success t status duration webhookEvent in
          MkSend (inc_stats (Webhook._id w) (stats_success t status duration) (save_event e1 st))
                 e1 (Some request) t None
      | Axios.Sent (Rejected message _) =>
          on_failure (now + latency reply) st webhook webhookEvent message (Some request)
      | Axios.NotSent message =>
          on_failure now st webhook webhookEvent message None
      end
  end.

(** *** Retry sweep *)

Module RetryResults.
Record t := Make { processed : Z; successful : Z; failed : Z }.
End RetryResults.

(** [{ status: 'pending', nextRetryTime: { $lte: now } }] *)
Definition due (now : Z) (e : WebhookEvent.t) : bool :=
  Status_eqb (WebhookEvent.status e) pending
  && match WebhookEvent.nextRetryTime e with
     | Some t => t <=? now
     | None => false
     end.

Record Sweep := MkSweep {
  sw_store : Store;
  sw_clock : Z;
  sw_results : RetryResults.t;
  sw_requests : list Request
}.

(** The [for] loop over the populated events; [replies] gives the
    network's answer to the POST for each event id. *)
Fixpoint retry_loop (replies : string -> Reply)
         (found : list (WebhookEvent.t * option Webhook.t)) (acc : Sweep) : Sweep :=
  match found with
  | [] => acc
  | (event, webhook) :: rest =>
      let r := sendWebhookEvent (sw_clock acc) (sw_store acc) webhook event
                                (replies (WebhookEvent._id event)) in
      let res := sw_results acc in
      let res' :=
        match sr_thrown r with
        | None => RetryResults.Make (RetryResults.processed res + 1)
                                    (RetryResults.successful res + 1)
                                    (RetryResults.failed res)
        | Some _ => RetryResults.Make (RetryResults.processed res + 1)
                                      (RetryResults.successful res)
                                      (RetryResults.failed res + 1)
        end in
      retry_loop replies rest
        (MkSweep (sr_store r) (sr_finished r) res'
                 (sw_requests acc ++ match sr_request r with Some q => [q] | None => [] end))
  end.

Definition retryFailedEvents (now : Z) (st : Store) (replies : string -> Reply)
  : Result Sweep :=
  try_catch
    (let retryEvents := List.filter (due now) (webhook_events st) in
     let populated :=
       map (fun e => (e, Db.findById (WebhookEvent.webhookId e) (webhooks st))) retryEvents in
     Ok (retry_loop replies populated (MkSweep st now (RetryResults.Make 0 0 0) [])))
    (fun m => Throw ("Failed to retry webhook events: " +:+ m)).

(** *** Event log *)

Module EventFilters.
Record t := Make {
  limit : Z;
  offset : Z;
  status : option string;
  eventType : option string;
  startDate : option Z;
  endDate : option Z
}.
End EventFilters.

Module Page.
(** [page] and [totalPages] are [None] when the division by [limit]
    does not give a finite number. *)
Record t := Make {
  total : Z;
  limit : Z;
  offset : Z;
  page : option Z;
  totalPages : option Z;
  hasMore : bool;
  data : list WebhookEvent.t
}.
End Page.

Definition given (o : option string) : option string :=
  match o with
  | Some s => if String.eqb s "" then None else Some s
  | None => None
  end.

Definition matches (webhookId : string) (f : EventFilters.t) (e : WebhookEvent.t) : bool :=
  String.eqb (WebhookEvent.webhookId e) webhookId
  && match given (EventFilters.status f) with
     | Some s => String.eqb (Status_name (WebhookEvent.status e)) s
     | None => true
     end
  && match given (EventFilters.eventType f) with
     | Some s => String.eqb (WebhookEvent.eventType e) s
     | None => true
     end
  && match EventFilters.startDate f with
     | Some d => d <=? WebhookEvent.createdAt e
     | None => true
     end
  && match EventFilters.endDate f with
     | Some d => WebhookEvent.createdAt e <=? d
     | None => true
     end.

(** [.sort({ createdAt: -1 })]; the order among equal keys is not fixed
    by the store, here later documents come first. *)
Fixpoint insert_desc (e : WebhookEvent.t) (l : list WebhookEvent.t) : list WebhookEvent.t :=
  match l with
  | [] => [e]
  | x :: rest =>
      if WebhookEvent.createdAt x <? WebhookEvent.createdAt e then e :: l
      else x :: insert_desc e rest
  end.

Definition sort_desc (l : list WebhookEvent.t) : list WebhookEvent.t :=
  fold_right insert_desc [] l.

(** [.limit(n).skip(m)]: a negative skip is refused by the store, a zero
    limit means no limit, a negative limit is taken by its magnitude. *)
Definition page_of (limit offset : Z) (l : list WebhookEvent.t)
  : Result (list WebhookEvent.t) :=
  if offset <? 0 then Throw "Skip value must be non-negative"
  else
    let skipped := skipn (Z.to_nat offset) l in
    Ok (if limit =? 0 then skipped else firstn (Z.to_nat (Z.abs limit)) skipped).

Definition getWebhookEvents (st : Store) (webhookId : string) (filters : EventFilters.t)
  : Result Page.t :=
  try_catch
    (let limit := EventFilters.limit filters in
     let offset := EventFilters.offset filters in
     let found := List.filter (matches webhookId filters) (webhook_events st) in
     let total := Z.of_nat (length found) in
     events ← page_of limit offset (sort_desc found);
     Ok (Page.Make total limit offset
           (if limit =? 0 then None else Some (offset / limit + 1))
           (if limit =? 0 then None else Some (- ((- total) / limit)))
           (offset + limit <? total)
           events))
    (fun m => Throw ("Failed to get webhook events: " +:+ m)).

(** *** Test probe *)

Module TestResult.
Record t := Make {
  success : bool;
  httpStatusCode : option Z;
  responseTime : Z;
  error : option string;
  message : string
}.
End TestResult.

Definition testData (now : Z) : JSON :=
  JObj [("event", JStr "webhook.test");
        ("timestamp", JStr (DateTime.toISOString now));
        ("data", JObj [("logId", JStr "000000000000000000000000");
                       ("provider", JStr "test");
                       ("recipient", JStr "+1234567890");
                       ("status", JStr "delivered");
                       ("messageId", JStr "test-msg-id");
                       ("cost", JReal "0.067");
                       ("message", JStr "This is a test webhook delivery")])].

Definition sendTestWebhook (now : Z) (st : Store) (webhookId username : string)
           (reply : Reply) : Result (TestResult.t * option Request) :=
  try_catch
    (webhook ← getWebhookById st webhookId username;
     let payload := Json.stringify (testData now) in
     let signature := generateSignature payload (Webhook.secret webhook) in
     let request :=
       MkRequest (Webhook.url webhook) (Axios.transformRequest (testData now)) signature
                 "webhook.test" ("test-" +:+ pretty now) "application/json" in
     match Axios.post None (Axios.transformRequest (testData now)) (outcome reply) with
     | Axios.Sent (Resolved status) =>
         Ok (TestResult.Make true (Some status) (latency reply) None
                             "Test webhook sent successfully", Some request)
     | Axios.Sent (Rejected message response_status) =>
         Ok (TestResult.Make false response_status (latency reply) (Some message)
                             "Test webhook failed", Some request)
     | Axios.NotSent message =>
         Ok (TestResult.Make false None 0 (Some message) "Test webhook failed", None)
     end)
    (fun m => Throw ("Failed to send test webhook: " +:+ m)).

(** *** Statistics *)

(** A path that is left out of the JSON when unset. *)
Definition opt_num (key : string) (o : option Z) : list (string * JSON) :=
  match o with
  | Some z => [(key, JNum z)]
  | None => []
  end.

Definition opt_str (key : string) (o : option string) : list (string * JSON) :=
  match o with
  | Some s => [(key, JStr s)]
  | None => []
  end.

(** A stored [stats] sub-document as JSON. *)
Definition stats_json (s : Stats.t) : JSON :=
  JObj ([("totalCalls", JNum (Stats.totalCalls s));
         ("successfulCalls", JNum (Stats.successfulCalls s));
         ("failedCalls", JNum (Stats.failedCalls s))]
        ++ opt_num "lastCall" (Stats.lastCall s)
        ++ opt_num "lastCallStatus" (Stats.lastCallStatus s)
        ++ opt_num "averageResponseTime" (Stats.averageResponseTime s)).

(** [facets] is what evaluating the aggregation over the event log gives:
    it throws, or yields the first element of the result, if any. *)
Definition getWebhookStats (st : Store) (webhookId : string)
           (facets : Result (option JSON)) : Result JSON :=
  try_catch
    (match Db.findById webhookId (webhooks st) with
     | None => Throw (not_found webhookId)
     | Some webhook =>
         events ← facets;
         Ok (JObj [("webhook",
                    JObj [("_id", JStr (Webhook._id webhook));
                          ("name", JStr (Webhook.name webhook));
                          ("url", JStr (Webhook.url webhook));
                          ("isActive", JBool (Webhook.isActive webhook));
                          ("stats", stats_json (Webhook.stats webhook))]);
                   ("eventStats", default (JObj []) events)])
     end)
    (fun m => Throw ("Failed to get webhook stats: " +:+ m)).

(** *** Listing *)

Module ListFilters.
Record t := Make {
  limit : Z;
  offset : Z;
  isActive : option bool
}.
End ListFilters.

(** A document loaded with [.select('-secret')]: every path but
    [secret]. *)
Module Listed.
Record t := Make {
  _id : string;
  username : string;
  url : string;
  name : string;
  description : option string;
  events : list string;
  isActive : bool;
  retryEnabled : bool;
  retryCount : Z;
  retryBackoffMs : Z;
  stats : Stats.t;
  notifyOnFailure : bool;
  maxPayloadSize : Z;
  created_at : Z;
  updated_at : Z;
  lastUpdatedBy : option string
}.
End Listed.

Definition select_without_secret (w : Webhook.t) : Listed.t :=
  Listed.Make (Webhook._id w) (Webhook.username w) (Webhook.url w) (Webhook.name w)
    (Webhook.description w) (Webhook.events w) (Webhook.isActive w)
    (Webhook.retryEnabled w) (Webhook.retryCount w) (Webhook.retryBackoffMs w)
    (Webhook.stats w) (Webhook.notifyOnFailure w) (Webhook.maxPayloadSize w)
    (Webhook.created_at w) (Webhook.updated_at w) (Webhook.lastUpdatedBy w).

Module WebhookPage.
Record t := Make {
  total : Z;
  limit : Z;
  offset : Z;
  page : option Z;
  totalPages : option Z;
  hasMore : bool;
  data : list Listed.t
}.
End WebhookPage.

(** The query [{ username }], with [isActive] when the filter is not
    [null]. *)
Definition listed (username : string) (isActive : option bool) (w : Webhook.t) : bool :=
  String.eqb (Webhook.username w) username
  && match isActive with
     | Some b => Bool.eqb (Webhook.isActive w) b
     | None => true
     end.

(** [.sort({ created_at: -1 })], with ties ordered as by [sort_desc]. *)
Fixpoint insert_newest (w : Webhook.t) (l : list Webhook.t) : list Webhook.t :=
  match l with
  | [] => [w]
  | x :: rest =>
      if Webhook.created_at x <? Webhook.created_at w then w :: l
      else x :: insert_newest w rest
  end.

Definition sort_newest (l : list Webhook.t) : list Webhook.t :=
  fold_right insert_newest [] l.

(** [.limit(n).skip(m)] on subscriptions, as [page_of] on events. *)
Definition page_of_webhooks (limit offset : Z) (l : list Webhook.t)
  : Result (list Webhook.t) :=
  if offset <? 0 then Throw "Skip value must be non-negative"
  else
    let skipped := skipn (Z.to_nat offset) l in
    Ok (if limit =? 0 then skipped else firstn (Z.to_nat (Z.abs limit)) skipped).

Definition getUserWebhooks (st : Store) (username : string) (filters : ListFilters.t)
  : Result WebhookPage.t :=
  try_catch
    (let limit := ListFilters.limit filters in
     let offset := ListFilters.offset filters in
     let found := List.filter (listed username (ListFilters.isActive filters)) (webhooks st) in
     let total := Z.of_nat (length found) in
     page ← page_of_webhooks limit offset (sort_newest found);
     Ok (WebhookPage.Make total limit offset
           (if limit =? 0 then None else Some (offset / limit + 1))
           (if limit =? 0 then None else Some (- ((- total) / limit)))
           (offset + limit <? total)
           (map select_without_secret page)))
    (fun m => Throw ("Failed to get webhooks: " +:+ m)).

End WebhookService.

(* ===================================================================== *)
(** ** routes/api/webhooks.js *)
(* ===================================================================== *)

Record Response := MkResponse { res_status : Z; res_body : JSON }.

(** The body of [POST /api/webhooks]; [None] is an absent field. *)
Module CreateBody.
Record t := Make {
  url : option string;
  name : option string;
  description : option string;
  events : option (list string);
  retryCount : option Z;
  retryBackoffMs : option Z;
  notifyOnFailure : option bool
}.
End CreateBody.

(** The query of [GET /api/webhooks/:webhookId/events], numbers and dates
    already parsed. *)
Module EventsQuery.
Record t := Make {
  limit : option Z;
  offset : option Z;
  status : option string;
  eventType : option string;
  startDate : option Z;
  endDate : option Z
}.
End EventsQuery.

(** The query of [GET /api/webhooks], numbers already parsed; [isActive]
    is the text of the parameter. *)
Module ListQuery.
Record t := Make {
  limit : option Z;
  offset : option Z;
  isActive : option string
}.
End ListQuery.

Module Routes.
Import WebhookService.

Definition failure (code : Z) (msg : string) : Response :=
  MkResponse code (JObj [("success", JBool false); ("msg", JStr msg)]).

(** [res.status(error.message.includes('not found') ? 404 : 403)] *)
Definition denied (msg : string) : Response :=
  failure (if Str.includes "not found" msg then 404 else 403) msg.

Definition falsy (o : option string) : bool :=
  match o with
  | Some s => String.eqb s ""
  | None => true
  end.

Definition strs (l : list string) : JSON := JArr (map JStr l).

(** [POST /api/webhooks] *)
Definition create (strict_arrays : bool) (rng : Entropy) (now : Z) (st : Store)
           (user : string) (body : CreateBody.t) : Response * Store :=
  if falsy (CreateBody.url body) || falsy (CreateBody.name body) then
    (failure 400 "URL and name are required", st)
  else
    let url := default "" (CreateBody.url body) in
    if negb (Str.startsWith "https://" url) && negb (Str.startsWith "http://" url) then
      (failure 400 "Webhook URL must start with http:// or https://", st)
    else
      match createWebhook strict_arrays rng now st
              (CreateData.Make user (CreateBody.url body) (CreateBody.name body)
                 (CreateBody.description body) (CreateBody.events body)
                 (CreateBody.retryCount body) (CreateBody.retryBackoffMs body)
                 (CreateBody.notifyOnFailure body)) with
      | Ok (webhook, st') =>
          (MkResponse 201
             (JObj [("success", JBool true);
                    ("msg", JStr "Webhook created successfully");
                    ("data",
                     JObj ([("_id", JStr (Webhook._id webhook));
                            ("url", JStr (Webhook.url webhook));
                            ("name", JStr (Webhook.name webhook))]
                           ++ opt_str "description" (Webhook.description webhook)
                           ++ [("events", strs (Webhook.events webhook));
                               ("isActive", JBool (Webhook.isActive webhook));
                               ("secret", JStr (Webhook.secret webhook));
                               ("created_at", JNum (Webhook.created_at webhook))]))]),
           st')
      | Throw m => (failure 500 m, st)
      end.

(** [GET /api/webhooks/:webhookId] *)
Definition read (st : Store) (user webhookId : string) : Response :=
  match getWebhookById st webhookId user with
  | Ok webhook =>
      MkResponse 200
        (JObj [("success", JBool true);
               ("data",
                JObj ([("_id", JStr (Webhook._id webhook));
                       ("name", JStr (Webhook.name webhook));
                       ("url", JStr (Webhook.url webhook))]
                      ++ opt_str "description" (Webhook.description webhook)
                      ++ [("events", strs (Webhook.events webhook));
                          ("isActive", JBool (Webhook.isActive webhook));
                          ("secret", JStr (Webhook.secret webhook));
                          ("retryEnabled", JBool (Webhook.retryEnabled webhook));
                          ("retryCount", JNum (Webhook.retryCount webhook));
                          ("retryBackoffMs", JNum (Webhook.retryBackoffMs webhook));
                          ("notifyOnFailure", JBool (Webhook.notifyOnFailure webhook));
                          ("maxPayloadSize", JNum (Webhook.maxPayloadSize webhook));
                          ("stats", stats_json (Webhook.stats webhook));
                          ("created_at", JNum (Webhook.created_at webhook));
                          ("updated_at", JNum (Webhook.updated_at webhook))]))])
  | Throw m => denied m
  end.

(** [PUT /api/webhooks/:webhookId] *)
Definition update (strict_arrays : bool) (now : Z) (st : Store) (user webhookId : string)
           (body : gmap string JSON) : Response * Store :=
  match updateWebhook strict_arrays now st webhookId user body with
  | Ok (webhook, st') =>
      (MkResponse 200
         (JObj [("success", JBool true);
                ("msg", JStr "Webhook updated successfully");
                ("data",
                 JObj [("_id", JStr (Webhook._id webhook));
                       ("name", JStr (Webhook.name webhook));
                       ("url", JStr (Webhook.url webhook));
                       ("events", strs (Webhook.events webhook));
                       ("isActive", JBool (Webhook.isActive webhook));
                       ("updated_at", JNum (Webhook.updated_at webhook))])]),
       st')
  | Throw m => (denied m, st)
  end.

(** [DELETE /api/webhooks/:webhookId] *)
Definition remove (st : Store) (user webhookId : string) : Response * Store :=
  match deleteWebhook st webhookId user with
  | Ok st' =>
      (MkResponse 200
         (JObj [("success", JBool true); ("msg", JStr "Webhook deleted successfully")]), st')
  | Throw m => (denied m, st)
  end.

(** [POST /api/webhooks/:webhookId/rotate-secret] *)
Definition rotate (strict_arrays : bool) (rng : Entropy) (now : Z) (st : Store)
           (user webhookId : string) : Response * Store :=
  match rotateSecret strict_arrays rng now st webhookId user with
  | Ok (webhook, st') =>
      (MkResponse 200
         (JObj [("success", JBool true);
                ("msg", JStr "Webhook secret rotated successfully");
                ("data",
                 JObj [("_id", JStr (Webhook._id webhook));
                       ("secret", JStr (Webhook.secret webhook));
                       ("updated_at", JNum (Webhook.updated_at webhook))])]),
       st')
  | Throw m => (denied m, st)
  end.

(** [POST /api/webhooks/:webhookId/test]; the second component is the
    probe that went out. *)
Definition test (now : Z) (st : Store) (user webhookId : string) (reply : Reply)
  : Response * option Request :=
  match sendTestWebhook now st webhookId user reply with
  | Ok (result, request) =>
      (MkResponse 200
         (JObj [("success", JBool (TestResult.success result));
                ("msg", JStr (TestResult.message result));
                ("data",
                 JObj (opt_num "httpStatusCode" (TestResult.httpStatusCode result)
                       ++ [("responseTime", JNum (TestResult.responseTime result));
                           ("error", match TestResult.error result with
                                     | Some e => if String.eqb e "" then JNull else JStr e
                                     | None => JNull
                                     end)]))]),
       request)
  | Throw m => (denied m, None)
  end.

Definition event_json (e : WebhookEvent.t) : JSON :=
  JObj ([("_id", JStr (WebhookEvent._id e));
         ("eventType", JStr (WebhookEvent.eventType e));
         ("status", JStr (Status_name (WebhookEvent.status e)));
         ("attempts", JNum (WebhookEvent.attempts e));
         ("maxAttempts", JNum (WebhookEvent.maxAttempts e))]
        ++ opt_num "httpStatusCode" (WebhookEvent.httpStatusCode e)
        ++ opt_num "requestDurationMs" (WebhookEvent.requestDurationMs e)
        ++ opt_str "lastAttemptError" (WebhookEvent.lastAttemptError e)
        ++ [("createdAt", JNum (WebhookEvent.createdAt e))]
        ++ opt_num "sentAt" (WebhookEvent.sentAt e)
        ++ opt_num "nextRetryTime" (WebhookEvent.nextRetryTime e)).

Definition num_or_null (o : option Z) : JSON :=
  match o with
  | Some z => JNum z
  | None => JNull
  end.

(** [GET /api/webhooks/:webhookId/events] *)
Definition events (st : Store) (user webhookId : string) (query : EventsQuery.t) : Response :=
  match
    (_ ← getWebhookById st webhookId user;
     getWebhookEvents st webhookId
       (EventFilters.Make (default 50 (EventsQuery.limit query))
                          (default 0 (EventsQuery.offset query))
                          (EventsQuery.status query) (EventsQuery.eventType query)
                          (EventsQuery.startDate query) (EventsQuery.endDate query)))
  with
  | Ok page =>
      MkResponse 200
        (JObj [("success", JBool true);
               ("pagination",
                JObj [("total", JNum (Page.total page));
                      ("limit", JNum (Page.limit page));
                      ("offset", JNum (Page.offset page));
                      ("page", num_or_null (Page.page page));
                      ("totalPages", num_or_null (Page.totalPages page));
                      ("hasMore", JBool (Page.hasMore page))]);
               ("data", JArr (map event_json (Page.data page)))])
  | Throw m => denied m
  end.

(** [GET /api/webhooks/:webhookId/stats] *)
Definition statistics (st : Store) (user webhookId : string)
           (facets : Result (option JSON)) : Response :=
  match
    (_ ← getWebhookById st webhookId user;
     getWebhookStats st webhookId facets)
  with
  | Ok stats => MkResponse 200 (JObj [("success", JBool true); ("data", stats)])
  | Throw m => denied m
  end.

Definition summary_json (w : Listed.t) : JSON :=
  JObj [("_id", JStr (Listed._id w));
        ("name", JStr (Listed.name w));
        ("url", JStr (Listed.url w));
        ("events", strs (Listed.events w));
        ("isActive", JBool (Listed.isActive w));
        ("stats", stats_json (Listed.stats w));
        ("created_at", JNum (Listed.created_at w));
        ("updated_at", JNum (Listed.updated_at w))].

(** [GET /api/webhooks]; [isActive !== null ? isActive === 'true' : null] *)
Definition index (st : Store) (user : string) (query : ListQuery.t) : Response :=
  match getUserWebhooks st user
          (ListFilters.Make (default 20 (ListQuery.limit query))
                            (default 0 (ListQuery.offset query))
                            (option_map (fun s => String.eqb s "true")
                                        (ListQuery.isActive query)))
  with
  | Ok page =>
      MkResponse 200
        (JObj [("success", JBool true);
               ("pagination",
                JObj [("total", JNum (WebhookPage.total page));
                      ("limit", JNum (WebhookPage.limit page));
                      ("offset", JNum (WebhookPage.offset page));
                      ("page", num_or_null (WebhookPage.page page));
                      ("totalPages", num_or_null (WebhookPage.totalPages page));
                      ("hasMore", JBool (WebhookPage.hasMore page))]);
               ("data", JArr (map summary_json (WebhookPage.data page)))])
  | Throw m => failure 500 m
  end.

End Routes.

(* ===================================================================== *)
(** ** services/userProfile.js: UserProfileService *)
(* ===================================================================== *)

(** The paths of a user document that the service reads and writes. *)
Module User.
Record t := Make {
  _id : string;
  username : string;
  email : string;
  name : string;
  date : Z;
  password : string
}.

Definition set_password (v : string) (u : t) : t :=
  Make (_id u) (username u) (email u) (name u) (date u) v.
End User.

(** The three fields [changePassword] destructures; [None] is
    [undefined]. *)
Module PasswordData.
Record t := Make {
  currentPassword : option string;
  newPassword : option string;
  confirmPassword : option string
}.
End PasswordData.

Module Strength.
Record t := Make {
  isValid : bool;
  score : Z;
  issues : list string;
  strength : string
}.
End Strength.

Module UserProfileService.

(** [s.length]: the number of UTF-16 code units of the string whose UTF-8
    bytes are [s].  A continuation byte adds nothing, the lead byte of a
    four-byte sequence stands for a surrogate pair. *)
Fixpoint js_length (s : string) : Z :=
  match s with
  | EmptyString => 0
  | String c s' =>
      let n := Str.code c in
      (if n <? 128 then 1
       else if n <? 192 then 0
       else if n <? 240 then 1
       else 2)
      + js_length s'
  end.

Definition lowercase (n : Z) : bool := (97 <=? n) && (n <=? 122).
Definition uppercase (n : Z) : bool := (65 <=? n) && (n <=? 90).
Definition digit (n : Z) : bool := (48 <=? n) && (n <=? 57).
Definition special (n : Z) : bool := negb (lowercase n || uppercase n || digit n).

(** [/[class]/.test(s)]: some character of [s] is in the class.  The four
    classes are decided on each byte: every byte of a character outside
    ASCII is above 127. *)
Fixpoint test (class : Z -> bool) (s : string) : bool :=
  match s with
  | EmptyString => false
  | String c s' => class (Str.code c) || test class s'
  end.

(** [if (ok) result.score += points; else result.issues.push(issue)] *)
Definition check (ok : bool) (points : Z) (issue : string) (r : Z * list string)
  : Z * list string :=
  if ok then (fst r + points, snd r) else (fst r, snd r ++ [issue]).

Definition validatePasswordStrength (password : string) : Strength.t :=
  let len := js_length password in
  let r1 := check (negb (len <? 6)) 20 "At least 6 characters required" (0, []) in
  let r2 := if 12 <=? len then (fst r1 + 20, snd r1) else r1 in
  let r3 := check (test lowercase password) 15 "Include lowercase letters" r2 in
  let r4 := check (test uppercase password) 15 "Include uppercase letters" r3 in
  let r5 := check (test digit password) 15 "Include numbers" r4 in
  let r6 := check (test special password) 15 "Include special characters" r5 in
  let score := fst r6 in
  Strength.Make (Nat.eqb (length (snd r6)) 0) score (snd r6)
    (if 70 <=? score then "strong" else if 40 <=? score then "medium" else "weak").

(** [User.findById(id)] *)
Fixpoint findById (id : string) (users : list User.t) : option User.t :=
  match users with
  | [] => None
  | u :: rest => if String.eqb (User._id u) id then Some u else findById id rest
  end.

(** [User.findByIdAndDelete(id)] *)
Fixpoint findByIdAndDelete (id : string) (users : list User.t) : list User.t :=
  match users with
  | [] => []
  | u :: rest =>
      if String.eqb (User._id u) id then rest else u :: findByIdAndDelete id rest
  end.

Section Accounts.

(** [bcrypt.compare(plain, hash)] and [bcrypt.hash(plain, salt)] of the
    bcryptjs package, and [user.save()] of the User model, whose schema and
    hooks are not part of these sources: [save] is whatever it does to the
    collection, or the error it throws. *)
Variable compare : string -> string -> bool.
Variable hash : string -> string -> string.
Variable save : User.t -> list User.t -> Result (list User.t).

(** [salt] is the outcome of [bcrypt.genSalt(10)]. *)
Definition changePassword (salt : string) (users : list User.t) (userId : string)
           (data : PasswordData.t) : Result (JSON * list User.t) :=
  try_catch
    (match PasswordData.currentPassword data, PasswordData.newPassword data,
           PasswordData.confirmPassword data with
     | Some currentPassword, Some newPassword, Some confirmPassword =>
         if String.eqb currentPassword "" || String.eqb newPassword ""
            || String.eqb confirmPassword ""
         then Throw "All password fields are required"
         else if negb (String.eqb newPassword confirmPassword)
         then Throw "New passwords do not match"
         else if js_length newPassword <? 6
         then Throw "Password must be at least 6 characters long"
         else if 50 <? js_length newPassword
         then Throw "Password must not exceed 50 characters"
         else if String.eqb currentPassword newPassword
         then Throw "New password must be different from current password"
         else
           match findById userId users with
           | None => Throw "User not found"
           | Some user =>
               if negb (compare currentPassword (User.password user))
               then Throw "Current password is incorrect"
               else
                 let hashedPassword := hash newPassword salt in
                 users' ← save (User.set_password hashedPassword user) users;
                 Ok (JObj [("success", JBool true);
                           ("msg", JStr "Password changed successfully");
                           ("user", JObj [("_id", JStr (User._id user));
                                          ("username", JStr (User.username user));
                                          ("email", JStr (User.email user));
                                          ("name", JStr (User.name user))])],
                     users')
           end
     | _, _, _ => Throw "All password fields are required"
     end)
    (fun m => Throw ("Password change failed: " +:+ m)).

Definition deleteAccount (users : list User.t) (userId : string) (password : option string)
  : Result (JSON * list User.t) :=
  try_catch
    (match password with
     | None => Throw "Password is required for account deletion"
     | Some password =>
         if String.eqb password "" then Throw "Password is required for account deletion"
         else
           match findById userId users with
           | None => Throw "User not found"
           | Some user =>
               if negb (compare password (User.password user))
               then Throw "Password is incorrect"
               else Ok (JObj [("success", JBool true);
                              ("msg", JStr "Account deleted successfully")],
                        findByIdAndDelete userId users)
           end
     end)
    (fun m => Throw ("Account deletion failed: " +:+ m)).

End Accounts.

End UserProfileService.

(* ===================================================================== *)
(** ** routes/api/users.js: the profile routes *)
(* ===================================================================== *)

Module UserRoutes.
Import UserProfileService.

Section Accounts.

Variable compare : string -> string -> bool.
Variable hash : string -> string -> string.
Variable save : User.t -> list User.t -> Result (list User.t).

(** [PUT /api/users/change-password] *)
Definition change_password (salt : string) (users : list User.t) (userId : string)
           (body : PasswordData.t) : Response * list User.t :=
  if Routes.falsy (PasswordData.currentPassword body)
     || Routes.falsy (PasswordData.newPassword body)
     || Routes.falsy (PasswordData.confirmPassword body)
  then (Routes.failure 400 "All password fields are required", users)
  else
    match changePassword compare hash save salt users userId body with
    | Ok (result, users') => (MkResponse 200 result, users')
    | Throw m => (Routes.failure 400 m, users)
    end.

(** [DELETE /api/users/account] *)
Definition delete_account (users : list User.t) (userId : string) (password : option string)
  : Response * list User.t :=
  if Routes.falsy password
  then (Routes.failure 400 "Password is required to delete account", users)
  else
    match deleteAccount compare users userId password with
    | Ok (result, users') => (MkResponse 200 result, users')
    | Throw m => (Routes.failure 400 m, users)
    end.

End Accounts.

(** The methods the router is used with. *)
Inductive Method : Type := GET | POST | PUT | DELETE.

Definition Method_eqb (a b : Method) : bool :=
  match a, b with
  | GET, GET | POST, POST | PUT, PUT | DELETE, DELETE => true
  | _, _ => false
  end.

(** The handlers of the file, named by their route and, for the two on
    [GET /profile], by where the profile comes from. *)
Inductive Handler : Type :=
| h_register
| h_login
| h_profile_of_token
| h_register_confirm
| h_update_profile
| h_change_password
| h_profile_of_service
| h_password_strength
| h_delete_account.

(** The routes in the order in which the file registers them. *)
Definition table : list (Method * string * Handler) :=
  [(POST, "/register", h_register);
   (POST, "/login", h_login);
   (GET, "/profile", h_profile_of_token);
   (GET, "/register-confirm/:token", h_register_confirm);
   (PUT, "/profile", h_update_profile);
   (PUT, "/change-password", h_change_password);
   (GET, "/profile", h_profile_of_service);
   (GET, "/password-strength/:password", h_password_strength);
   (DELETE, "/account", h_delete_account)].

(** The router hands a request to the first route whose method and path
    pattern match it; no handler of the file passes the request on.
    [matches pattern path] is the path matching of the framework. *)
Definition dispatch (matches : string -> string -> bool) (m : Method) (path : string)
  : option Handler :=
  option_map snd
    (List.find (fun r => Method_eqb (fst (fst r)) m && matches (snd (fst r)) path) table).

End UserRoutes.

(* ===================================================================== *)
(** ** Scenarios, invariants and the properties as the specification
       words them *)
(* ===================================================================== *)

Module Scenario.

(** The subscription of the end-to-end scenarios: one receiver,
    [sms.delivered] only, three attempts, one second of base backoff. *)
Definition hook : Webhook.t :=
  Webhook.Make "0000000000000000000000a1" "t1" "http://recv.test/h" "receiver" None
    ["sms.delivered"] true "0123456789abcdef0123456789abcdef" true 3 1000
    Stats.initial true 1048576 1705314000000 1705314000000 None.

Definition x1 : JSON := JObj [("id", JStr "x1")].

Definition event_x1 : WebhookEvent.t :=
  WebhookEvent.Make "0000000000000000000000e1" "0000000000000000000000a1" None
    "sms.delivered" x1 pending None None 0 3 None None None None None 1705314600000 None.

Definition store : Store := MkStore [hook] [event_x1] 2.

Definition t0 : Z := 1705314600000.

Definition ok200 : Reply := MkReply (Responded 200) 25.
Definition moved301 : Reply := MkReply (Responded 301) 25.
Definition unavailable503 : Reply := MkReply (Responded 503) 25.

(** Scenario S3: the same subscription with five attempts. *)
Definition hook5 : Webhook.t := Webhook.set_retryCount 5 hook.

Definition event5 : WebhookEvent.t :=
  WebhookEvent.Make "0000000000000000000000e1" "0000000000000000000000a1" None
    "sms.delivered" x1 pending None None 0 5 None None None None None 1705314600000 None.

Definition store5 : Store := MkStore [hook5] [event5] 2.

(** A subscription with the largest base backoff the schema admits, and an
    event that has failed once already. *)
Definition hook_hour : Webhook.t := Webhook.set_retryBackoffMs 3600000 hook.

Definition event_once_failed : WebhookEvent.t :=
  WebhookEvent.Make "0000000000000000000000e1" "0000000000000000000000a1" None
    "sms.delivered" x1 pending None None 1 3 (Some 1705314600025)
    (Some "Request failed with status code 503") (Some 1705318200025) None None
    1705314600000 None.

(** A stored subscription whose [retryEnabled] flag is off. *)
Definition hook_retry_off : Webhook.t :=
  Webhook.Make "0000000000000000000000a1" "t1" "http://recv.test/h" "receiver" None
    ["sms.delivered"] true "0123456789abcdef0123456789abcdef" false 3 1000
    Stats.initial true 1048576 1705314000000 1705314000000 None.

Definition store_hour : Store := MkStore [hook_hour] [event_once_failed] 2.
Definition store_retry_off : Store := MkStore [hook_retry_off] [event_x1] 2.




(** A store with three subscriptions of which two match an
    [sms.delivered] emission of tenant [t1]: the third is inactive. *)
Definition hook_b : Webhook.t :=
  Webhook.Make "0000000000000000000000a2" "t1" "https://b.test/cb" "second" None
    ["sms.delivered"; "sms.failed"] true "fedcba9876543210fedcba9876543210" true 5 5000
    Stats.initial true 1048576 1705314000000 1705314000000 None.

Definition hook_inactive : Webhook.t :=
  Webhook.Make "0000000000000000000000a3" "t1" "https://c.test/cb" "third" None
    ["sms.delivered"] false "00112233445566778899aabbccddeeff" true 3 5000
    Stats.initial true 1048576 1705314000000 1705314000000 None.

Definition store_fanout : Store := MkStore [hook; hook_inactive; hook_b] [] 4.

(** Bodies for [POST /api/webhooks]: the subscription of scenario S1, and
    variants that break one schema bound each. *)
Definition create_s1 : CreateBody.t :=
  CreateBody.Make (Some "http://recv.test/h") (Some "receiver") None
    (Some ["sms.delivered"]) (Some 3) (Some 1000) None.

Definition create_eleven_attempts : CreateBody.t :=
  CreateBody.Make (Some "http://recv.test/h") (Some "receiver") None
    (Some ["sms.delivered"]) (Some 11) (Some 1000) None.

Definition create_zero_attempts : CreateBody.t :=
  CreateBody.Make (Some "http://recv.test/h") (Some "receiver") None
    (Some ["sms.delivered"]) (Some 0) (Some 1000) None.

Definition create_unknown_event : CreateBody.t :=
  CreateBody.Make (Some "http://recv.test/h") (Some "receiver") None
    (Some ["sms.sent"; "sms.opened"]) None None None.

(** Sixteen bytes standing for one draw of [crypto.randomBytes(16)]. *)
Definition dice : Entropy :=
  fun n => firstn n [17; 34; 51; 68; 85; 102; 119; 136; 153; 170; 187; 204; 221; 238; 255; 0].

Definition empty_store : Store := MkStore [] [] 1.


End Scenario.




(** The attempt did not end in a resolved response. *)
Definition attempt_fails (w : Webhook.t) (e : WebhookEvent.t) (reply : Reply) : Prop :=
  forall status,
    Axios.post (Some (Webhook.maxPayloadSize w)) (Json.stringify (WebhookEvent.payload e))
               (outcome reply)
    <> Axios.Sent (Resolved status).









(** [_id] is the primary key of the collection. *)
Definition unique_ids (st : Store) : Prop := List.NoDup (map Webhook._id (webhooks st)).





(** The 403 answer: nothing but a message. *)
Definition forbidden (msg : string) : Response :=
  MkResponse 403 (JObj [("success", JBool false); ("msg", JStr msg)]).

(** The bounds the specification puts on the supplied fields. *)
Definition breaks_a_bound (body : CreateBody.t) : Prop :=
  (exists n, CreateBody.retryCount body = Some n /\ ~ 1 <= n <= 10)
  \/ (exists n, CreateBody.retryBackoffMs body = Some n /\ ~ 1000 <= n <= 3600000)
  \/ (exists l, CreateBody.events body = Some l
                /\ (l = [] \/ exists e, In e l /\ str_in e event_enum = false)).

(** The validation rule as the specification words it. *)
Definition create_validation_as_stated (strict_arrays : bool) (rng : Entropy) (now : Z)
           (st : Store) (user : string) (body : CreateBody.t) : Prop :=
  breaks_a_bound body ->
  res_status (fst (Routes.create strict_arrays rng now st user body)) = 400.

(** The checks the route makes itself. *)
Definition route_rejects (body : CreateBody.t) : bool :=
  Routes.falsy (CreateBody.url body) || Routes.falsy (CreateBody.name body)
  || (negb (Str.startsWith "https://" (default "" (CreateBody.url body)))
      && negb (Str.startsWith "http://" (default "" (CreateBody.url body)))).




(** An answer that carries nothing but a status and a message. *)
Definition not_found_answer (msg : string) : Response :=
  MkResponse 404 (JObj [("success", JBool false); ("msg", JStr msg)]).

(** The request [sendWebhookEvent] builds at clock [t] for event [e] of
    subscription [w]. *)
Definition request_for (t : Z) (w : Webhook.t) (e : WebhookEvent.t) : Request :=
  MkRequest (Webhook.url w) (Json.stringify (WebhookEvent.payload e))
    (WebhookService.generateSignature
       (Json.stringify (WebhookService.envelope t e)) (Webhook.secret w))
    (WebhookEvent.eventType e) (WebhookEvent._id e) "application/json".

(** A request of a sweep at [now] over [st]: it belongs to a stored event
    that was due, and was built from the subscription stored for it. *)
Definition from_due (now : Z) (st : Store) (q : Request) : Prop :=
  exists e w t,
    In e (webhook_events st)
    /\ WebhookService.due now e = true
    /\ Db.findById (WebhookEvent.webhookId e) (webhooks st) = Some w
    /\ q = request_for t w e.



(** What a delivery can never change in an event. *)
Definition same_event (e e' : WebhookEvent.t) : Prop :=
  WebhookEvent._id e' = WebhookEvent._id e
  /\ WebhookEvent.webhookId e' = WebhookEvent.webhookId e
  /\ WebhookEvent.logId e' = WebhookEvent.logId e
  /\ WebhookEvent.eventType e' = WebhookEvent.eventType e
  /\ WebhookEvent.payload e' = WebhookEvent.payload e
  /\ WebhookEvent.maxAttempts e' = WebhookEvent.maxAttempts e
  /\ WebhookEvent.createdAt e' = WebhookEvent.createdAt e.

(** [w'] is [w] with, at most, other statistics. *)
Definition same_configuration (w w' : Webhook.t) : Prop :=
  w' = Webhook.set_stats (Webhook.stats w') w.

(** The two stores hold the same subscriptions up to their statistics, and
    log rows under the same ids. *)
Definition same_documents (st st' : Store) : Prop :=
  Forall2 same_configuration (webhooks st) (webhooks st')
  /\ map WebhookEvent._id (webhook_events st') = map WebhookEvent._id (webhook_events st)
  /\ oid_counter st' = oid_counter st.


(** Newest first by [createdAt]. *)
Definition newest_first (l : list WebhookEvent.t) : Prop :=
  forall i j a b,
    (i < j)%nat -> nth_error l i = Some a -> nth_error l j = Some b ->
    WebhookEvent.createdAt b <= WebhookEvent.createdAt a.

(** The filters of a page request that asks for [limit] rows from
    [offset] on. *)
Definition page_request (like : WebhookService.EventFilters.t) (limit offset : Z)
  : WebhookService.EventFilters.t :=
  WebhookService.EventFilters.Make limit offset
    (WebhookService.EventFilters.status like) (WebhookService.EventFilters.eventType like)
    (WebhookService.EventFilters.startDate like) (WebhookService.EventFilters.endDate like).

(** What the list may show of the store to [user]: that tenant's
    subscriptions, each without its secret. *)
Definition visible_to (user : string) (st : Store) : list WebhookService.Listed.t :=
  map WebhookService.select_without_secret
      (List.filter (fun w => String.eqb (Webhook.username w) user) (webhooks st)).

(** Two subscriptions that differ in their secrets at most. *)
Definition same_but_secret (a b : Webhook.t) : Prop :=
  WebhookService.select_without_secret a = WebhookService.select_without_secret b.

(** Two stores that hold the same documents but for the secrets of the
    subscriptions. *)
Definition same_but_secrets (st1 st2 : Store) : Prop :=
  Forall2 same_but_secret (webhooks st1) (webhooks st2)
  /\ webhook_events st1 = webhook_events st2.

(** [_id] is the primary key of the event log. *)
Definition unique_event_ids (st : Store) : Prop :=
  List.NoDup (map WebhookEvent._id (webhook_events st)).

(** What a delivery reads of a subscription: its id, where to send, the
    secret to sign with, the base backoff and the size limit. *)
Definition same_for_delivery (w w' : Webhook.t) : Prop :=
  Webhook._id w' = Webhook._id w
  /\ Webhook.url w' = Webhook.url w
  /\ Webhook.secret w' = Webhook.secret w
  /\ Webhook.retryBackoffMs w' = Webhook.retryBackoffMs w
  /\ Webhook.maxPayloadSize w' = Webhook.maxPayloadSize w.

Definition same_for_delivery_opt (o o' : option Webhook.t) : Prop :=
  match o, o' with
  | Some w, Some w' => same_for_delivery w w'
  | None, None => True
  | _, _ => False
  end.

(** Two stores with the same log whose subscriptions agree on what a
    delivery reads. *)
Definition same_for_deliveries (st st' : Store) : Prop :=
  Forall2 same_for_delivery (webhooks st) (webhooks st')
  /\ webhook_events st' = webhook_events st.

(** [n] dispatches in a row of one event for one subscription, each
    started when the one before has finished, the receiver giving [reply]
    every time. *)
Fixpoint dispatches (n : nat) (now : Z) (st : Store) (w : Webhook.t) (e : WebhookEvent.t)
         (reply : Reply) : Store * WebhookEvent.t :=
  match n with
  | O => (st, e)
  | S n' =>
      let r := WebhookService.sendWebhookEvent now st (Some w) e reply in
      dispatches n' (WebhookService.sr_finished r) (WebhookService.sr_store r) w
                 (WebhookService.sr_event r) reply
  end.

(* ===================================================================== *)
(** ** Known answers for the library models *)
(* ===================================================================== *)

Example sha256_abc :
  Crypto.hex (Crypto.sha256 (Crypto.utf8 "abc"))
  = "ba7816bf8f01cfea414140de5dae2223b00361a396177a9cb410ff61f20015ad".
Proof. vm_compute. reflexivity. Qed.

Example sha256_empty :
  Crypto.hex (Crypto.sha256 [])
  = "e3b0c44298fc1c149afbf4c8996fb92427ae41e4649b934ca495991b7852b855".
Proof. vm_compute. reflexivity. Qed.

Example hmac_fox :
  Crypto.hex (Crypto.hmac_sha256 (Crypto.utf8 "key")
                (Crypto.utf8 "The quick brown fox jumps over the lazy dog"))
  = "f7bc83f430538424b13298e6aa6fb143ef4d59a14946175997479dbc2d1a3cd8".
Proof. vm_compute. reflexivity. Qed.

Lemma str_length_append (a b : string) :
  String.length (a +:+ b) = (String.length a + String.length b)%nat.
Proof. induction a as [|c a IH]; simpl; [reflexivity | now rewrite IH]. Qed.

Example iso_epoch : DateTime.toISOString 0 = "1970-01-01T00:00:00.000Z".
Proof. vm_compute. reflexivity. Qed.

Example iso_2024 : DateTime.toISOString 1705314600123 = "2024-01-15T10:30:00.123Z".
Proof. vm_compute. reflexivity. Qed.

Example iso_leap : DateTime.toISOString 951868799999 = "2000-02-29T23:59:59.999Z".
Proof. vm_compute. reflexivity. Qed.

Example stringify_nested :
  Json.stringify (JObj [("id", JStr "x1"); ("n", JArr [JNum 1; JNull; JBool true])])
  = String "{"%char (String Str.quote_char ("id" +:+ String Str.quote_char (":" +:+
      String Str.quote_char ("x1" +:+ String Str.quote_char ("," +:+
      String Str.quote_char ("n" +:+ String Str.quote_char ":[1,null,true]}")))))).
Proof. vm_compute. reflexivity. Qed.

(* ===================================================================== *)
(** ** Basic facts about the embedding *)
(* ===================================================================== *)

Section CryptoFacts.

Lemma hex_length (bs : list Z) : String.length (Crypto.hex bs) = (2 * length bs)%nat.
Proof. induction bs as [|b bs IH]; simpl; [reflexivity | rewrite IH; lia]. Qed.

Lemma sha256_length (msg : list Z) : length (Crypto.sha256 msg) = 32%nat.
Proof. reflexivity. Qed.

Lemma utf8_length (s : string) : length (Crypto.utf8 s) = String.length s.
Proof.
  unfold Crypto.utf8. rewrite length_map.
  induction s as [|c s IH]; simpl; [reflexivity | now rewrite IH].
Qed.

Lemma code_eqb (a b : ascii) : (Str.code a =? Str.code b) = Ascii.eqb a b.
Proof.
  unfold Str.code. destruct (Ascii.eqb_spec a b) as [->|Hne].
  - apply Z.eqb_refl.
  - apply Z.eqb_neq. intros H. apply Hne.
    apply N2Z.inj in H.
    rewrite <- (ascii_N_embedding a), <- (ascii_N_embedding b). now rewrite H.
Qed.

Lemma bytes_eqb_utf8 (a b : string) :
  WebhookService.bytes_eqb (Crypto.utf8 a) (Crypto.utf8 b) = String.eqb a b.
Proof.
  revert b. induction a as [|x a IH]; intros [|y b]; simpl; try reflexivity.
  change (Z.of_N (N_of_ascii x)) with (Str.code x).
  change (Z.of_N (N_of_ascii y)) with (Str.code y).
  rewrite code_eqb. fold (Crypto.utf8 a) (Crypto.utf8 b). rewrite IH.
  destruct (Ascii.eqb x y); reflexivity.
Qed.

Lemma generateSignature_length (payload secret : string) :
  String.length (WebhookService.generateSignature payload secret) = 64%nat.
Proof.
  unfold WebhookService.generateSignature, Crypto.hmac_sha256.
  rewrite hex_length, sha256_length. reflexivity.
Qed.

End CryptoFacts.

(* ===================================================================== *)
(** ** Signature verification helper *)
(* ===================================================================== *)

(** C10. [verifySignature] yields a boolean exactly when the candidate
    signature is 64 bytes long, the length of the expected lowercase-hex
    HMAC; the boolean then says whether the two are equal.  For a candidate
    of any other length the call throws the length error of
    [crypto.timingSafeEqual] instead of returning [false]. *)
Theorem verifySignature_boolean_only_on_equal_length :
  forall payload signature secret : string,
    WebhookService.verifySignature payload signature secret
    = if Nat.eqb (String.length signature) 64
      then Ok (String.eqb signature (WebhookService.generateSignature payload secret))
      else Throw "Input buffers must have the same byte length".
Proof.
  intros payload signature secret.
  unfold WebhookService.verifySignature, WebhookService.timingSafeEqual.
  rewrite !utf8_length, generateSignature_length, bytes_eqb_utf8.
  reflexivity.
Qed.

Example verifySignature_short_candidate :
  WebhookService.verifySignature "{}" "deadbeef" "s3cret"
  = Throw "Input buffers must have the same byte length".
Proof. vm_compute. reflexivity. Qed.

Example verifySignature_wrong_candidate :
  WebhookService.verifySignature "{}"
    "0000000000000000000000000000000000000000000000000000000000000000" "s3cret"
  = Ok false.
Proof. vm_compute. reflexivity. Qed.

(* ===================================================================== *)
(** ** Signing of outbound requests *)
(* ===================================================================== *)

Section Signing.

Lemma stringify_envelope (e t d : JSON) :
  Json.stringify (JObj [("event", e); ("timestamp", t); ("data", d)])
  = "{" +:+ ((Json.quote "event" +:+ ":" +:+ Json.stringify e +:+ "," +:+
              Json.quote "timestamp" +:+ ":" +:+ Json.stringify t +:+ "," +:+
              Json.quote "data" +:+ ":" +:+ Json.stringify d +:+ "") +:+ "}").
Proof. reflexivity. Qed.

(** The signed text strictly contains the serialised payload. *)
Lemma envelope_longer (now : Z) (e : WebhookEvent.t) :
  (String.length (Json.stringify (WebhookEvent.payload e))
   < String.length (Json.stringify (WebhookService.envelope now e)))%nat.
Proof.
  unfold WebhookService.envelope. rewrite stringify_envelope.
  rewrite !str_length_append. simpl. lia.
Qed.

(** What [sendWebhookEvent] puts on the wire, whenever it sends: the body
    is the serialised payload, while the signature is computed over the
    serialised envelope, which is a different text. *)
Lemma sendWebhookEvent_signs_envelope
      (now : Z) (st : Store) (w : Webhook.t) (e : WebhookEvent.t) (reply : Reply) (q : Request) :
  WebhookService.sr_request (WebhookService.sendWebhookEvent now st (Some w) e reply) = Some q ->
  req_body q = Json.stringify (WebhookEvent.payload e)
  /\ X_Webhook_Signature q
     = WebhookService.generateSignature
         (Json.stringify (WebhookService.envelope now e)) (Webhook.secret w)
  /\ Json.stringify (WebhookService.envelope now e) <> req_body q.
Proof.
  assert (Hne : Json.stringify (WebhookService.envelope now e)
                <> Json.stringify (WebhookEvent.payload e)).
  { intros Heq. pose proof (envelope_longer now e) as Hlen. rewrite Heq in Hlen. lia. }
  unfold WebhookService.sendWebhookEvent, WebhookService.on_failure.
  destruct (Axios.post _ _ _) as [m|[status|m rs]];
    repeat match goal with |- context [if ?c then _ else _] => destruct c end;
    cbn [WebhookService.sr_request]; intros H; inversion H; subst; clear H;
    cbn [req_body X_Webhook_Signature]; unfold Axios.transformRequest; auto.
Qed.

(** The test probe, by contrast, signs exactly the body it posts. *)
Lemma sendTestWebhook_signs_body
      (now : Z) (st : Store) (id user : string) (reply : Reply)
      (res : WebhookService.TestResult.t) (q : Request) (w : Webhook.t) :
  WebhookService.getWebhookById st id user = Ok w ->
  WebhookService.sendTestWebhook now st id user reply = Ok (res, Some q) ->
  X_Webhook_Signature q = WebhookService.generateSignature (req_body q) (Webhook.secret w).
Proof.
  intros Hw. unfold WebhookService.sendTestWebhook. rewrite Hw.
  cbn [mbind Result_bind rbind try_catch].
  destruct (Axios.post _ _ _) as [m|[status|m rs]];
    cbn [try_catch]; intros H; inversion H; subst; reflexivity.
Qed.

End Signing.

(** C1 (the code departs from the claim).  Scenario S1: the payload
    [{"id":"x1"}] is delivered to the scenario subscription and answered
    with 200.  The request body is the serialised payload, yet the
    [X-Webhook-Signature] header is the HMAC of the serialised envelope
    [{event, timestamp, data}], so it differs from the lowercase-hex
    HMAC-SHA256 of the body under the subscription's secret. *)
Theorem sendWebhookEvent_signature_not_of_body :
  exists q,
    WebhookService.sr_request
      (WebhookService.sendWebhookEvent Scenario.t0 Scenario.store (Some Scenario.hook)
         Scenario.event_x1 Scenario.ok200) = Some q
    /\ req_body q = Json.stringify Scenario.x1
    /\ X_Webhook_Signature q
       = "9c4219900f0f400d0ccfa8135d597da4ecf010fc9f26b294a80d3c427fa84c92"
    /\ Crypto.hex (Crypto.hmac_sha256 (Crypto.utf8 (Webhook.secret Scenario.hook))
                                      (Crypto.utf8 (req_body q)))
       = "cf921c4d0b82ad1b3bd3f821fbc3b58d613846fd9f52cccfb3ab0163e04dd052"
    /\ X_Webhook_Signature q
       <> Crypto.hex (Crypto.hmac_sha256 (Crypto.utf8 (Webhook.secret Scenario.hook))
                                         (Crypto.utf8 (req_body q))).
Proof.
  eexists. split; [vm_compute; reflexivity |].
  repeat split; try (vm_compute; reflexivity).
  vm_compute. discriminate.
Qed.

(* ===================================================================== *)
(** ** Store lemmas *)
(* ===================================================================== *)

Section StoreFacts.

Lemma findById_update_same (id : string) (f : Webhook.t -> Webhook.t) (l : list Webhook.t) :
  (forall w, Webhook._id (f w) = Webhook._id w) ->
  Db.findById id (Db.update_webhook id f l) = option_map f (Db.findById id l).
Proof.
  intros Hid. induction l as [|x l IH]; simpl; [reflexivity |].
  destruct (String.eqb (Webhook._id x) id) eqn:E; simpl.
  - rewrite Hid, E. reflexivity.
  - rewrite E. exact IH.
Qed.

Lemma findById_update_other (id id' : string) (f : Webhook.t -> Webhook.t) (l : list Webhook.t) :
  (forall w, Webhook._id (f w) = Webhook._id w) ->
  id' <> id ->
  Db.findById id' (Db.update_webhook id f l) = Db.findById id' l.
Proof.
  intros Hid Hne. induction l as [|x l IH]; simpl; [reflexivity |].
  destruct (String.eqb (Webhook._id x) id) eqn:E; simpl.
  - rewrite Hid. apply String.eqb_eq in E. rewrite E.
    destruct (String.eqb id id') eqn:E'; [|reflexivity].
    apply String.eqb_eq in E'. congruence.
  - destruct (String.eqb (Webhook._id x) id'); [reflexivity | exact IH].
Qed.

Lemma bump_id (f : Stats.t -> Stats.t) (w : Webhook.t) :
  Webhook._id (WebhookService.bump f w) = Webhook._id w.
Proof. reflexivity. Qed.

(** Every dispatch leaves the subscriptions as they were, except for one
    stats update on the subscription it was sent for. *)
Lemma on_failure_webhooks (t : Z) (st : Store) (w : Webhook.t) (e : WebhookEvent.t)
      (m : string) (q : option Request) :
  webhooks (WebhookService.sr_store (WebhookService.on_failure t st (Some w) e m q))
  = Db.update_webhook (Webhook._id w)
      (WebhookService.bump (WebhookService.stats_failure t)) (webhooks st).
Proof.
  unfold WebhookService.on_failure.
  destruct (_ <? _); reflexivity.
Qed.

Lemma on_failure_event (t : Z) (st : Store) (w : Webhook.t) (e : WebhookEvent.t)
      (m : string) (q : option Request) :
  let r := WebhookService.on_failure t st (Some w) e m q in
  WebhookEvent.attempts (WebhookService.sr_event r) = WebhookEvent.attempts e + 1
  /\ WebhookEvent.maxAttempts (WebhookService.sr_event r) = WebhookEvent.maxAttempts e
  /\ WebhookEvent.payload (WebhookService.sr_event r) = WebhookEvent.payload e
  /\ WebhookService.sr_finished r = t
  /\ WebhookService.sr_request r = q
  /\ (if WebhookEvent.attempts e + 1 <? WebhookEvent.maxAttempts e
      then WebhookEvent.status (WebhookService.sr_event r) = pending
           /\ WebhookEvent.nextRetryTime (WebhookService.sr_event r)
              = Some (t + WebhookService.backoff (Webhook.retryBackoffMs w)
                                                 (WebhookEvent.attempts e + 1))
      else WebhookEvent.status (WebhookService.sr_event r) = failed
           /\ WebhookEvent.nextRetryTime (WebhookService.sr_event r)
              = WebhookEvent.nextRetryTime e).
Proof.
  unfold WebhookService.on_failure. cbn [WebhookService.mark_attempt WebhookEvent.attempts
    WebhookEvent.maxAttempts].
  destruct (_ <? _); cbn; repeat split; reflexivity.
Qed.

(** The three ways one dispatch can go. *)
Lemma sendWebhookEvent_cases (now : Z) (st : Store) (w : Webhook.t) (e : WebhookEvent.t)
      (reply : Reply) :
  let body := Json.stringify (WebhookEvent.payload e) in
  let q := MkRequest (Webhook.url w) body
             (WebhookService.generateSignature
                (Json.stringify (WebhookService.envelope now e)) (Webhook.secret w))
             (WebhookEvent.eventType e) (WebhookEvent._id e) "application/json" in
  let t := now + latency reply in
  match Axios.post (Some (Webhook.maxPayloadSize w)) body (outcome reply) with
  | Axios.Sent (Resolved status) =>
      WebhookService.sendWebhookEvent now st (Some w) e reply
      = WebhookService.MkSend
          (WebhookService.inc_stats (Webhook._id w)
             (WebhookService.stats_success t status (t - now))
             (WebhookService.save_event (WebhookService.mark_success t status (t - now) e) st))
          (WebhookService.mark_success t status (t - now) e) (Some q) t None
  | Axios.Sent (Rejected m _) =>
      WebhookService.sendWebhookEvent now st (Some w) e reply
      = WebhookService.on_failure t st (Some w) e m (Some q)
  | Axios.NotSent m =>
      WebhookService.sendWebhookEvent now st (Some w) e reply
      = WebhookService.on_failure now st (Some w) e m None
  end.
Proof.
  cbv zeta. unfold WebhookService.sendWebhookEvent, Axios.transformRequest.
  destruct (Axios.post _ _ _) as [m|[status|m rs]]; reflexivity.
Qed.

Lemma post_responded (maxBody : option Z) (body : string) (code : Z) :
  Axios.body_allowed maxBody body = true ->
  Axios.post maxBody body (Responded code)
  = Axios.Sent (if Axios.validateStatus code then Resolved code
                else Rejected ("Request failed with status code " +:+ pretty code) (Some code)).
Proof.
  intros H. unfold Axios.post, Axios.settle. rewrite H.
  destruct (Axios.validateStatus code); reflexivity.
Qed.

Lemma validateStatus_spec (code : Z) :
  Axios.validateStatus code = true <-> 200 <= code < 300.
Proof. unfold Axios.validateStatus. lia. Qed.

End StoreFacts.

(* ===================================================================== *)
(** ** Outcome classification of one attempt *)
(* ===================================================================== *)





(* ===================================================================== *)
(** ** Retry scheduling and backoff *)
(* ===================================================================== *)


(** The dispatcher does not read [retryEnabled]: a subscription stored with
    the flag off still gets its retry scheduled. *)
Lemma retry_scheduled_with_flag_off :
  let r := WebhookService.sendWebhookEvent Scenario.t0 Scenario.store_retry_off
             (Some Scenario.hook_retry_off) Scenario.event_x1 Scenario.unavailable503 in
  Webhook.retryEnabled Scenario.hook_retry_off = false
  /\ WebhookEvent.status (WebhookService.sr_event r) = pending
  /\ WebhookEvent.nextRetryTime (WebhookService.sr_event r) = Some (Scenario.t0 + 25 + 1000).
Proof. cbv zeta. repeat split; vm_compute; reflexivity. Qed.

(** The schedule after a failed attempt, for any subscription document. *)
Lemma failed_attempt_schedule :
  forall (now : Z) (st : Store) (w : Webhook.t) (e : WebhookEvent.t) (reply : Reply),
    0 <= WebhookEvent.attempts e ->
    attempt_fails w e reply ->
    let r := WebhookService.sendWebhookEvent now st (Some w) e reply in
    let e' := WebhookService.sr_event r in
    WebhookEvent.attempts e' = WebhookEvent.attempts e + 1
    /\ (WebhookEvent.attempts e + 1 < WebhookEvent.maxAttempts e ->
        WebhookEvent.status e' = pending
        /\ WebhookEvent.nextRetryTime e'
           = Some (WebhookService.sr_finished r
                   + Webhook.retryBackoffMs w * 2 ^ WebhookEvent.attempts e))
    /\ (WebhookEvent.maxAttempts e <= WebhookEvent.attempts e + 1 ->
        WebhookEvent.status e' = failed
        /\ WebhookEvent.nextRetryTime e' = WebhookEvent.nextRetryTime e).
Proof.
  intros now st w e reply Hatt Hfail r e'.
  assert (Hgen : forall t m q,
             r = WebhookService.on_failure t st (Some w) e m q ->
             WebhookEvent.attempts e' = WebhookEvent.attempts e + 1
             /\ (WebhookEvent.attempts e + 1 < WebhookEvent.maxAttempts e ->
                 WebhookEvent.status e' = pending
                 /\ WebhookEvent.nextRetryTime e'
                    = Some (WebhookService.sr_finished r
                            + Webhook.retryBackoffMs w * 2 ^ WebhookEvent.attempts e))
             /\ (WebhookEvent.maxAttempts e <= WebhookEvent.attempts e + 1 ->
                 WebhookEvent.status e' = failed
                 /\ WebhookEvent.nextRetryTime e' = WebhookEvent.nextRetryTime e)).
  { intros t m q Hr. subst e'. rewrite Hr.
    pose proof (on_failure_event t st w e m q) as He. cbv zeta in He.
    destruct He as (Ha & _ & _ & Hfin & _ & Hs).
    split; [exact Ha |].
    unfold WebhookService.backoff in Hs.
    replace (WebhookEvent.attempts e + 1 - 1) with (WebhookEvent.attempts e) in Hs by lia.
    rewrite Hfin.
    destruct (WebhookEvent.attempts e + 1 <? WebhookEvent.maxAttempts e) eqn:E.
    - apply Z.ltb_lt in E. split; [intros _; exact Hs | intros Hge; lia].
    - apply Z.ltb_ge in E. split; [intros Hlt; lia | intros _; exact Hs]. }
  pose proof (sendWebhookEvent_cases now st w e reply) as Hc. cbv zeta in Hc.
  unfold attempt_fails in Hfail.
  destruct (Axios.post _ _ _) as [m|[status|m rs]].
  - eapply Hgen. exact Hc.
  - exfalso. apply (Hfail status). reflexivity.
  - eapply Hgen. exact Hc.
Qed.



(* ===================================================================== *)
(** ** Retry, then success *)
(* ===================================================================== *)

Section RetryThenSucceed.

Lemma send_rejected_step (now : Z) (st : Store) (w stored : Webhook.t) (e : WebhookEvent.t)
      (lat code : Z) :
  Axios.body_allowed (Some (Webhook.maxPayloadSize w))
                     (Json.stringify (WebhookEvent.payload e)) = true ->
  Axios.validateStatus code = false ->
  Db.findById (Webhook._id w) (webhooks st) = Some stored ->
  let r := WebhookService.sendWebhookEvent now st (Some w) e (MkReply (Responded code) lat) in
  WebhookEvent.payload (WebhookService.sr_event r) = WebhookEvent.payload e
  /\ WebhookEvent.attempts (WebhookService.sr_event r) = WebhookEvent.attempts e + 1
  /\ WebhookEvent.maxAttempts (WebhookService.sr_event r) = WebhookEvent.maxAttempts e
  /\ (WebhookEvent.attempts e + 1 < WebhookEvent.maxAttempts e ->
      WebhookEvent.status (WebhookService.sr_event r) = pending)
  /\ Db.findById (Webhook._id w) (webhooks (WebhookService.sr_store r))
     = Some (WebhookService.bump (WebhookService.stats_failure (now + lat)) stored).
Proof.
  intros Hbody Hv Hstored r.
  pose proof (sendWebhookEvent_cases now st w e (MkReply (Responded code) lat)) as Hc.
  cbv zeta in Hc. cbn [outcome latency] in Hc.
  rewrite (post_responded _ _ code Hbody), Hv in Hc.
  subst r. rewrite Hc.
  match goal with |- context [WebhookService.on_failure ?t ?s ?o ?ev ?m ?q] =>
    pose proof (on_failure_event t s w ev m q) as He end.
  cbv zeta in He. destruct He as (Ha & Hm & Hp & _ & _ & Hs).
  repeat split; try assumption.
  - intros Hlt. apply Z.ltb_lt in Hlt. rewrite Hlt in Hs. apply Hs.
  - rewrite on_failure_webhooks, findById_update_same by apply bump_id.
    rewrite Hstored. reflexivity.
Qed.

Lemma send_resolved_step (now : Z) (st : Store) (w stored : Webhook.t) (e : WebhookEvent.t)
      (lat code : Z) :
  Axios.body_allowed (Some (Webhook.maxPayloadSize w))
                     (Json.stringify (WebhookEvent.payload e)) = true ->
  Axios.validateStatus code = true ->
  Db.findById (Webhook._id w) (webhooks st) = Some stored ->
  let r := WebhookService.sendWebhookEvent now st (Some w) e (MkReply (Responded code) lat) in
  WebhookEvent.status (WebhookService.sr_event r) = success
  /\ WebhookEvent.attempts (WebhookService.sr_event r) = WebhookEvent.attempts e
  /\ Db.findById (Webhook._id w) (webhooks (WebhookService.sr_store r))
     = Some (WebhookService.bump
               (WebhookService.stats_success (now + lat) code (now + lat - now)) stored).
Proof.
  intros Hbody Hv Hstored r.
  pose proof (sendWebhookEvent_cases now st w e (MkReply (Responded code) lat)) as Hc.
  cbv zeta in Hc. cbn [outcome latency] in Hc.
  rewrite (post_responded _ _ code Hbody), Hv in Hc.
  subst r. rewrite Hc. cbn [WebhookService.sr_event WebhookService.sr_store].
  repeat split.
  unfold WebhookService.inc_stats. cbn [webhooks Db.with_webhooks WebhookService.save_event
    Db.with_events].
  rewrite findById_update_same by apply bump_id. rewrite Hstored. reflexivity.
Qed.

End RetryThenSucceed.




(* ===================================================================== *)
(** ** Emission: one pending row per matching subscription *)
(* ===================================================================== *)

Section Emission.


Lemma valid_all_paths (strict : bool) (w : Webhook.t) :
  Webhook.valid strict Webhook.all_paths w = true ->
  forallb (fun e => str_in e event_enum) (Webhook.events w) = true
  /\ 1 <= Webhook.retryCount w <= 10
  /\ 1000 <= Webhook.retryBackoffMs w <= 3600000
  /\ Webhook.url_regex (Webhook.url w) = true.
Proof.
  unfold Webhook.valid. cbn [str_in existsb Webhook.all_paths].
  rewrite !andb_true_iff.
  intros (((((((((_ & _) & Hu) & _) & He) & _) & _) & Hc) & Hb) & _).
  cbn in Hc, Hb. rewrite !andb_true_iff in Hc, Hb.
  repeat split; try assumption; lia.
Qed.

Lemma queueWebhookEvent_never_throws (now : Z) (st : Store) (w : Webhook.t)
      (ty : string) (d : JSON) :
  exists r, WebhookService.queueWebhookEvent now st w ty d = Ok r.
Proof.
  unfold WebhookService.queueWebhookEvent.
  destruct (_ ≫= _) as [r|m]; cbn [try_catch]; eauto.
Qed.

Lemma queue_all_never_throws (now : Z) (found : list Webhook.t) (ty : string) (d : JSON) :
  forall st, exists r, WebhookService.queue_all now st found ty d = Ok r.
Proof.
  induction found as [|w found IH]; intros st; cbn [WebhookService.queue_all]; [eauto |].
  destruct (queueWebhookEvent_never_throws now st w ty d) as [[[st1 tasks] o] ->].
  cbn [mbind Result_bind rbind].
  destruct (IH st1) as [[st2 tasks'] ->]. cbn [rbind]. eauto.
Qed.



End Emission.



(* ===================================================================== *)
(** ** Frame lemmas for the administrative operations *)
(* ===================================================================== *)

Section Frame.





Lemma findById_id (id : string) (l : list Webhook.t) (w : Webhook.t) :
  Db.findById id l = Some w -> Webhook._id w = id.
Proof.
  induction l as [|x l IH]; simpl; [discriminate |].
  destruct (String.eqb (Webhook._id x) id) eqn:E; [|exact IH].
  intros H. inversion H. subst. apply String.eqb_eq. exact E.
Qed.


Lemma findById_replace_same (w2 : Webhook.t) (l : list Webhook.t) (w : Webhook.t) :
  Db.findById (Webhook._id w2) l = Some w ->
  Db.findById (Webhook._id w2) (Db.replace_webhook w2 l) = Some w2.
Proof.
  induction l as [|x l IH]; simpl; [discriminate |].
  destruct (String.eqb (Webhook._id x) (Webhook._id w2)) eqn:E; simpl.
  - rewrite String.eqb_refl. reflexivity.
  - rewrite E. exact IH.
Qed.

Lemma findById_replace_other (id : string) (w2 : Webhook.t) (l : list Webhook.t) :
  id <> Webhook._id w2 ->
  Db.findById id (Db.replace_webhook w2 l) = Db.findById id l.
Proof.
  intros Hne. induction l as [|x l IH]; simpl; [reflexivity |].
  destruct (String.eqb (Webhook._id x) (Webhook._id w2)) eqn:E; simpl.
  - apply String.eqb_eq in E. rewrite E.
    destruct (String.eqb (Webhook._id w2) id) eqn:E'; [|reflexivity].
    apply String.eqb_eq in E'. congruence.
  - destruct (String.eqb (Webhook._id x) id); [reflexivity | exact IH].
Qed.

Lemma findById_app_l (id : string) (l extra : list Webhook.t) (w : Webhook.t) :
  Db.findById id l = Some w -> Db.findById id (l ++ extra) = Some w.
Proof.
  induction l as [|x l IH]; simpl; [discriminate |].
  destruct (String.eqb (Webhook._id x) id); auto.
Qed.

Lemma findById_delete_other (id id0 : string) (l : list Webhook.t) :
  id <> id0 ->
  Db.findById id (Db.delete_webhook id0 l) = Db.findById id l.
Proof.
  intros Hne. induction l as [|x l IH]; simpl; [reflexivity |].
  destruct (String.eqb (Webhook._id x) id0) eqn:E; simpl.
  - apply String.eqb_eq in E.
    destruct (String.eqb (Webhook._id x) id) eqn:E'; [|reflexivity].
    apply String.eqb_eq in E'. congruence.
  - destruct (String.eqb (Webhook._id x) id); [reflexivity | exact IH].
Qed.

Lemma findById_None_notin (id : string) (l : list Webhook.t) :
  ~ In id (map Webhook._id l) -> Db.findById id l = None.
Proof.
  induction l as [|x l IH]; simpl; [reflexivity |].
  intros Hn. destruct (String.eqb (Webhook._id x) id) eqn:E.
  - apply String.eqb_eq in E. exfalso. apply Hn. left. exact E.
  - apply IH. intros Hin. apply Hn. right. exact Hin.
Qed.

(** With unique ids, a deleted subscription is gone. *)
Lemma findById_delete_same (id0 : string) (l : list Webhook.t) :
  List.NoDup (map Webhook._id l) ->
  Db.findById id0 (Db.delete_webhook id0 l) = None.
Proof.
  induction l as [|x l IH]; simpl; [reflexivity |].
  intros Hnd. inversion Hnd as [|? ? Hx Hl]; subst.
  destruct (String.eqb (Webhook._id x) id0) eqn:E; simpl.
  - apply String.eqb_eq in E. subst id0. apply findById_None_notin. exact Hx.
  - rewrite E. apply IH. exact Hl.
Qed.

End Frame.

(* ===================================================================== *)
(** ** Subscription statistics *)
(* ===================================================================== *)

Section StatsInvariant.



















End StatsInvariant.



(* ===================================================================== *)
(** ** Tenant isolation of the administrative routes *)
(* ===================================================================== *)

Section Isolation.

Lemma getWebhookById_foreign (st : Store) (id user : string) (w : Webhook.t) :
  Db.findById id (webhooks st) = Some w ->
  Webhook.username w <> user ->
  WebhookService.getWebhookById st id user
  = Throw "Failed to get webhook: Unauthorized: Cannot access this webhook".
Proof.
  intros Hf Hne. unfold WebhookService.getWebhookById. rewrite Hf.
  apply String.eqb_neq in Hne. rewrite Hne. reflexivity.
Qed.

End Isolation.

(** C7.  A caller [user] addressing a stored subscription whose
    [username] is another tenant's gets, from each of the seven
    administrative routes (read, update, delete, rotate-secret, test, events,
    stats), status 403 with a fixed message: the response is the same
    whatever the subscription contains, the store is left as it was, and the
    test route sends no probe. *)
Theorem foreign_subscription_is_forbidden :
  forall (strict_arrays : bool) (rng : Entropy) (now : Z) (st : Store) (user id : string)
         (w : Webhook.t) (body : gmap string JSON) (reply : Reply) (query : EventsQuery.t)
         (facets : Result (option JSON)),
    Db.findById id (webhooks st) = Some w ->
    Webhook.username w <> user ->
    Routes.read st user id
    = forbidden "Failed to get webhook: Unauthorized: Cannot access this webhook"
    /\ Routes.update strict_arrays now st user id body
       = (forbidden "Failed to update webhook: Unauthorized: Cannot update this webhook", st)
    /\ Routes.remove st user id
       = (forbidden "Failed to delete webhook: Unauthorized: Cannot delete this webhook", st)
    /\ Routes.rotate strict_arrays rng now st user id
       = (forbidden "Failed to rotate secret: Unauthorized: Cannot rotate secret", st)
    /\ Routes.test now st user id reply
       = (forbidden ("Failed to send test webhook: "
                     +:+ "Failed to get webhook: Unauthorized: Cannot access this webhook"),
          None)
    /\ Routes.events st user id query
       = forbidden "Failed to get webhook: Unauthorized: Cannot access this webhook"
    /\ Routes.statistics st user id facets
       = forbidden "Failed to get webhook: Unauthorized: Cannot access this webhook".
Proof.
  intros strict rng now st user id w body reply query facets Hf Hne.
  pose proof (getWebhookById_foreign st id user w Hf Hne) as Hget.
  assert (Hneq : negb (String.eqb (Webhook.username w) user) = true).
  { apply String.eqb_neq in Hne. rewrite Hne. reflexivity. }
  repeat split.
  - unfold Routes.read. rewrite Hget. reflexivity.
  - unfold Routes.update, WebhookService.updateWebhook. rewrite Hf, Hneq. reflexivity.
  - unfold Routes.remove, WebhookService.deleteWebhook. rewrite Hf, Hneq. reflexivity.
  - unfold Routes.rotate, WebhookService.rotateSecret. rewrite Hf, Hneq. reflexivity.
  - unfold Routes.test, WebhookService.sendTestWebhook. rewrite Hget. reflexivity.
  - unfold Routes.events. rewrite Hget. reflexivity.
  - unfold Routes.statistics. rewrite Hget. reflexivity.
Qed.

(** Tenant [t2] addressing the scenario subscription of tenant [t1]. *)
Lemma foreign_subscription_is_forbidden_witness :
  Routes.read Scenario.store "t2" "0000000000000000000000a1"
  = forbidden "Failed to get webhook: Unauthorized: Cannot access this webhook"
  /\ Routes.statistics Scenario.store "t2" "0000000000000000000000a1" (Ok None)
     = forbidden "Failed to get webhook: Unauthorized: Cannot access this webhook".
Proof.
  pose proof (foreign_subscription_is_forbidden false (fun _ => []) 0 Scenario.store "t2"
                "0000000000000000000000a1" Scenario.hook ∅ Scenario.ok200
                (EventsQuery.Make None None None None None None) (Ok None)
                eq_refl ltac:(discriminate)) as H.
  destruct H as (Hr & _ & _ & _ & _ & _ & Hs).
  split; [exact Hr | exact Hs].
Defined.

(* ===================================================================== *)
(** ** Validation on create *)
(* ===================================================================== *)

Section CreateValidation.

Lemma createWebhook_ok (strict_arrays : bool) (rng : Entropy) (now : Z) (st : Store)
      (data : CreateData.t) (w : Webhook.t) (st' : Store) :
  WebhookService.createWebhook strict_arrays rng now st data = Ok (w, st') ->
  Webhook.valid strict_arrays Webhook.all_paths w = true
  /\ webhooks st' = webhooks st ++ [w]
  /\ webhook_events st' = webhook_events st
  /\ Webhook.username w = CreateData.username data
  /\ Webhook.secret w = Crypto.hex (rng 16%nat)
  /\ Webhook.stats w = Stats.initial
  /\ Webhook.retryCount w = WebhookService.or_default (CreateData.retryCount data) 3
  /\ Webhook.retryBackoffMs w = WebhookService.or_default (CreateData.retryBackoffMs data) 5000
  /\ Webhook.events w = default ["sms.delivered"; "sms.failed"] (CreateData.events data)
  /\ Webhook.isActive w = true /\ Webhook.retryEnabled w = true.
Proof.
  unfold WebhookService.createWebhook. cbn [Db.mint].
  destruct (Webhook.valid _ _ _) eqn:Hv; cbn [try_catch]; [|discriminate].
  intros H. inversion H; subst; clear H.
  cbn [webhooks webhook_events Db.with_webhooks].
  repeat split. exact Hv.
Qed.

End CreateValidation.

(** C8, counterexample.  A body with [retryCount = 11], or with an event
    type outside the defined set, is refused with status 500, not 400; a
    body with [retryCount = 0] is not refused at all: the subscription is
    created with the default of 3 attempts. *)
Lemma create_validation_as_stated_fails :
  ~ create_validation_as_stated false Scenario.dice Scenario.t0 Scenario.empty_store "t1"
      Scenario.create_eleven_attempts
  /\ ~ create_validation_as_stated false Scenario.dice Scenario.t0 Scenario.empty_store "t1"
         Scenario.create_zero_attempts
  /\ res_status (fst (Routes.create false Scenario.dice Scenario.t0 Scenario.empty_store "t1"
                        Scenario.create_eleven_attempts)) = 500
  /\ res_status (fst (Routes.create false Scenario.dice Scenario.t0 Scenario.empty_store "t1"
                        Scenario.create_unknown_event)) = 500
  /\ res_status (fst (Routes.create false Scenario.dice Scenario.t0 Scenario.empty_store "t1"
                        Scenario.create_zero_attempts)) = 201
  /\ map Webhook.retryCount
         (webhooks (snd (Routes.create false Scenario.dice Scenario.t0 Scenario.empty_store "t1"
                           Scenario.create_zero_attempts))) = [3].
Proof.
  split; [|split].
  - intros H. unfold create_validation_as_stated in H.
    assert (E : 500 = 400).
    { rewrite <- H; [vm_compute; reflexivity |].
      left. exists 11. split; [reflexivity | lia]. }
    discriminate E.
  - intros H. unfold create_validation_as_stated in H.
    assert (E : 201 = 400).
    { rewrite <- H; [vm_compute; reflexivity |].
      left. exists 0. split; [reflexivity | lia]. }
    discriminate E.
  - repeat split; vm_compute; reflexivity.
Qed.

(** C8, as amended.  [POST /api/webhooks] answers 400 exactly when the
    route's own checks fail: [url] or [name] missing or empty, or a [url]
    that starts with neither [http://] nor [https://].  Otherwise it answers
    201 or 500.  On 201 one subscription has been appended; it satisfies the
    schema (URL pattern, events within the defined set, [retryCount] in
    [1,10], [retryBackoffMs] in [1000,3600000]), belongs to the caller,
    starts with zeroed stats, takes 3 and 5000 for a missing or zero
    [retryCount] and [retryBackoffMs], and its secret is the hex rendering of
    the 16 bytes drawn from [crypto.randomBytes].  On any other status the
    store is unchanged, and a supplied non-zero [retryCount] outside [1,10],
    a supplied non-zero [retryBackoffMs] outside [1000,3600000] or an event
    type outside the defined set, on a body that passes the route's checks,
    is answered with 500. *)
Theorem create_validation :
  forall (strict_arrays : bool) (rng : Entropy) (now : Z) (st : Store) (user : string)
         (body : CreateBody.t),
    let res := fst (Routes.create strict_arrays rng now st user body) in
    let st' := snd (Routes.create strict_arrays rng now st user body) in
    (res_status res = 400 <-> route_rejects body = true)
    /\ (res_status res = 400 \/ res_status res = 201 \/ res_status res = 500)
    /\ (res_status res <> 201 -> st' = st)
    /\ (res_status res = 201 ->
        exists w,
          webhooks st' = webhooks st ++ [w]
          /\ webhook_events st' = webhook_events st
          /\ Webhook.username w = user
          /\ Webhook.secret w = Crypto.hex (rng 16%nat)
          /\ String.length (Webhook.secret w) = (2 * length (rng 16%nat))%nat
          /\ Webhook.stats w = Stats.initial
          /\ Webhook.url_regex (Webhook.url w) = true
          /\ forallb (fun e => str_in e event_enum) (Webhook.events w) = true
          /\ 1 <= Webhook.retryCount w <= 10
          /\ 1000 <= Webhook.retryBackoffMs w <= 3600000
          /\ Webhook.retryCount w = WebhookService.or_default (CreateBody.retryCount body) 3
          /\ Webhook.retryBackoffMs w
             = WebhookService.or_default (CreateBody.retryBackoffMs body) 5000)
    /\ (route_rejects body = false ->
        (exists n, CreateBody.retryCount body = Some n /\ n <> 0 /\ ~ 1 <= n <= 10)
        \/ (exists n, CreateBody.retryBackoffMs body = Some n /\ n <> 0
                      /\ ~ 1000 <= n <= 3600000)
        \/ (exists l e, CreateBody.events body = Some l /\ In e l
                        /\ str_in e event_enum = false) ->
        res_status res = 500).
Proof.
  intros strict rng now st user body res st'.
  unfold route_rejects. subst res st'. unfold Routes.create.
  destruct (Routes.falsy (CreateBody.url body) || Routes.falsy (CreateBody.name body)) eqn:Hf.
  { cbn [fst snd res_status Routes.failure orb].
    repeat split; intros; try reflexivity; try discriminate; try lia; auto. }
  cbn [orb].
  destruct (negb (Str.startsWith "https://" (default "" (CreateBody.url body)))
            && negb (Str.startsWith "http://" (default "" (CreateBody.url body)))) eqn:Hp.
  { cbn [fst snd res_status Routes.failure].
    repeat split; intros; try reflexivity; try discriminate; try lia; auto. }
  destruct (WebhookService.createWebhook _ _ _ _ _) as [[w st1]|m] eqn:Hc.
  - cbn [fst snd res_status].
    apply createWebhook_ok in Hc.
    destruct Hc as (Hv & Hw & He & Hu & Hs & Hst & Hrc & Hrb & Hev & _).
    cbn [CreateData.username CreateData.retryCount CreateData.retryBackoffMs
         CreateData.events] in Hu, Hrc, Hrb, Hev.
    pose proof (valid_all_paths _ _ Hv) as (Hevs & Hc1 & Hb1 & Hurl).
    split; [split; intros; discriminate |].
    split; [auto |].
    split; [intros Hn; exfalso; apply Hn; reflexivity |].
    split.
    + intros _. exists w. rewrite Hs at 2. rewrite hex_length.
      repeat split; try assumption; lia.
    + intros _ Hbad. exfalso.
      destruct Hbad as [(n & Hn & Hz & Hr) | [(n & Hn & Hz & Hr) | (l & e & Hl & Hin & Hout)]].
      * rewrite Hn in Hrc. unfold WebhookService.or_default in Hrc.
        apply Z.eqb_neq in Hz. rewrite Hz in Hrc. lia.
      * rewrite Hn in Hrb. unfold WebhookService.or_default in Hrb.
        apply Z.eqb_neq in Hz. rewrite Hz in Hrb. lia.
      * rewrite Hl in Hev. cbn [default] in Hev.
        rewrite List.forallb_forall in Hevs. rewrite Hev in Hevs.
        rewrite (Hevs e Hin) in Hout. discriminate.
  - cbn [fst snd res_status Routes.failure].
    repeat split; intros; try reflexivity; try discriminate; try lia; auto.
Qed.

(** The subscription of scenario S1 is created, with the secret drawn from
    the dice. *)
Lemma create_validation_witness :
  exists w,
    webhooks (snd (Routes.create false Scenario.dice Scenario.t0 Scenario.empty_store "t1"
                     Scenario.create_s1)) = [w]
    /\ Webhook.secret w = "112233445566778899aabbccddeeff00"
    /\ Webhook.retryCount w = 3.
Proof.
  pose proof (create_validation false Scenario.dice Scenario.t0 Scenario.empty_store "t1"
                Scenario.create_s1) as H.
  cbv zeta in H. destruct H as (_ & _ & _ & H & _).
  destruct (H ltac:(vm_compute; reflexivity))
    as (w & Hw & _ & _ & Hs & _ & _ & _ & _ & _ & _ & Hrc & _).
  exists w. split; [exact Hw |]. split; [rewrite Hs; vm_compute; reflexivity |].
  rewrite Hrc. reflexivity.
Defined.

(* ===================================================================== *)
(** ** Update: what a patch can and cannot change *)
(* ===================================================================== *)

Section UpdateFrame.







End UpdateFrame.






(* ===================================================================== *)
(** ** Further properties: unknown ids *)
(* ===================================================================== *)



(* ===================================================================== *)
(** ** Further properties: the test probe *)
(* ===================================================================== *)

Section Probe.

Lemma sign_then_verify (payload secret : string) :
  WebhookService.verifySignature payload
    (WebhookService.generateSignature payload secret) secret = Ok true.
Proof.
  unfold WebhookService.verifySignature, WebhookService.timingSafeEqual.
  rewrite Nat.eqb_refl, bytes_eqb_utf8, String.eqb_refl. reflexivity.
Qed.

Lemma settle_resolved (o : HttpOutcome) (status : Z) :
  Axios.settle o = Resolved status <-> o = Responded status /\ 200 <= status < 300.
Proof.
  unfold Axios.settle. destruct o as [c|reason].
  - destruct (Axios.validateStatus c) eqn:Hv.
    + apply validateStatus_spec in Hv. split.
      * intros H. inversion H. subst. auto.
      * intros [H _]. inversion H. reflexivity.
    + split; [discriminate |]. intros [H Hr]. inversion H. subst.
      apply validateStatus_spec in Hr. congruence.
  - split; [discriminate | intros [H _]; discriminate].
Qed.

End Probe.

(** X2.  For the owner of a subscription the test probe is always sent, to
    the subscription's URL, and never throws.  Its signature header passes
    [verifySignature] against the posted body under the subscription's
    secret.  The result reports success exactly when the receiver answered
    with a status in [200,300), and reports the time the exchange took. *)
Theorem test_probe_is_sent_and_verifies :
  forall (now : Z) (st : Store) (id user : string) (reply : Reply) (w : Webhook.t),
    WebhookService.getWebhookById st id user = Ok w ->
    exists res q,
      WebhookService.sendTestWebhook now st id user reply = Ok (res, Some q)
      /\ req_url q = Webhook.url w
      /\ req_body q = Json.stringify (WebhookService.testData now)
      /\ X_Webhook_Event q = "webhook.test"
      /\ WebhookService.verifySignature (req_body q) (X_Webhook_Signature q) (Webhook.secret w)
         = Ok true
      /\ (WebhookService.TestResult.success res = true
          <-> exists c, outcome reply = Responded c /\ 200 <= c < 300)
      /\ WebhookService.TestResult.responseTime res = latency reply.
Proof.
  intros now st id user reply w Hw.
  unfold WebhookService.sendTestWebhook. rewrite Hw.
  cbn [mbind Result_bind rbind]. unfold Axios.post. cbn [Axios.body_allowed].
  destruct (Axios.settle (outcome reply)) as [status|m rs] eqn:Hs; cbn [try_catch].
  - eexists _, _. split; [reflexivity |].
    cbn [req_url req_body X_Webhook_Event X_Webhook_Signature
         WebhookService.TestResult.success WebhookService.TestResult.responseTime].
    unfold Axios.transformRequest.
    repeat split; try apply sign_then_verify.
    + intros _. exists status. apply settle_resolved. exact Hs.
  - eexists _, _. split; [reflexivity |].
    cbn [req_url req_body X_Webhook_Event X_Webhook_Signature
         WebhookService.TestResult.success WebhookService.TestResult.responseTime].
    unfold Axios.transformRequest.
    repeat split; try apply sign_then_verify; try discriminate.
    intros (c & Ho & Hr).
    assert (Axios.settle (outcome reply) = Resolved c) by (apply settle_resolved; auto).
    congruence.
Qed.

(** The owner probing the scenario subscription, the receiver answering 200. *)
Lemma test_probe_is_sent_and_verifies_witness :
  exists res q,
    WebhookService.sendTestWebhook Scenario.t0 Scenario.store "0000000000000000000000a1" "t1"
      Scenario.ok200 = Ok (res, Some q)
    /\ req_url q = "http://recv.test/h"
    /\ WebhookService.verifySignature (req_body q) (X_Webhook_Signature q)
         "0123456789abcdef0123456789abcdef" = Ok true.
Proof.
  destruct (test_probe_is_sent_and_verifies Scenario.t0 Scenario.store
              "0000000000000000000000a1" "t1" Scenario.ok200 Scenario.hook eq_refl)
    as (res & q & Hs & Hu & _ & _ & Hv & _).
  exists res, q. split; [exact Hs |]. split; [exact Hu | exact Hv].
Defined.

(* ===================================================================== *)
(** ** Further properties: the retry sweep *)
(* ===================================================================== *)

Section SweepFacts.

Lemma on_failure_request (t : Z) (st : Store) (w : option Webhook.t) (e : WebhookEvent.t)
      (m : string) (q : option Request) :
  WebhookService.sr_request (WebhookService.on_failure t st w e m q) = q.
Proof.
  unfold WebhookService.on_failure. destruct (_ <? _); destruct w; reflexivity.
Qed.


(** Whatever goes out was built from the documents the dispatcher was
    handed, at the clock it was started. *)
Lemma sendWebhookEvent_request (now : Z) (st : Store) (w : option Webhook.t)
      (e : WebhookEvent.t) (reply : Reply) (q : Request) :
  WebhookService.sr_request (WebhookService.sendWebhookEvent now st w e reply) = Some q ->
  exists w', w = Some w' /\ q = request_for now w' e.
Proof.
  destruct w as [w|].
  - pose proof (sendWebhookEvent_cases now st w e reply) as H. cbv zeta in H.
    destruct (Axios.post _ _ _) as [m|[status|m rs]]; rewrite H.
    + rewrite on_failure_request. discriminate.
    + cbn [WebhookService.sr_request]. intros Hq. inversion Hq. eauto.
    + rewrite on_failure_request. intros Hq. inversion Hq. eauto.
  - unfold WebhookService.sendWebhookEvent. rewrite on_failure_request. discriminate.
Qed.


Lemma sendWebhookEvent_thrown_absent (now : Z) (st : Store) (e : WebhookEvent.t)
      (reply : Reply) :
  WebhookService.sr_thrown (WebhookService.sendWebhookEvent now st None e reply) <> None.
Proof.
  unfold WebhookService.sendWebhookEvent, WebhookService.on_failure.
  destruct (_ <? _); discriminate.
Qed.

Lemma retry_loop_results (replies : string -> Reply)
      (found : list (WebhookEvent.t * option Webhook.t)) :
  forall acc,
    let r := WebhookService.sw_results (WebhookService.retry_loop replies found acc) in
    let r0 := WebhookService.sw_results acc in
    WebhookService.RetryResults.processed r
    = WebhookService.RetryResults.processed r0 + Z.of_nat (length found)
    /\ WebhookService.RetryResults.successful r + WebhookService.RetryResults.failed r
       = WebhookService.RetryResults.successful r0 + WebhookService.RetryResults.failed r0
         + Z.of_nat (length found)
    /\ WebhookService.RetryResults.successful r0 <= WebhookService.RetryResults.successful r
    /\ WebhookService.RetryResults.failed r0 <= WebhookService.RetryResults.failed r.
Proof.
  induction found as [|[e w] found IH]; intros acc; cbn [WebhookService.retry_loop].
  - cbv zeta. cbn [length]. lia.
  - cbv zeta. cbv zeta in IH.
    match goal with |- context [WebhookService.retry_loop replies found ?a] =>
      specialize (IH a) end.
    cbn [WebhookService.sw_results] in IH.
    destruct (WebhookService.sr_thrown _);
      cbn [WebhookService.RetryResults.processed WebhookService.RetryResults.successful
           WebhookService.RetryResults.failed] in IH;
      cbn [length]; lia.
Qed.

Lemma retry_loop_requests (replies : string -> Reply)
      (found : list (WebhookEvent.t * option Webhook.t)) :
  forall acc,
    exists extra,
      WebhookService.sw_requests (WebhookService.retry_loop replies found acc)
      = WebhookService.sw_requests acc ++ extra
      /\ Forall (fun q => exists e w t, In (e, Some w) found /\ q = request_for t w e) extra
      /\ (length extra <= length found)%nat.
Proof.
  induction found as [|[e w] found IH]; intros acc; cbn [WebhookService.retry_loop].
  - exists []. rewrite app_nil_r. repeat split; [constructor | cbn; lia].
  - match goal with |- context [WebhookService.retry_loop replies found ?a] =>
      destruct (IH a) as (extra & Heq & Hall & Hlen) end.
    cbn [WebhookService.sw_requests] in Heq.
    destruct (WebhookService.sr_request _) as [q|] eqn:Hq.
    + apply sendWebhookEvent_request in Hq. destruct Hq as (w' & -> & ->).
      exists (request_for (WebhookService.sw_clock acc) w' e :: extra).
      rewrite Heq, <- app_assoc. split; [reflexivity |]. split.
      * constructor.
        -- exists e, w', (WebhookService.sw_clock acc). split; [left; reflexivity | reflexivity].
        -- eapply List.Forall_impl; [|exact Hall].
           intros q (e0 & w0 & t0 & Hin & ->). exists e0, w0, t0. split; [right; exact Hin | reflexivity].
      * cbn [length]. lia.
    + exists extra. rewrite Heq, app_nil_r. split; [reflexivity |]. split.
      * eapply List.Forall_impl; [|exact Hall].
        intros q (e0 & w0 & t0 & Hin & ->). exists e0, w0, t0. split; [right; exact Hin | reflexivity].
      * cbn [length]. lia.
Qed.


Lemma retry_loop_orphans (replies : string -> Reply)
      (found : list (WebhookEvent.t * option Webhook.t)) :
  Forall (fun p => snd p = None
                   /\ WebhookEvent.attempts (fst p) + 1 < WebhookEvent.maxAttempts (fst p))
         found ->
  forall acc,
    let s := WebhookService.retry_loop replies found acc in
    WebhookService.sw_store s = WebhookService.sw_store acc
    /\ WebhookService.sw_requests s = WebhookService.sw_requests acc
    /\ WebhookService.RetryResults.successful (WebhookService.sw_results s)
       = WebhookService.RetryResults.successful (WebhookService.sw_results acc).
Proof.
  induction 1 as [|[e w] found [Hw Hlt] _ IH]; intros acc; cbn [WebhookService.retry_loop];
    [cbv zeta; auto |].
  cbn [fst snd] in Hw, Hlt. subst w. cbv zeta. cbv zeta in IH.
  match goal with |- context [WebhookService.retry_loop replies found ?a] =>
    destruct (IH a) as (Hs & Hq & Hr) end.
  rewrite Hs, Hq, Hr. clear Hs Hq Hr IH.
  unfold WebhookService.sendWebhookEvent, WebhookService.on_failure.
  cbn [WebhookService.mark_attempt WebhookEvent.attempts WebhookEvent.maxAttempts].
  apply Z.ltb_lt in Hlt. rewrite Hlt.
  cbn [WebhookService.sw_store WebhookService.sw_requests WebhookService.sw_results
       WebhookService.sr_store WebhookService.sr_request WebhookService.sr_thrown
       WebhookService.RetryResults.successful].
  rewrite app_nil_r. auto.
Qed.

Lemma due_later (now later : Z) (e : WebhookEvent.t) :
  now <= later -> WebhookService.due now e = true -> WebhookService.due later e = true.
Proof.
  unfold WebhookService.due. intros Hle.
  destruct (Status_eqb _ _); [|discriminate].
  destruct (WebhookEvent.nextRetryTime e) as [t|]; [|discriminate].
  cbn. intros H. apply Z.leb_le in H. apply Z.leb_le. lia.
Qed.

End SweepFacts.

(** X3.  A retry sweep never throws.  It processes exactly the stored
    events that are pending with a retry time that has passed; every
    processed event is counted once, as successful or as failed; and every
    request it sends is the request of one of those events, addressed and
    signed with the subscription that is stored for it. *)
Theorem retry_sweep_sends_only_for_due_events :
  forall (now : Z) (st : Store) (replies : string -> Reply),
  exists sweep,
    WebhookService.retryFailedEvents now st replies = Ok sweep
    /\ WebhookService.RetryResults.processed (WebhookService.sw_results sweep)
       = Z.of_nat (length (List.filter (WebhookService.due now) (webhook_events st)))
    /\ WebhookService.RetryResults.successful (WebhookService.sw_results sweep)
       + WebhookService.RetryResults.failed (WebhookService.sw_results sweep)
       = WebhookService.RetryResults.processed (WebhookService.sw_results sweep)
    /\ 0 <= WebhookService.RetryResults.successful (WebhookService.sw_results sweep)
    /\ 0 <= WebhookService.RetryResults.failed (WebhookService.sw_results sweep)
    /\ Forall (from_due now st) (WebhookService.sw_requests sweep)
    /\ Z.of_nat (length (WebhookService.sw_requests sweep))
       <= WebhookService.RetryResults.processed (WebhookService.sw_results sweep).
Proof.
  intros now st replies. unfold WebhookService.retryFailedEvents. cbn [try_catch].
  eexists. split; [reflexivity |].
  match goal with |- context [WebhookService.retry_loop replies ?f ?a] =>
    pose proof (retry_loop_results replies f a) as Hr;
    destruct (retry_loop_requests replies f a) as (extra & Hq & Hall & Hlen);
    set (s := WebhookService.retry_loop replies f a) in *
  end.
  cbv zeta in Hr.
  cbn [WebhookService.sw_results WebhookService.sw_requests
       WebhookService.RetryResults.processed WebhookService.RetryResults.successful
       WebhookService.RetryResults.failed] in Hr, Hq.
  rewrite length_map in Hr, Hlen.
  destruct Hr as (Hp & Hsum & Hs & Hf).
  repeat split; try lia.
  - rewrite Hq. cbn [app]. eapply List.Forall_impl; [|exact Hall].
    intros q (e & w & t & Hin & ->). apply in_map_iff in Hin.
    destruct Hin as (e' & Heq & Hin). inversion Heq. subst e'.
    apply filter_In in Hin. destruct Hin as [Hin Hdue].
    exists e, w, t. auto.
  - rewrite Hq. cbn [app]. lia.
Qed.



(** X5.  Events whose subscription has been deleted and that have more
    than one attempt left are never settled: a sweep counts each of them as
    failed, sends nothing, and leaves the store exactly as it was, so that
    they are due again at every later sweep. *)
Theorem orphaned_events_stay_due :
  forall (now : Z) (st : Store) (replies : string -> Reply),
    (forall e, In e (webhook_events st) -> WebhookService.due now e = true ->
               Db.findById (WebhookEvent.webhookId e) (webhooks st) = None
               /\ WebhookEvent.attempts e + 1 < WebhookEvent.maxAttempts e) ->
    exists sweep,
      WebhookService.retryFailedEvents now st replies = Ok sweep
      /\ WebhookService.sw_store sweep = st
      /\ WebhookService.sw_requests sweep = []
      /\ WebhookService.RetryResults.successful (WebhookService.sw_results sweep) = 0
      /\ WebhookService.RetryResults.failed (WebhookService.sw_results sweep)
         = Z.of_nat (length (List.filter (WebhookService.due now) (webhook_events st)))
      /\ (forall later e, now <= later ->
                          In e (webhook_events (WebhookService.sw_store sweep)) ->
                          WebhookService.due now e = true ->
                          WebhookService.due later e = true).
Proof.
  intros now st replies Hall. unfold WebhookService.retryFailedEvents. cbn [try_catch].
  eexists. split; [reflexivity |].
  match goal with |- context [WebhookService.retry_loop replies ?f ?a] =>
    pose proof (retry_loop_results replies f a) as Hr;
    assert (Hp : Forall (fun p => snd p = None
                   /\ WebhookEvent.attempts (fst p) + 1 < WebhookEvent.maxAttempts (fst p)) f)
  end.
  { apply List.Forall_forall. intros [e w] Hin. apply in_map_iff in Hin.
    destruct Hin as (e' & Heq & Hin). inversion Heq. subst. cbn [fst snd].
    apply filter_In in Hin. destruct Hin as [Hin Hdue]. apply Hall; assumption. }
  pose proof (retry_loop_orphans replies _ Hp
                (WebhookService.MkSweep st now (WebhookService.RetryResults.Make 0 0 0) []))
    as Ho.
  cbv zeta in Hr, Ho. destruct Ho as (Hs & Hq & Hsucc).
  cbn [WebhookService.sw_results WebhookService.sw_store WebhookService.sw_requests
       WebhookService.RetryResults.processed
       WebhookService.RetryResults.successful WebhookService.RetryResults.failed]
    in Hr, Hs, Hq, Hsucc.
  rewrite length_map in Hr.
  split; [exact Hs |]. split; [exact Hq |]. split; [exact Hsucc |].
  split; [lia |].
  intros later e Hle _ Hdue. exact (due_later now later e Hle Hdue).
Qed.

(** The once-failed event of the scenarios after its subscription was
    deleted. *)
Lemma orphaned_events_stay_due_witness :
  exists sweep,
    WebhookService.retryFailedEvents 1705318200025
      (MkStore [] [Scenario.event_once_failed] 2) (fun _ => Scenario.ok200) = Ok sweep
    /\ WebhookService.sw_store sweep = MkStore [] [Scenario.event_once_failed] 2
    /\ WebhookService.RetryResults.failed (WebhookService.sw_results sweep) = 1.
Proof.
  destruct (orphaned_events_stay_due 1705318200025
              (MkStore [] [Scenario.event_once_failed] 2) (fun _ => Scenario.ok200))
    as (sweep & Hs & Hst & _ & _ & Hf & _).
  - intros e [<-|[]] _. split; [reflexivity | vm_compute; reflexivity].
  - exists sweep. split; [exact Hs |]. split; [exact Hst | exact Hf].
Defined.

(* ===================================================================== *)
(** ** Further properties: what a delivery changes *)
(* ===================================================================== *)

Section DeliveryFrame.

Lemma same_configuration_refl (w : Webhook.t) : same_configuration w w.
Proof. destruct w; reflexivity. Qed.

Lemma same_configuration_trans (a b c : Webhook.t) :
  same_configuration a b -> same_configuration b c -> same_configuration a c.
Proof.
  unfold same_configuration. intros Hab Hbc. rewrite Hbc at 1. rewrite Hab at 1.
  destruct a; reflexivity.
Qed.

Lemma same_configurations_refl (l : list Webhook.t) : Forall2 same_configuration l l.
Proof. induction l; constructor; auto using same_configuration_refl. Qed.

Lemma same_configurations_trans (a b c : list Webhook.t) :
  Forall2 same_configuration a b -> Forall2 same_configuration b c ->
  Forall2 same_configuration a c.
Proof.
  intros Hab. revert c. induction Hab as [|x y a b Hxy Hab IH]; intros c Hbc.
  - inversion Hbc. constructor.
  - inversion Hbc; subst. constructor; [eapply same_configuration_trans; eauto | auto].
Qed.

Lemma same_configurations_update (id : string) (f : Stats.t -> Stats.t) (l : list Webhook.t) :
  Forall2 same_configuration l (Db.update_webhook id (WebhookService.bump f) l).
Proof.
  induction l as [|x l IH]; cbn [Db.update_webhook]; [constructor |].
  destruct (String.eqb (Webhook._id x) id).
  - constructor; [destruct x; reflexivity | apply same_configurations_refl].
  - constructor; [apply same_configuration_refl | exact IH].
Qed.

Lemma replace_event_ids (e : WebhookEvent.t) (l : list WebhookEvent.t) :
  map WebhookEvent._id (Db.replace_event e l) = map WebhookEvent._id l.
Proof.
  induction l as [|x l IH]; cbn [Db.replace_event map]; [reflexivity |].
  destruct (String.eqb (WebhookEvent._id x) (WebhookEvent._id e)) eqn:E; cbn [map].
  - apply String.eqb_eq in E. rewrite E. reflexivity.
  - rewrite IH. reflexivity.
Qed.

Lemma same_documents_refl (st : Store) : same_documents st st.
Proof. split; [apply same_configurations_refl | auto]. Qed.

Lemma same_documents_trans (a b c : Store) :
  same_documents a b -> same_documents b c -> same_documents a c.
Proof.
  intros (H1 & H2 & H3) (H4 & H5 & H6). split; [|split].
  - eapply same_configurations_trans; eauto.
  - congruence.
  - congruence.
Qed.

Lemma same_documents_save (e : WebhookEvent.t) (st : Store) :
  same_documents st (WebhookService.save_event e st).
Proof.
  split; [apply same_configurations_refl |].
  split; [apply replace_event_ids | reflexivity].
Qed.

Lemma same_documents_inc (id : string) (f : Stats.t -> Stats.t) (st : Store) :
  same_documents st (WebhookService.inc_stats id f st).
Proof.
  split; [apply same_configurations_update | auto].
Qed.

Lemma on_failure_same_documents (t : Z) (st : Store) (w : option Webhook.t)
      (e : WebhookEvent.t) (m : string) (q : option Request) :
  same_documents st (WebhookService.sr_store (WebhookService.on_failure t st w e m q)).
Proof.
  unfold WebhookService.on_failure.
  destruct (_ <? _); destruct w as [w|]; cbn [WebhookService.sr_store];
    try apply same_documents_refl; try apply same_documents_save;
    (eapply same_documents_trans; [apply same_documents_save | apply same_documents_inc]).
Qed.

Lemma sendWebhookEvent_same_documents (now : Z) (st : Store) (w : option Webhook.t)
      (e : WebhookEvent.t) (reply : Reply) :
  same_documents st
    (WebhookService.sr_store (WebhookService.sendWebhookEvent now st w e reply)).
Proof.
  unfold WebhookService.sendWebhookEvent.
  destruct w as [w|]; [|apply on_failure_same_documents].
  destruct (Axios.post _ _ _) as [m|[status|m rs]]; try apply on_failure_same_documents.
  cbn [WebhookService.sr_store].
  eapply same_documents_trans; [apply same_documents_save | apply same_documents_inc].
Qed.

Lemma on_failure_same_event (t : Z) (st : Store) (w : option Webhook.t)
      (e : WebhookEvent.t) (m : string) (q : option Request) :
  same_event e (WebhookService.sr_event (WebhookService.on_failure t st w e m q)).
Proof.
  unfold WebhookService.on_failure.
  destruct (_ <? _); destruct w as [w|]; cbn; repeat split.
Qed.

Lemma sendWebhookEvent_same_event (now : Z) (st : Store) (w : option Webhook.t)
      (e : WebhookEvent.t) (reply : Reply) :
  same_event e (WebhookService.sr_event (WebhookService.sendWebhookEvent now st w e reply)).
Proof.
  unfold WebhookService.sendWebhookEvent.
  destruct w as [w|]; [|apply on_failure_same_event].
  destruct (Axios.post _ _ _) as [m|[status|m rs]]; try apply on_failure_same_event.
  cbn. repeat split.
Qed.

Lemma retry_loop_same_documents (replies : string -> Reply)
      (found : list (WebhookEvent.t * option Webhook.t)) :
  forall acc,
    same_documents (WebhookService.sw_store acc)
      (WebhookService.sw_store (WebhookService.retry_loop replies found acc)).
Proof.
  induction found as [|[e w] found IH]; intros acc; cbn [WebhookService.retry_loop].
  - apply same_documents_refl.
  - eapply same_documents_trans; [|apply IH].
    cbn [WebhookService.sw_store]. apply sendWebhookEvent_same_documents.
Qed.

End DeliveryFrame.

(** X6.  Deliveries only record: neither a single dispatch nor a retry
    sweep ever changes the configuration or the secret of a subscription
    (its statistics apart), creates or deletes a subscription, or adds or
    drops a log row; and the event a dispatch worked on keeps its id, its
    subscription, its type, its payload, its maximum and its creation
    time. *)
Theorem deliveries_only_record :
  forall (now : Z) (st : Store),
    (forall (w : option Webhook.t) (e : WebhookEvent.t) (reply : Reply),
        let r := WebhookService.sendWebhookEvent now st w e reply in
        same_documents st (WebhookService.sr_store r)
        /\ same_event e (WebhookService.sr_event r))
    /\ (forall (replies : string -> Reply),
           exists sweep,
             WebhookService.retryFailedEvents now st replies = Ok sweep
             /\ same_documents st (WebhookService.sw_store sweep)).
Proof.
  intros now st. split.
  - intros w e reply. cbv zeta. split.
    + apply sendWebhookEvent_same_documents.
    + apply sendWebhookEvent_same_event.
  - intros replies. unfold WebhookService.retryFailedEvents. cbn [try_catch].
    eexists. split; [reflexivity |].
    match goal with |- context [WebhookService.retry_loop replies ?f ?a] =>
      exact (retry_loop_same_documents replies f a) end.
Qed.

(* ===================================================================== *)
(** ** Further properties: the attempt counter *)
(* ===================================================================== *)

Section Attempts.












End Attempts.




(* ===================================================================== *)
(** ** Further properties: payloads over the size limit *)
(* ===================================================================== *)



(* ===================================================================== *)
(** ** Further properties: rotating, deleting and creating *)
(* ===================================================================== *)

Section Lifecycle.

Lemma rotateSecret_ok (strict_arrays : bool) (rng : Entropy) (now : Z) (st : Store)
      (id user : string) (w' : Webhook.t) (st' : Store) :
  WebhookService.rotateSecret strict_arrays rng now st id user = Ok (w', st') ->
  exists w,
    Db.findById id (webhooks st) = Some w
    /\ Webhook.username w = user
    /\ w' = Webhook.set_updated_at now
              (Webhook.set_secret (WebhookService.generateSecret rng) w)
    /\ st' = Db.with_webhooks (Db.replace_webhook w' (webhooks st)) st.
Proof.
  unfold WebhookService.rotateSecret.
  destruct (Db.findById id (webhooks st)) as [w|] eqn:Hf; cbn [try_catch]; [|discriminate].
  destruct (String.eqb (Webhook.username w) user) eqn:Hu; cbn [negb try_catch];
    [|discriminate].
  cbv zeta. destruct (Webhook.valid _ _ _); cbn [try_catch]; [|discriminate].
  intros H. inversion H; subst; clear H.
  exists w. apply String.eqb_eq in Hu. repeat split; assumption.
Qed.

Lemma deleteWebhook_ok (st : Store) (id user : string) (st' : Store) :
  WebhookService.deleteWebhook st id user = Ok st' ->
  exists w,
    Db.findById id (webhooks st) = Some w
    /\ Webhook.username w = user
    /\ st' = Db.with_webhooks (Db.delete_webhook id (webhooks st)) st.
Proof.
  unfold WebhookService.deleteWebhook.
  destruct (Db.findById id (webhooks st)) as [w|] eqn:Hf; cbn [try_catch]; [|discriminate].
  destruct (String.eqb (Webhook.username w) user) eqn:Hu; cbn [negb try_catch];
    [|discriminate].
  intros H. inversion H; subst; clear H.
  exists w. apply String.eqb_eq in Hu. repeat split; assumption.
Qed.

Lemma delete_webhook_ids (id x : string) (l : list Webhook.t) :
  In x (map Webhook._id (Db.delete_webhook id l)) -> In x (map Webhook._id l).
Proof.
  induction l as [|y l IH]; cbn [Db.delete_webhook map]; [auto |].
  destruct (String.eqb (Webhook._id y) id); cbn [map In]; intuition.
Qed.

Lemma delete_webhook_NoDup (id : string) (l : list Webhook.t) :
  List.NoDup (map Webhook._id l) -> List.NoDup (map Webhook._id (Db.delete_webhook id l)).
Proof.
  induction l as [|y l IH]; cbn [Db.delete_webhook map]; [auto |].
  intros H. inversion H as [|? ? Hn Hl]; subst.
  destruct (String.eqb (Webhook._id y) id); [exact Hl |].
  cbn [map]. apply List.NoDup_cons; [|apply IH; exact Hl].
  intros Hin. apply Hn. eapply delete_webhook_ids. exact Hin.
Qed.

Lemma delete_webhook_length (id : string) (l : list Webhook.t) (w : Webhook.t) :
  Db.findById id l = Some w ->
  S (length (Db.delete_webhook id l)) = length l.
Proof.
  induction l as [|y l IH]; cbn [Db.findById Db.delete_webhook]; [discriminate |].
  destruct (String.eqb (Webhook._id y) id); [reflexivity |].
  intros H. cbn [length]. rewrite IH; [reflexivity | exact H].
Qed.

Lemma findById_app_fresh (id : string) (l : list Webhook.t) (w : Webhook.t) :
  Db.findById (Webhook._id w) l = None ->
  Db.findById id (l ++ [w])
  = if String.eqb (Webhook._id w) id then Some w else Db.findById id l.
Proof.
  induction l as [|y l IH]; cbn [Db.findById app].
  - destruct (String.eqb (Webhook._id w) id); reflexivity.
  - destruct (String.eqb (Webhook._id y) (Webhook._id w)) eqn:E; [discriminate |].
    intros H. destruct (String.eqb (Webhook._id y) id) eqn:E'.
    + apply String.eqb_eq in E'. subst id.
      rewrite String.eqb_sym, E. reflexivity.
    + apply IH. exact H.
Qed.

Lemma createWebhook_id (strict_arrays : bool) (rng : Entropy) (now : Z) (st : Store)
      (data : CreateData.t) (w : Webhook.t) (st' : Store) :
  WebhookService.createWebhook strict_arrays rng now st data = Ok (w, st') ->
  Webhook._id w = Db.oid_string (oid_counter st)
  /\ Webhook.url w = default "" (CreateData.url data)
  /\ Webhook.name w = default "" (CreateData.name data).
Proof.
  unfold WebhookService.createWebhook. cbn [Db.mint].
  destruct (Webhook.valid _ _ _); cbn [try_catch]; [|discriminate].
  intros H. inversion H; subst; clear H. repeat split.
Qed.

Lemma getWebhookById_own (st : Store) (id user : string) (w : Webhook.t) :
  Db.findById id (webhooks st) = Some w ->
  Webhook.username w = user ->
  WebhookService.getWebhookById st id user = Ok w.
Proof.
  intros Hf Hu. unfold WebhookService.getWebhookById. rewrite Hf.
  apply String.eqb_eq in Hu. rewrite Hu. reflexivity.
Qed.

End Lifecycle.

(** X10.  A successful rotation replaces the secret of the addressed
    subscription by a fresh draw and stamps [updated_at]; nothing else of
    that subscription, no other subscription and no log row changes.  From
    then on the requests for that subscription, deliveries and probes
    alike, carry signatures made with the new secret. *)
Theorem rotation_replaces_only_the_secret :
  forall (strict_arrays : bool) (rng : Entropy) (now : Z) (st : Store) (id user : string)
         (w' : Webhook.t) (st' : Store),
    WebhookService.rotateSecret strict_arrays rng now st id user = Ok (w', st') ->
    (exists w,
        Db.findById id (webhooks st) = Some w
        /\ Webhook.username w = user
        /\ w' = Webhook.set_updated_at now
                  (Webhook.set_secret (WebhookService.generateSecret rng) w))
    /\ Db.findById id (webhooks st') = Some w'
    /\ (forall id', id' <> id ->
                    Db.findById id' (webhooks st') = Db.findById id' (webhooks st))
    /\ webhook_events st' = webhook_events st
    /\ (forall t e reply q,
           WebhookService.sr_request
             (WebhookService.sendWebhookEvent t st' (Db.findById id (webhooks st')) e reply)
           = Some q ->
           X_Webhook_Signature q
           = WebhookService.generateSignature
               (Json.stringify (WebhookService.envelope t e))
               (WebhookService.generateSecret rng))
    /\ (forall t reply,
           exists res q,
             WebhookService.sendTestWebhook t st' id user reply = Ok (res, Some q)
             /\ WebhookService.verifySignature (req_body q) (X_Webhook_Signature q)
                  (WebhookService.generateSecret rng) = Ok true).
Proof.
  intros strict_arrays rng now st id user w' st' H.
  destruct (rotateSecret_ok _ _ _ _ _ _ _ _ H) as (w & Hf & Hu & Hw & Hst).
  assert (Hid : Webhook._id w' = id).
  { rewrite Hw. cbn. eapply findById_id. exact Hf. }
  assert (Hnew : Db.findById id (webhooks st') = Some w').
  { rewrite Hst. cbn [webhooks Db.with_webhooks]. rewrite <- Hid.
    eapply findById_replace_same. rewrite Hid. exact Hf. }
  split; [exists w; auto |]. split; [exact Hnew |]. split; [|split; [|split]].
  - intros id' Hne. rewrite Hst. cbn [webhooks Db.with_webhooks].
    apply findById_replace_other. congruence.
  - rewrite Hst. reflexivity.
  - intros t e reply q. rewrite Hnew. intros Hq.
    apply sendWebhookEvent_request in Hq. destruct Hq as (w0 & Hw0 & ->).
    inversion Hw0. subst w0. rewrite Hw. reflexivity.
  - intros t reply.
    assert (Hget : WebhookService.getWebhookById st' id user = Ok w').
    { apply getWebhookById_own; [exact Hnew |]. rewrite Hw. exact Hu. }
    unfold WebhookService.sendTestWebhook. rewrite Hget.
    cbn [mbind Result_bind rbind]. unfold Axios.post. cbn [Axios.body_allowed].
    assert (Hs : Webhook.secret w' = WebhookService.generateSecret rng)
      by (rewrite Hw; reflexivity).
    destruct (Axios.settle (outcome reply)) as [status|m rs]; cbn [try_catch];
      eexists _, _; (split; [reflexivity |]);
      cbn [req_body X_Webhook_Signature]; unfold Axios.transformRequest;
      rewrite Hs; apply sign_then_verify.
Qed.

(** The owner rotating the secret of the scenario subscription. *)
Lemma rotation_replaces_only_the_secret_witness :
  exists w' st',
    WebhookService.rotateSecret false Scenario.dice Scenario.t0 Scenario.store
      "0000000000000000000000a1" "t1" = Ok (w', st')
    /\ Db.findById "0000000000000000000000a1" (webhooks st') = Some w'
    /\ webhook_events st' = webhook_events Scenario.store.
Proof.
  eexists _, _.
  pose proof (fun w' st' =>
                rotation_replaces_only_the_secret false Scenario.dice Scenario.t0
                  Scenario.store "0000000000000000000000a1" "t1" w' st') as H.
  split; [reflexivity |].
  edestruct H as (_ & Hf & _ & He & _); [reflexivity |].
  split; [exact Hf | exact He].
Defined.

(** X11.  When the owner deletes a subscription it is gone, and a later
    read of its id is answered 404; every other subscription is kept as it
    was, and so is the event log: the rows of the deleted subscription are
    not removed with it. *)
Theorem deletion_removes_one_subscription_and_keeps_its_log :
  forall (st : Store) (id user : string) (st' : Store),
    unique_ids st ->
    WebhookService.deleteWebhook st id user = Ok st' ->
    (exists w, Db.findById id (webhooks st) = Some w /\ Webhook.username w = user)
    /\ Db.findById id (webhooks st') = None
    /\ (forall id', id' <> id ->
                    Db.findById id' (webhooks st') = Db.findById id' (webhooks st))
    /\ S (length (webhooks st')) = length (webhooks st)
    /\ unique_ids st'
    /\ webhook_events st' = webhook_events st
    /\ Routes.read st' user id
       = not_found_answer ("Failed to get webhook: Webhook not found with ID: " +:+ id).
Proof.
  intros st id user st' Hu H.
  destruct (deleteWebhook_ok _ _ _ _ H) as (w & Hf & Hw & Hst).
  assert (Hgone : Db.findById id (webhooks st') = None).
  { rewrite Hst. cbn [webhooks Db.with_webhooks]. apply findById_delete_same. exact Hu. }
  split; [exists w; auto |]. split; [exact Hgone |].
  split; [|split; [|split; [|split]]].
  - intros id' Hne. rewrite Hst. cbn [webhooks Db.with_webhooks].
    apply findById_delete_other. exact Hne.
  - rewrite Hst. cbn [webhooks Db.with_webhooks]. eapply delete_webhook_length. exact Hf.
  - unfold unique_ids. rewrite Hst. cbn [webhooks Db.with_webhooks].
    apply delete_webhook_NoDup. exact Hu.
  - rewrite Hst. reflexivity.
  - unfold Routes.read, WebhookService.getWebhookById. rewrite Hgone. reflexivity.
Qed.

(** The owner deleting the first subscription of the fan-out store. *)
Lemma deletion_removes_one_subscription_and_keeps_its_log_witness :
  exists st',
    WebhookService.deleteWebhook Scenario.store_fanout "0000000000000000000000a1" "t1"
    = Ok st'
    /\ Db.findById "0000000000000000000000a1" (webhooks st') = None
    /\ Db.findById "0000000000000000000000a2" (webhooks st') = Some Scenario.hook_b.
Proof.
  eexists. split; [reflexivity |].
  edestruct (deletion_removes_one_subscription_and_keeps_its_log Scenario.store_fanout
               "0000000000000000000000a1" "t1") as (_ & Hg & Ho & _).
  - unfold unique_ids. cbn.
    repeat (apply List.NoDup_cons; [cbn; intuition discriminate |]). apply List.NoDup_nil.
  - reflexivity.
  - split; [exact Hg |]. rewrite Ho; [reflexivity | discriminate].
Defined.

(** X12.  A subscription that the create route has answered 201 for can be
    read back under the minted id by the tenant that created it, with the
    secret that was drawn for it; any other tenant is answered 403 for that
    id; and the subscriptions stored before are all still readable as they
    were. *)
Theorem created_subscription_belongs_to_its_creator :
  forall (strict_arrays : bool) (rng : Entropy) (now : Z) (st : Store) (user : string)
         (body : CreateBody.t) (resp : Response) (st' : Store),
    Db.findById (Db.oid_string (oid_counter st)) (webhooks st) = None ->
    Routes.create strict_arrays rng now st user body = (resp, st') ->
    res_status resp = 201 ->
    exists w,
      WebhookService.getWebhookById st' (Db.oid_string (oid_counter st)) user = Ok w
      /\ Webhook._id w = Db.oid_string (oid_counter st)
      /\ Webhook.username w = user
      /\ Some (Webhook.url w) = CreateBody.url body
      /\ Some (Webhook.name w) = CreateBody.name body
      /\ Webhook.secret w = WebhookService.generateSecret rng
      /\ Webhook.stats w = Stats.initial
      /\ Webhook.isActive w = true
      /\ (forall other, other <> user ->
            Routes.read st' other (Db.oid_string (oid_counter st))
            = forbidden "Failed to get webhook: Unauthorized: Cannot access this webhook")
      /\ (forall id w0, Db.findById id (webhooks st) = Some w0 ->
                        Db.findById id (webhooks st') = Some w0).
Proof.
  intros strict_arrays rng now st user body resp st' Hfresh Hc H201.
  unfold Routes.create in Hc.
  destruct (Routes.falsy (CreateBody.url body) || Routes.falsy (CreateBody.name body))
    eqn:Hfalsy.
  { inversion Hc. subst. discriminate H201. }
  destruct (negb _ && negb _).
  { inversion Hc. subst. discriminate H201. }
  destruct (WebhookService.createWebhook _ _ _ _ _) as [[w st1]|m] eqn:Hcw.
  2:{ inversion Hc. subst. discriminate H201. }
  inversion Hc. subst st1. clear Hc H0.
  destruct (createWebhook_ok _ _ _ _ _ _ _ Hcw)
    as (_ & Hws & _ & Hu & Hs & Hstats & _ & _ & _ & Hact & _).
  destruct (createWebhook_id _ _ _ _ _ _ _ Hcw) as (Hid & Hurl & Hname).
  cbn [CreateData.username CreateData.url CreateData.name] in Hu, Hurl, Hname.
  assert (Hfind : Db.findById (Db.oid_string (oid_counter st)) (webhooks st') = Some w).
  { rewrite Hws, findById_app_fresh by (rewrite Hid; exact Hfresh).
    rewrite Hid, String.eqb_refl. reflexivity. }
  apply orb_false_elim in Hfalsy. destruct Hfalsy as [Hfu Hfn].
  exists w. split; [apply getWebhookById_own; assumption |].
  split; [exact Hid |]. split; [exact Hu |].
  split; [rewrite Hurl; destruct (CreateBody.url body); [reflexivity | discriminate Hfu] |].
  split; [rewrite Hname; destruct (CreateBody.name body); [reflexivity | discriminate Hfn] |].
  split; [exact Hs |]. split; [exact Hstats |]. split; [exact Hact |]. split.
  - intros other Hne. unfold Routes.read.
    rewrite (getWebhookById_foreign st' _ other w Hfind) by congruence. reflexivity.
  - intros id w0 Hw0. rewrite Hws. apply findById_app_l. exact Hw0.
Qed.

(** Scenario S1: tenant [t1] creates its subscription in an empty store. *)
Lemma created_subscription_belongs_to_its_creator_witness :
  exists w,
    WebhookService.getWebhookById
      (snd (Routes.create false Scenario.dice Scenario.t0 Scenario.empty_store "t1"
              Scenario.create_s1))
      (Db.oid_string 1) "t1" = Ok w
    /\ Webhook.username w = "t1".
Proof.
  destruct (created_subscription_belongs_to_its_creator false Scenario.dice Scenario.t0
              Scenario.empty_store "t1" Scenario.create_s1
              (fst (Routes.create false Scenario.dice Scenario.t0 Scenario.empty_store "t1"
                      Scenario.create_s1))
              (snd (Routes.create false Scenario.dice Scenario.t0 Scenario.empty_store "t1"
                      Scenario.create_s1)))
    as (w & Hg & _ & Hu & _).
  - reflexivity.
  - vm_compute. reflexivity.
  - vm_compute. reflexivity.
  - exists w. split; [exact Hg | exact Hu].
Defined.

(* ===================================================================== *)
(** ** Further properties: the event log *)
(* ===================================================================== *)

Section EventLog.

Lemma insert_desc_In (e x : WebhookEvent.t) (l : list WebhookEvent.t) :
  In x (WebhookService.insert_desc e l) <-> x = e \/ In x l.
Proof.
  induction l as [|y l IH]; cbn [WebhookService.insert_desc].
  - cbn. intuition.
  - destruct (_ <? _); cbn [In]; [intuition | rewrite IH; intuition].
Qed.

Lemma insert_desc_length (e : WebhookEvent.t) (l : list WebhookEvent.t) :
  length (WebhookService.insert_desc e l) = S (length l).
Proof.
  induction l as [|y l IH]; cbn [WebhookService.insert_desc]; [reflexivity |].
  destruct (_ <? _); cbn [length]; [reflexivity | rewrite IH; reflexivity].
Qed.

Lemma sort_desc_In (x : WebhookEvent.t) (l : list WebhookEvent.t) :
  In x (WebhookService.sort_desc l) <-> In x l.
Proof.
  unfold WebhookService.sort_desc. induction l as [|y l IH]; cbn [fold_right]; [reflexivity |].
  rewrite insert_desc_In, IH. cbn [In]. intuition.
Qed.

Lemma sort_desc_length (l : list WebhookEvent.t) :
  length (WebhookService.sort_desc l) = length l.
Proof.
  unfold WebhookService.sort_desc. induction l as [|y l IH]; cbn [fold_right]; [reflexivity |].
  rewrite insert_desc_length, IH. reflexivity.
Qed.

(** [newest_first] by its head and tail. *)
Lemma newest_first_cons (x : WebhookEvent.t) (l : list WebhookEvent.t) :
  newest_first (x :: l)
  <-> (forall y, In y l -> WebhookEvent.createdAt y <= WebhookEvent.createdAt x)
      /\ newest_first l.
Proof.
  unfold newest_first. split.
  - intros H. split.
    + intros y Hy. apply In_nth_error in Hy. destruct Hy as [n Hn].
      apply (H 0%nat (S n) x y); [lia | reflexivity | exact Hn].
    + intros i j a b Hij Ha Hb. apply (H (S i) (S j) a b); [lia | exact Ha | exact Hb].
  - intros [Hx Hl] i j a b Hij Ha Hb.
    destruct j as [|j]; [lia |]. cbn [nth_error] in Hb.
    destruct i as [|i]; cbn [nth_error] in Ha.
    + inversion Ha. subst a. apply Hx. eapply nth_error_In. exact Hb.
    + apply (Hl i j a b); [lia | exact Ha | exact Hb].
Qed.

Lemma newest_first_nil : newest_first [].
Proof. intros i j a b _ Ha. destruct i; discriminate Ha. Qed.

Lemma insert_desc_sorted (e : WebhookEvent.t) (l : list WebhookEvent.t) :
  newest_first l -> newest_first (WebhookService.insert_desc e l).
Proof.
  induction l as [|y l IH]; cbn [WebhookService.insert_desc]; intros Hl.
  - apply newest_first_cons. split; [intros ? [] | exact Hl].
  - apply newest_first_cons in Hl as Hyl. destruct Hyl as [Hy Hl'].
    destruct (_ <? _) eqn:E.
    + apply Z.ltb_lt in E. apply newest_first_cons. split; [|exact Hl].
      intros z [<-|Hz]; [lia |]. specialize (Hy z Hz). lia.
    + apply Z.ltb_ge in E. apply newest_first_cons. split; [|apply IH; exact Hl'].
      intros z Hz. apply insert_desc_In in Hz. destruct Hz as [->|Hz]; [lia | auto].
Qed.

Lemma sort_desc_sorted (l : list WebhookEvent.t) : newest_first (WebhookService.sort_desc l).
Proof.
  unfold WebhookService.sort_desc. induction l as [|y l IH]; cbn [fold_right].
  - apply newest_first_nil.
  - apply insert_desc_sorted. exact IH.
Qed.

Lemma In_firstn_list {A : Type} (n : nat) (l : list A) (x : A) : In x (firstn n l) -> In x l.
Proof.
  revert l. induction n as [|n IH]; intros l; [intros [] |].
  destruct l as [|y l]; cbn [firstn In]; [auto |]. intros [H|H]; [auto | right; apply IH; exact H].
Qed.

Lemma newest_first_skipn (n : nat) (l : list WebhookEvent.t) :
  newest_first l -> newest_first (skipn n l).
Proof.
  revert l. induction n as [|n IH]; intros l Hl; [exact Hl |].
  destruct l as [|x l]; [exact Hl |]. cbn [skipn]. apply IH.
  apply newest_first_cons in Hl. tauto.
Qed.

Lemma newest_first_firstn (n : nat) (l : list WebhookEvent.t) :
  newest_first l -> newest_first (firstn n l).
Proof.
  revert l. induction n as [|n IH]; intros l Hl; [apply newest_first_nil |].
  destruct l as [|x l]; [exact Hl |]. cbn [firstn].
  apply newest_first_cons in Hl. destruct Hl as [Hx Hl].
  apply newest_first_cons. split; [|apply IH; exact Hl].
  intros y Hy. apply Hx. eapply In_firstn_list. exact Hy.
Qed.

Lemma In_skipn_list {A : Type} (n : nat) (l : list A) (x : A) : In x (skipn n l) -> In x l.
Proof.
  revert l. induction n as [|n IH]; intros l; [auto |].
  destruct l as [|y l]; cbn [skipn In]; [auto |]. intros H. right. apply IH. exact H.
Qed.


(** What [page_of] returns when it returns. *)
Lemma page_of_ok (limit offset : Z) (l data : list WebhookEvent.t) :
  WebhookService.page_of limit offset l = Ok data ->
  0 <= offset
  /\ data = (if limit =? 0 then skipn (Z.to_nat offset) l
             else firstn (Z.to_nat (Z.abs limit)) (skipn (Z.to_nat offset) l)).
Proof.
  unfold WebhookService.page_of. destruct (offset <? 0) eqn:E; [discriminate |].
  apply Z.ltb_ge in E. intros H. inversion H. auto.
Qed.

Lemma getWebhookEvents_ok (st : Store) (id : string) (f : WebhookService.EventFilters.t)
      (page : WebhookService.Page.t) :
  WebhookService.getWebhookEvents st id f = Ok page ->
  WebhookService.page_of (WebhookService.EventFilters.limit f)
    (WebhookService.EventFilters.offset f)
    (WebhookService.sort_desc
       (List.filter (WebhookService.matches id f) (webhook_events st)))
  = Ok (WebhookService.Page.data page)
  /\ WebhookService.Page.total page
     = Z.of_nat (length (List.filter (WebhookService.matches id f) (webhook_events st)))
  /\ WebhookService.Page.hasMore page
     = (WebhookService.EventFilters.offset f + WebhookService.EventFilters.limit f
        <? WebhookService.Page.total page).
Proof.
  unfold WebhookService.getWebhookEvents. cbv zeta.
  destruct (WebhookService.page_of _ _ _) as [data|m];
    cbn [mbind Result_bind rbind try_catch]; [|discriminate].
  intros H. inversion H. cbn. auto.
Qed.

Lemma matches_webhookId (id : string) (f : WebhookService.EventFilters.t)
      (e : WebhookEvent.t) :
  WebhookService.matches id f e = true -> WebhookEvent.webhookId e = id.
Proof.
  unfold WebhookService.matches. rewrite !andb_true_iff.
  intros [[[[H _] _] _] _]. apply String.eqb_eq. exact H.
Qed.

Lemma matches_page_request (id : string) (f : WebhookService.EventFilters.t)
      (limit offset : Z) (e : WebhookEvent.t) :
  WebhookService.matches id (page_request f limit offset) e = WebhookService.matches id f e.
Proof. reflexivity. Qed.

End EventLog.

(** X13.  A page of the event log holds only stored rows of the
    subscription asked for that pass every given filter, newest first, and
    no more rows than the limit asks for; its total counts all the rows that
    pass the filters, whatever the limit and the offset; and a page is only
    returned for an offset that is not negative. *)
Theorem event_log_page_holds_matching_rows_newest_first :
  forall (st : Store) (id : string) (f : WebhookService.EventFilters.t)
         (page : WebhookService.Page.t),
    WebhookService.getWebhookEvents st id f = Ok page ->
    0 <= WebhookService.EventFilters.offset f
    /\ WebhookService.Page.total page
       = Z.of_nat (length (List.filter (WebhookService.matches id f) (webhook_events st)))
    /\ Forall (fun e => In e (webhook_events st)
                        /\ WebhookEvent.webhookId e = id
                        /\ WebhookService.matches id f e = true)
              (WebhookService.Page.data page)
    /\ newest_first (WebhookService.Page.data page)
    /\ (WebhookService.EventFilters.limit f <> 0 ->
        Z.of_nat (length (WebhookService.Page.data page))
        <= Z.abs (WebhookService.EventFilters.limit f))
    /\ Z.of_nat (length (WebhookService.Page.data page))
       <= Z.max 0 (WebhookService.Page.total page - WebhookService.EventFilters.offset f).
Proof.
  intros st id f page H.
  destruct (getWebhookEvents_ok st id f page H) as (Hp & Ht & _).
  destruct (page_of_ok _ _ _ _ Hp) as (Ho & Hd).
  set (found := List.filter (WebhookService.matches id f) (webhook_events st)) in *.
  assert (Hsub : forall e, In e (WebhookService.Page.data page) ->
                           In e (skipn (Z.to_nat (WebhookService.EventFilters.offset f))
                                       (WebhookService.sort_desc found))).
  { intros e. rewrite Hd. destruct (_ =? 0); [auto | apply In_firstn_list]. }
  assert (Hlen : (length (WebhookService.Page.data page)
                  <= length found - Z.to_nat (WebhookService.EventFilters.offset f))%nat).
  { rewrite Hd. destruct (_ =? 0).
    - rewrite length_skipn, sort_desc_length. lia.
    - rewrite length_firstn, length_skipn, sort_desc_length. lia. }
  split; [exact Ho |]. split; [exact Ht |]. split; [|split; [|split]].
  - apply List.Forall_forall. intros e He. apply Hsub in He. apply In_skipn_list in He.
    apply (proj1 (sort_desc_In _ _)) in He.
    apply filter_In in He. destruct He as [Hin Hm].
    split; [exact Hin |]. split; [eapply matches_webhookId; exact Hm | exact Hm].
  - rewrite Hd. destruct (_ =? 0).
    + apply newest_first_skipn, sort_desc_sorted.
    + apply newest_first_firstn, newest_first_skipn, sort_desc_sorted.
  - intros Hl. rewrite Hd. apply Z.eqb_neq in Hl. rewrite Hl.
    rewrite length_firstn. lia.
  - rewrite Ht. lia.
Qed.

(** The first page of the log of the scenario subscription. *)
Lemma event_log_page_holds_matching_rows_newest_first_witness :
  exists page,
    WebhookService.getWebhookEvents Scenario.store "0000000000000000000000a1"
      (WebhookService.EventFilters.Make 50 0 None None None None) = Ok page
    /\ WebhookService.Page.total page = 1
    /\ newest_first (WebhookService.Page.data page).
Proof.
  eexists. split; [reflexivity |].
  destruct (event_log_page_holds_matching_rows_newest_first Scenario.store
              "0000000000000000000000a1"
              (WebhookService.EventFilters.Make 50 0 None None None None) _ eq_refl)
    as (_ & Ht & _ & Hs & _).
  split; [exact Ht | exact Hs].
Defined.



(* ===================================================================== *)
(** ** Further properties: the list of subscriptions *)
(* ===================================================================== *)

Section Listing.

Lemma map_eq_Forall2 {A B : Type} (f : A -> B) (l1 l2 : list A) :
  map f l1 = map f l2 <-> Forall2 (fun a b => f a = f b) l1 l2.
Proof.
  revert l2. induction l1 as [|a l1 IH]; intros [|b l2]; cbn [map]; split; intros H;
    try discriminate; try constructor; try (inversion H; fail).
  - inversion H. reflexivity.
  - apply IH. inversion H. reflexivity.
  - inversion H as [|? ? ? ? Hab Hl]. subst. apply IH in Hl. congruence.
Qed.

Lemma Forall2_filter_same {A : Type} (R : A -> A -> Prop) (p : A -> bool) (l1 l2 : list A) :
  (forall a b, R a b -> p a = p b) ->
  Forall2 R l1 l2 -> Forall2 R (List.filter p l1) (List.filter p l2).
Proof.
  intros Hp. induction 1 as [|a b l1 l2 Hab Hl IH]; cbn [List.filter]; [constructor |].
  rewrite (Hp a b Hab). destruct (p b); [constructor; assumption | exact IH].
Qed.

Lemma same_but_secret_insert (a b : Webhook.t) (l1 l2 : list Webhook.t) :
  same_but_secret a b -> Forall2 same_but_secret l1 l2 ->
  Forall2 same_but_secret (WebhookService.insert_newest a l1)
                          (WebhookService.insert_newest b l2).
Proof.
  intros Hab. induction 1 as [|x y l1 l2 Hxy Hl IH]; cbn [WebhookService.insert_newest].
  - constructor; [exact Hab | constructor].
  - replace (Webhook.created_at y) with (Webhook.created_at x)
      by (apply (f_equal WebhookService.Listed.created_at) in Hxy; exact Hxy).
    replace (Webhook.created_at b) with (Webhook.created_at a)
      by (apply (f_equal WebhookService.Listed.created_at) in Hab; exact Hab).
    destruct (_ <? _); constructor; try assumption. constructor; assumption.
Qed.

Lemma same_but_secret_sort (l1 l2 : list Webhook.t) :
  Forall2 same_but_secret l1 l2 ->
  Forall2 same_but_secret (WebhookService.sort_newest l1) (WebhookService.sort_newest l2).
Proof.
  unfold WebhookService.sort_newest.
  induction 1 as [|x y l1 l2 Hxy Hl IH]; cbn [fold_right]; [constructor |].
  apply same_but_secret_insert; assumption.
Qed.

Lemma Forall2_skipn_same {A : Type} (R : A -> A -> Prop) (n : nat) (l1 l2 : list A) :
  Forall2 R l1 l2 -> Forall2 R (skipn n l1) (skipn n l2).
Proof.
  intros H. revert n. induction H as [|a b l1 l2 Hab Hl IH]; intros [|n]; cbn [skipn];
    try constructor; try assumption. apply IH.
Qed.

Lemma Forall2_firstn_same {A : Type} (R : A -> A -> Prop) (n : nat) (l1 l2 : list A) :
  Forall2 R l1 l2 -> Forall2 R (firstn n l1) (firstn n l2).
Proof.
  intros H. revert n. induction H as [|a b l1 l2 Hab Hl IH]; intros [|n]; cbn [firstn];
    try constructor; try assumption. apply IH.
Qed.

Lemma Forall2_same_length {A : Type} (R : A -> A -> Prop) (l1 l2 : list A) :
  Forall2 R l1 l2 -> length l1 = length l2.
Proof. induction 1; cbn [length]; congruence. Qed.

Lemma listed_split (user : string) (a : option bool) (l : list Webhook.t) :
  List.filter (WebhookService.listed user a) l
  = List.filter (fun w => match a with
                          | Some b => Bool.eqb (Webhook.isActive w) b
                          | None => true
                          end)
                (List.filter (fun w => String.eqb (Webhook.username w) user) l).
Proof.
  induction l as [|w l IH]; cbn [List.filter]; [reflexivity |].
  unfold WebhookService.listed at 1.
  destruct (String.eqb (Webhook.username w) user); cbn [andb List.filter]; [|exact IH].
  destruct (match a with Some b => Bool.eqb (Webhook.isActive w) b | None => true end);
    rewrite IH; reflexivity.
Qed.

(** The page of the list is a function of what is visible to the
    tenant. *)
Lemma getUserWebhooks_visible (st1 st2 : Store) (user : string)
      (f : WebhookService.ListFilters.t) :
  visible_to user st1 = visible_to user st2 ->
  WebhookService.getUserWebhooks st1 user f = WebhookService.getUserWebhooks st2 user f.
Proof.
  unfold visible_to. intros H. apply map_eq_Forall2 in H.
  unfold WebhookService.getUserWebhooks. cbv zeta. rewrite !listed_split.
  set (own1 := List.filter _ (webhooks st1)) in *.
  set (own2 := List.filter _ (webhooks st2)) in *.
  set (act := fun w : Webhook.t => match WebhookService.ListFilters.isActive f with
                                   | Some b => Bool.eqb (Webhook.isActive w) b
                                   | None => true
                                   end).
  assert (Hf : Forall2 same_but_secret (List.filter act own1) (List.filter act own2)).
  { apply Forall2_filter_same; [|exact H]. intros a b Hab. unfold act.
    apply (f_equal WebhookService.Listed.isActive) in Hab. cbn in Hab. rewrite Hab.
    reflexivity. }
  rewrite (Forall2_same_length _ _ _ Hf).
  apply same_but_secret_sort in Hf.
  unfold WebhookService.page_of_webhooks.
  destruct (_ <? 0); [reflexivity |]. cbn [mbind Result_bind rbind try_catch].
  f_equal. f_equal. apply map_eq_Forall2.
  destruct (_ =? 0).
  - apply Forall2_skipn_same. exact Hf.
  - apply Forall2_firstn_same, Forall2_skipn_same. exact Hf.
Qed.

Lemma insert_newest_perm (w : Webhook.t) (l : list Webhook.t) :
  Permutation (WebhookService.insert_newest w l) (w :: l).
Proof.
  induction l as [|x l IH]; cbn [WebhookService.insert_newest]; [reflexivity |].
  destruct (_ <? _); [reflexivity |].
  rewrite IH. apply perm_swap.
Qed.

Lemma sort_newest_perm (l : list Webhook.t) : Permutation (WebhookService.sort_newest l) l.
Proof.
  unfold WebhookService.sort_newest. induction l as [|x l IH]; cbn [fold_right]; [reflexivity |].
  rewrite insert_newest_perm. constructor. exact IH.
Qed.

Lemma getUserWebhooks_ok (st : Store) (user : string) (f : WebhookService.ListFilters.t)
      (page : WebhookService.WebhookPage.t) :
  WebhookService.getUserWebhooks st user f = Ok page ->
  exists shown,
    WebhookService.page_of_webhooks (WebhookService.ListFilters.limit f)
      (WebhookService.ListFilters.offset f)
      (WebhookService.sort_newest
         (List.filter (WebhookService.listed user (WebhookService.ListFilters.isActive f))
                      (webhooks st)))
    = Ok shown
    /\ WebhookService.WebhookPage.data page = map WebhookService.select_without_secret shown
    /\ WebhookService.WebhookPage.total page
       = Z.of_nat (length (List.filter
                             (WebhookService.listed user (WebhookService.ListFilters.isActive f))
                             (webhooks st))).
Proof.
  unfold WebhookService.getUserWebhooks. cbv zeta.
  destruct (WebhookService.page_of_webhooks _ _ _) as [shown|m];
    cbn [mbind Result_bind rbind try_catch]; [|discriminate].
  intros H. inversion H. cbn. eauto.
Qed.

End Listing.

(** X15.  The answer of the list route is a function of the caller's own
    subscriptions with their secrets left out: two stores that agree on
    those get the same answer, whatever else they hold.  The list therefore
    shows nothing of another tenant's subscriptions and nothing of any
    secret. *)
Theorem list_shows_own_subscriptions_without_secrets :
  forall (st1 st2 : Store) (user : string) (query : ListQuery.t),
    visible_to user st1 = visible_to user st2 ->
    Routes.index st1 user query = Routes.index st2 user query.
Proof.
  intros st1 st2 user query H. unfold Routes.index.
  rewrite (getUserWebhooks_visible st1 st2 user _ H). reflexivity.
Qed.

(** The fan-out store of tenant [t1] against a store in which the secrets
    are others and a second tenant has a subscription of its own. *)
Lemma list_shows_own_subscriptions_without_secrets_witness :
  Routes.index Scenario.store_fanout "t1" (ListQuery.Make None None None)
  = Routes.index
      (MkStore [Webhook.set_secret "s1" Scenario.hook;
                Webhook.Make "0000000000000000000000b1" "t2" "https://other.test/cb" "other"
                  None ["sms.sent"] true "s2" true 3 5000 Stats.initial true 1048576
                  1705314000000 1705314000000 None;
                Webhook.set_secret "s3" Scenario.hook_inactive;
                Webhook.set_secret "s4" Scenario.hook_b] [] 9)
      "t1" (ListQuery.Make None None None).
Proof.
  apply list_shows_own_subscriptions_without_secrets. reflexivity.
Defined.

(** X16.  The page [getUserWebhooks] returns holds only stored
    subscriptions of that tenant that pass the [isActive] filter, and its
    total counts all of them; asked from offset zero with a limit that is
    not below that total, the page holds every one of them exactly once. *)
Theorem list_page_is_exactly_the_tenants_subscriptions :
  forall (st : Store) (user : string) (f : WebhookService.ListFilters.t)
         (page : WebhookService.WebhookPage.t),
    WebhookService.getUserWebhooks st user f = Ok page ->
    let own := List.filter
                 (WebhookService.listed user (WebhookService.ListFilters.isActive f))
                 (webhooks st) in
    WebhookService.WebhookPage.total page = Z.of_nat (length own)
    /\ (exists shown,
           WebhookService.WebhookPage.data page
           = map WebhookService.select_without_secret shown
           /\ Forall (fun w => In w (webhooks st)
                               /\ Webhook.username w = user
                               /\ (forall b, WebhookService.ListFilters.isActive f = Some b ->
                                             Webhook.isActive w = b))
                     shown)
    /\ (WebhookService.ListFilters.offset f = 0 ->
        WebhookService.WebhookPage.total page <= WebhookService.ListFilters.limit f ->
        Permutation (WebhookService.WebhookPage.data page)
                    (map WebhookService.select_without_secret own)).
Proof.
  intros st user f page H. cbv zeta.
  destruct (getUserWebhooks_ok st user f page H) as (shown & Hp & Hd & Ht).
  set (own := List.filter _ (webhooks st)) in *.
  unfold WebhookService.page_of_webhooks in Hp.
  destruct (_ <? 0); [discriminate |]. inversion Hp as [Hshown]. clear Hp.
  split; [exact Ht |]. split.
  - exists shown. split; [exact Hd |].
    apply List.Forall_forall. intros w Hw.
    assert (Hin : In w own).
    { rewrite <- Hshown in Hw. eapply Permutation_in; [apply sort_newest_perm |].
      destruct (_ =? 0); [|apply In_firstn_list in Hw];
        eapply In_skipn_list; exact Hw. }
    apply filter_In in Hin. destruct Hin as [Hin Hl].
    unfold WebhookService.listed in Hl. apply andb_prop in Hl. destruct Hl as [Hu Ha].
    split; [exact Hin |]. split; [apply String.eqb_eq; exact Hu |].
    intros b Hb. rewrite Hb in Ha. apply Bool.eqb_prop. exact Ha.
  - intros Ho Hl. rewrite Hd, <- Hshown, Ho. change (Z.to_nat 0) with 0%nat. rewrite !skipn_O.
    apply Permutation_map.
    destruct (_ =? 0).
    + apply sort_newest_perm.
    + rewrite firstn_all2; [apply sort_newest_perm |].
      pose proof (Permutation_length (sort_newest_perm own)) as Hlen. lia.
Qed.

(** Tenant [t1] listing its active subscriptions in the fan-out store. *)
Lemma list_page_is_exactly_the_tenants_subscriptions_witness :
  exists page,
    WebhookService.getUserWebhooks Scenario.store_fanout "t1"
      (WebhookService.ListFilters.Make 20 0 (Some true)) = Ok page
    /\ WebhookService.WebhookPage.total page = 2.
Proof.
  eexists. split; [reflexivity |].
  destruct (list_page_is_exactly_the_tenants_subscriptions Scenario.store_fanout "t1"
              (WebhookService.ListFilters.Make 20 0 (Some true)) _ eq_refl) as (Ht & _).
  exact Ht.
Defined.

(* ===================================================================== *)
(** ** Further properties: passwords and accounts *)
(* ===================================================================== *)

Section Strengths.

Lemma check_fst (ok : bool) (pts : Z) (issue : string) (r : Z * list string) :
  fst (UserProfileService.check ok pts issue r) = fst r + (if ok then pts else 0).
Proof. unfold UserProfileService.check. destruct ok; cbn [fst]; lia. Qed.

Lemma check_snd (ok : bool) (pts : Z) (issue : string) (r : Z * list string) :
  snd (UserProfileService.check ok pts issue r) = snd r ++ (if ok then [] else [issue]).
Proof.
  unfold UserProfileService.check.
  destruct ok; cbn [snd]; [rewrite app_nil_r |]; reflexivity.
Qed.

Lemma strength_score (password : string) :
  let v := UserProfileService.validatePasswordStrength password in
  let len := UserProfileService.js_length password in
  Strength.score v
  = (if len <? 6 then 0 else 20) + (if 12 <=? len then 20 else 0)
    + (if UserProfileService.test UserProfileService.lowercase password then 15 else 0)
    + (if UserProfileService.test UserProfileService.uppercase password then 15 else 0)
    + (if UserProfileService.test UserProfileService.digit password then 15 else 0)
    + (if UserProfileService.test UserProfileService.special password then 15 else 0).
Proof.
  cbv zeta. unfold UserProfileService.validatePasswordStrength. cbv zeta.
  cbn [Strength.score]. rewrite !check_fst.
  destruct (12 <=? _); cbn [fst]; rewrite ?check_fst; cbn [fst];
    destruct (_ <? 6); cbn [negb]; lia.
Qed.

Lemma strength_issues (password : string) :
  let v := UserProfileService.validatePasswordStrength password in
  let len := UserProfileService.js_length password in
  Z.of_nat (length (Strength.issues v))
  = (if len <? 6 then 1 else 0)
    + (if UserProfileService.test UserProfileService.lowercase password then 0 else 1)
    + (if UserProfileService.test UserProfileService.uppercase password then 0 else 1)
    + (if UserProfileService.test UserProfileService.digit password then 0 else 1)
    + (if UserProfileService.test UserProfileService.special password then 0 else 1).
Proof.
  cbv zeta. unfold UserProfileService.validatePasswordStrength. cbv zeta.
  cbn [Strength.issues]. rewrite !check_snd.
  destruct (12 <=? _); cbn [snd]; rewrite ?check_snd; cbn [snd];
    rewrite !length_app;
    destruct (_ <? 6); cbn [negb];
    repeat match goal with |- context [if ?b then _ else _] => destruct b end;
    cbn [length]; lia.
Qed.

End Strengths.

(** X17.  The verdict of [validatePasswordStrength].  A password is valid
    exactly when it has six or more UTF-16 code units and a lowercase
    letter, an uppercase letter, a digit and a character that is none of
    these; a valid password scores 80 or more and is rated strong; the score
    lies between 0 and 100; a password of fewer than six code units scores
    60 at most and is never rated strong; and the result lists an issue
    exactly when the password is not valid. *)
Theorem password_strength_verdict :
  forall (password : string),
    let v := UserProfileService.validatePasswordStrength password in
    (Strength.isValid v = true
     <-> 6 <= UserProfileService.js_length password
         /\ UserProfileService.test UserProfileService.lowercase password = true
         /\ UserProfileService.test UserProfileService.uppercase password = true
         /\ UserProfileService.test UserProfileService.digit password = true
         /\ UserProfileService.test UserProfileService.special password = true)
    /\ (Strength.isValid v = true -> 80 <= Strength.score v /\ Strength.strength v = "strong")
    /\ 0 <= Strength.score v <= 100
    /\ (UserProfileService.js_length password < 6 ->
        Strength.score v <= 60 /\ Strength.strength v <> "strong")
    /\ (Strength.isValid v = false <-> Strength.issues v <> []).
Proof.
  intros password. cbv zeta.
  pose proof (strength_score password) as Hs.
  pose proof (strength_issues password) as Hi. cbv zeta in Hs, Hi.
  assert (Hv : Strength.isValid (UserProfileService.validatePasswordStrength password)
               = Nat.eqb (length (Strength.issues
                                    (UserProfileService.validatePasswordStrength password))) 0)
    by reflexivity.
  assert (Hst : Strength.strength (UserProfileService.validatePasswordStrength password)
                = if 70 <=? Strength.score (UserProfileService.validatePasswordStrength password)
                  then "strong"
                  else if 40 <=? Strength.score
                                   (UserProfileService.validatePasswordStrength password)
                       then "medium" else "weak")
    by reflexivity.
  revert Hs Hi Hv Hst.
  generalize (UserProfileService.validatePasswordStrength password). intros v Hs Hi Hv Hst.
  assert (Hnil : Strength.issues v <> [] <-> length (Strength.issues v) <> 0%nat)
    by (destruct (Strength.issues v); cbn [length]; split; intros H; try congruence; lia).
  rewrite Hv, Hst, Hnil, Nat.eqb_eq, Nat.eqb_neq. clear Hv Hst Hnil.
  destruct (70 <=? Strength.score v) eqn:E70; [apply Z.leb_le in E70 | apply Z.leb_gt in E70].
  all: destruct (UserProfileService.js_length password <? 6) eqn:E6;
    [apply Z.ltb_lt in E6 | apply Z.ltb_ge in E6].
  all: destruct (12 <=? UserProfileService.js_length password) eqn:E12;
    [apply Z.leb_le in E12 | apply Z.leb_gt in E12].
  all: destruct (UserProfileService.test UserProfileService.lowercase password);
    destruct (UserProfileService.test UserProfileService.uppercase password);
    destruct (UserProfileService.test UserProfileService.digit password);
    destruct (UserProfileService.test UserProfileService.special password).
  all: try lia.
  all: repeat split; intros; try lia; try reflexivity; try discriminate.
  all: try (destruct (40 <=? Strength.score v); discriminate).
  all: repeat match goal with H : _ /\ _ |- _ => destruct H end; try discriminate.
Qed.

Section AccountFacts.

Lemma changePassword_ok (compare : string -> string -> bool)
      (hash : string -> string -> string)
      (save : User.t -> list User.t -> Result (list User.t))
      (salt : string) (users : list User.t) (id : string)
      (data : PasswordData.t) (result : JSON) (users' : list User.t) :
  UserProfileService.changePassword compare hash save salt users id data
  = Ok (result, users') ->
  exists current new user,
    data = PasswordData.Make (Some current) (Some new) (Some new)
    /\ current <> "" /\ current <> new
    /\ 6 <= UserProfileService.js_length new <= 50
    /\ UserProfileService.findById id users = Some user
    /\ compare current (User.password user) = true
    /\ save (User.set_password (hash new salt) user) users = Ok users'.
Proof.
  unfold UserProfileService.changePassword.
  destruct data as [[cur|] [new|] [conf|]]; cbn [PasswordData.currentPassword
    PasswordData.newPassword PasswordData.confirmPassword try_catch]; try discriminate.
  destruct (String.eqb cur "") eqn:Ec; cbn [orb try_catch]; [discriminate |].
  destruct (String.eqb new "") eqn:En; cbn [orb try_catch]; [discriminate |].
  destruct (String.eqb conf "") eqn:Ef; cbn [orb try_catch]; [discriminate |].
  destruct (String.eqb new conf) eqn:Enc; cbn [negb try_catch]; [|discriminate].
  destruct (UserProfileService.js_length new <? 6) eqn:E6; cbn [try_catch]; [discriminate |].
  destruct (50 <? UserProfileService.js_length new) eqn:E50; cbn [try_catch];
    [discriminate |].
  destruct (String.eqb cur new) eqn:Ecn; cbn [try_catch]; [discriminate |].
  destruct (UserProfileService.findById id users) as [user|] eqn:Hf; cbn [try_catch];
    [|discriminate].
  destruct (compare cur (User.password user)) eqn:Hc; cbn [negb try_catch]; [|discriminate].
  cbv zeta.
  destruct (save _ users) as [saved|m] eqn:Hs; cbn [mbind Result_bind rbind try_catch];
    [|discriminate].
  intros H. inversion H. subst.
  apply String.eqb_eq in Enc. subst conf.
  apply String.eqb_neq in Ec, Ecn. apply Z.ltb_ge in E6, E50.
  exists cur, new, user. repeat split; try assumption; lia.
Qed.

Lemma deleteAccount_ok (compare : string -> string -> bool)
      (users : list User.t) (id : string) (password : option string)
      (result : JSON) (users' : list User.t) :
  UserProfileService.deleteAccount compare users id password = Ok (result, users') ->
  exists p user,
    password = Some p /\ p <> ""
    /\ UserProfileService.findById id users = Some user
    /\ compare p (User.password user) = true
    /\ users' = UserProfileService.findByIdAndDelete id users.
Proof.
  unfold UserProfileService.deleteAccount.
  destruct password as [p|]; cbn [try_catch]; [|discriminate].
  destruct (String.eqb p "") eqn:Ep; cbn [try_catch]; [discriminate |].
  destruct (UserProfileService.findById id users) as [user|] eqn:Hf; cbn [try_catch];
    [|discriminate].
  destruct (compare p (User.password user)) eqn:Hc; cbn [negb try_catch]; [|discriminate].
  intros H. inversion H. subst. apply String.eqb_neq in Ep.
  exists p, user. repeat split; assumption.
Qed.

Lemma user_delete_other (id id' : string) (users : list User.t) :
  id' <> id ->
  UserProfileService.findById id' (UserProfileService.findByIdAndDelete id users)
  = UserProfileService.findById id' users.
Proof.
  intros Hne. induction users as [|u users IH];
    cbn [UserProfileService.findByIdAndDelete UserProfileService.findById]; [reflexivity |].
  destruct (String.eqb (User._id u) id) eqn:E.
  - apply String.eqb_eq in E.
    destruct (String.eqb (User._id u) id') eqn:E'; [|reflexivity].
    apply String.eqb_eq in E'. congruence.
  - cbn [UserProfileService.findById]. rewrite IH. reflexivity.
Qed.

Lemma user_delete_same (id : string) (users : list User.t) :
  List.NoDup (map User._id users) ->
  UserProfileService.findById id (UserProfileService.findByIdAndDelete id users) = None.
Proof.
  induction users as [|u users IH];
    cbn [UserProfileService.findByIdAndDelete UserProfileService.findById map];
    [reflexivity |].
  intros Hn. inversion Hn as [|? ? Hnot Hrest]; subst.
  destruct (String.eqb (User._id u) id) eqn:E.
  - apply String.eqb_eq in E. subst id. clear IH Hn Hrest.
    induction users as [|x users IH]; cbn [UserProfileService.findById]; [reflexivity |].
    destruct (String.eqb (User._id x) (User._id u)) eqn:E'.
    + apply String.eqb_eq in E'. exfalso. apply Hnot. left. exact E'.
    + apply IH. intros Hin. apply Hnot. right. exact Hin.
  - cbn [UserProfileService.findById]. rewrite E. apply IH. exact Hrest.
Qed.

End AccountFacts.

(** X18.  The change-password route answers 200 only for a request that
    names a current password, a new password and an equal confirmation,
    where the new password has between 6 and 50 UTF-16 code units and
    differs from the current one, the user exists, the current password
    passes [bcrypt.compare] against the stored hash, and what was saved is
    the user with the hash of the new password; the new collection is the
    one that [save] gave.  Every other request is answered 400 and leaves
    the users as they were. *)
Theorem password_change_requires_the_current_password :
  forall (compare : string -> string -> bool) (hash : string -> string -> string)
         (save : User.t -> list User.t -> Result (list User.t))
         (salt : string) (users : list User.t) (id : string) (body : PasswordData.t)
         (resp : Response) (users' : list User.t),
    UserRoutes.change_password compare hash save salt users id body = (resp, users') ->
    (res_status resp = 200 ->
     exists current new user,
       body = PasswordData.Make (Some current) (Some new) (Some new)
       /\ current <> "" /\ current <> new
       /\ 6 <= UserProfileService.js_length new <= 50
       /\ UserProfileService.findById id users = Some user
       /\ compare current (User.password user) = true
       /\ save (User.set_password (hash new salt) user) users = Ok users')
    /\ (res_status resp <> 200 -> res_status resp = 400 /\ users' = users).
Proof.
  intros compare hash save salt users id body resp users' H.
  unfold UserRoutes.change_password in H.
  destruct (_ || _).
  { inversion H. subst. cbn. split; [discriminate | auto]. }
  destruct (UserProfileService.changePassword _ _ _ _ _ _ _) as [[result saved]|m] eqn:Hc;
    inversion H; subst; clear H; cbn [res_status Routes.failure].
  - split; [|congruence]. intros _. eapply changePassword_ok. exact Hc.
  - split; [discriminate | auto].
Qed.

(** A user changing the password, with a toy digest in the place of
    bcrypt and a [save] that appends. *)
Lemma password_change_requires_the_current_password_witness :
  res_status
    (fst (UserRoutes.change_password
            (fun plain digest => String.eqb ("h:" +:+ plain) digest)
            (fun plain salt => "h:" +:+ plain)
            (fun user users => Ok (users ++ [user]))
            "salt"
            [User.Make "0000000000000000000000c1" "t1" "t1@example.test" "Tenant" 0 "h:old-pass"]
            "0000000000000000000000c1"
            (PasswordData.Make (Some "old-pass") (Some "new-pass") (Some "new-pass"))))
  = 200
  /\ exists current new user,
       PasswordData.Make (Some "old-pass") (Some "new-pass") (Some "new-pass")
       = PasswordData.Make (Some current) (Some new) (Some new)
       /\ UserProfileService.findById "0000000000000000000000c1"
            [User.Make "0000000000000000000000c1" "t1" "t1@example.test" "Tenant" 0
                       "h:old-pass"]
          = Some user
       /\ String.eqb ("h:" +:+ current) (User.password user) = true.
Proof.
  split; [reflexivity |].
  edestruct (password_change_requires_the_current_password
               (fun plain digest => String.eqb ("h:" +:+ plain) digest)
               (fun plain salt => "h:" +:+ plain)
               (fun user users => Ok (users ++ [user]))
               "salt"
               [User.Make "0000000000000000000000c1" "t1" "t1@example.test" "Tenant" 0
                          "h:old-pass"]
               "0000000000000000000000c1"
               (PasswordData.Make (Some "old-pass") (Some "new-pass") (Some "new-pass")))
    as [Hok _]; [reflexivity |].
  destruct (Hok eq_refl) as (current & new & user & Hb & _ & _ & _ & Hf & Hc & _).
  exists current, new, user. auto.
Defined.

(** X19.  The delete-account route answers 200 only when the user
    exists and the password given passes [bcrypt.compare] against the stored
    hash; then that user's document is removed and every other user is kept
    as it was, and with unique ids the account can no longer be found.
    Every other request is answered 400 and leaves the users as they
    were. *)
Theorem account_deletion_requires_the_password :
  forall (compare : string -> string -> bool) (users : list User.t) (id : string)
         (password : option string) (resp : Response) (users' : list User.t),
    UserRoutes.delete_account compare users id password = (resp, users') ->
    (res_status resp = 200 ->
     (exists p user,
         password = Some p /\ p <> ""
         /\ UserProfileService.findById id users = Some user
         /\ compare p (User.password user) = true)
     /\ users' = UserProfileService.findByIdAndDelete id users
     /\ (forall id', id' <> id ->
            UserProfileService.findById id' users' = UserProfileService.findById id' users)
     /\ (List.NoDup (map User._id users) -> UserProfileService.findById id users' = None))
    /\ (res_status resp <> 200 -> res_status resp = 400 /\ users' = users).
Proof.
  intros compare users id password resp users' H.
  unfold UserRoutes.delete_account in H.
  destruct (Routes.falsy password).
  { inversion H. subst. cbn. split; [discriminate | auto]. }
  destruct (UserProfileService.deleteAccount _ _ _ _) as [[result rest]|m] eqn:Hd;
    inversion H; subst; clear H; cbn [res_status Routes.failure].
  - split; [|congruence]. intros _.
    destruct (deleteAccount_ok _ _ _ _ _ _ Hd) as (p & user & Hp & Hne & Hf & Hc & Hu).
    split; [exists p, user; auto |]. split; [exact Hu |]. subst users'. split.
    + intros id' Hid. apply user_delete_other. exact Hid.
    + apply user_delete_same.
  - split; [discriminate | auto].
Qed.

(** One of two users deleting the account. *)
Lemma account_deletion_requires_the_password_witness :
  snd (UserRoutes.delete_account (fun plain digest => String.eqb ("h:" +:+ plain) digest)
         [User.Make "0000000000000000000000c1" "t1" "t1@example.test" "Tenant" 0 "h:pass-1";
          User.Make "0000000000000000000000c2" "t2" "t2@example.test" "Other" 0 "h:pass-2"]
         "0000000000000000000000c1" (Some "pass-1"))
  = [User.Make "0000000000000000000000c2" "t2" "t2@example.test" "Other" 0 "h:pass-2"].
Proof.
  edestruct (account_deletion_requires_the_password
               (fun plain digest => String.eqb ("h:" +:+ plain) digest)
               [User.Make "0000000000000000000000c1" "t1" "t1@example.test" "Tenant" 0
                          "h:pass-1";
                User.Make "0000000000000000000000c2" "t2" "t2@example.test" "Other" 0
                          "h:pass-2"]
               "0000000000000000000000c1" (Some "pass-1"))
    as [Hok _]; [reflexivity |].
  destruct (Hok eq_refl) as (_ & Hu & _). exact Hu.
Defined.

(** X20.  The second handler registered on [GET /profile], the one that
    asks [UserProfileService.getProfile], is never reached: whatever the
    path matching of the framework is, no request is dispatched to it, and
    every [GET] request that matches [/profile] goes to the handler
    registered first. *)
Theorem second_profile_handler_is_unreachable :
  forall (matches : string -> string -> bool) (m : UserRoutes.Method) (path : string),
    UserRoutes.dispatch matches m path <> Some UserRoutes.h_profile_of_service
    /\ (m = UserRoutes.GET -> matches "/profile" path = true ->
        UserRoutes.dispatch matches m path = Some UserRoutes.h_profile_of_token).
Proof.
  intros matches m path. unfold UserRoutes.dispatch, UserRoutes.table. split.
  - destruct m; cbn [List.find UserRoutes.Method_eqb fst snd andb];
      repeat match goal with
             | |- context [if matches ?p path then _ else _] =>
                 destruct (matches p path) eqn:?
             end;
      cbn [option_map snd]; congruence.
  - intros -> H. cbn [List.find UserRoutes.Method_eqb fst snd andb]. rewrite H.
    reflexivity.
Qed.

(* ===================================================================== *)
(** ** Further properties: where the secret shows *)
(* ===================================================================== *)

Section Secrets.

Lemma findById_same_but_secret (id : string) (l1 l2 : list Webhook.t) :
  Forall2 same_but_secret l1 l2 ->
  (Db.findById id l1 = None /\ Db.findById id l2 = None)
  \/ exists a b, Db.findById id l1 = Some a /\ Db.findById id l2 = Some b
                 /\ same_but_secret a b.
Proof.
  induction 1 as [|x y l1 l2 Hxy Hl IH]; cbn [Db.findById]; [left; auto |].
  replace (Webhook._id y) with (Webhook._id x)
    by (apply (f_equal WebhookService.Listed._id) in Hxy; exact Hxy).
  destruct (String.eqb (Webhook._id x) id); [right; eauto | exact IH].
Qed.

Lemma getWebhookById_same_but_secret (st1 st2 : Store) (id user : string) :
  Forall2 same_but_secret (webhooks st1) (webhooks st2) ->
  (exists m, WebhookService.getWebhookById st1 id user = Throw m
             /\ WebhookService.getWebhookById st2 id user = Throw m)
  \/ exists a b, WebhookService.getWebhookById st1 id user = Ok a
                 /\ WebhookService.getWebhookById st2 id user = Ok b
                 /\ Db.findById id (webhooks st1) = Some a
                 /\ Db.findById id (webhooks st2) = Some b
                 /\ same_but_secret a b.
Proof.
  intros H. unfold WebhookService.getWebhookById.
  destruct (findById_same_but_secret id _ _ H) as [[-> ->]|(a & b & Ha & Hb & Hab)].
  - left. eexists. split; reflexivity.
  - rewrite Ha, Hb.
    replace (Webhook.username b) with (Webhook.username a)
      by (apply (f_equal WebhookService.Listed.username) in Hab; exact Hab).
    destruct (String.eqb (Webhook.username a) user); cbn [negb try_catch].
    + right. exists a, b. auto.
    + left. eexists. split; reflexivity.
Qed.

Lemma hex_digit_is_hex (n : Z) : WebhookService.is_hex_char (Crypto.hex_digit n) = true.
Proof.
  unfold Crypto.hex_digit. destruct n as [|p|p]; try reflexivity.
  do 5 (try (destruct p as [p|p|]; try reflexivity)).
Qed.

Lemma hex_all_hex (bs : list Z) : WebhookService.all_hex (Crypto.hex bs) = true.
Proof.
  induction bs as [|b bs IH]; cbn [Crypto.hex WebhookService.all_hex]; [reflexivity |].
  rewrite !hex_digit_is_hex, IH. reflexivity.
Qed.

Lemma replace_event_keeps (e x : WebhookEvent.t) (l : list WebhookEvent.t) :
  In x l -> WebhookEvent._id x <> WebhookEvent._id e -> In x (Db.replace_event e l).
Proof.
  intros Hin Hne. induction l as [|y l IH]; cbn [Db.replace_event]; [exact Hin |].
  destruct (String.eqb (WebhookEvent._id y) (WebhookEvent._id e)) eqn:E.
  - destruct Hin as [<-|Hin]; [|right; exact Hin].
    apply String.eqb_eq in E. congruence.
  - destruct Hin as [<-|Hin]; [left; reflexivity | right; apply IH; exact Hin].
Qed.

Lemma on_failure_keeps (t : Z) (st : Store) (w : option Webhook.t) (e x : WebhookEvent.t)
      (m : string) (q : option Request) :
  In x (webhook_events st) -> WebhookEvent._id x <> WebhookEvent._id e ->
  In x (webhook_events (WebhookService.sr_store (WebhookService.on_failure t st w e m q))).
Proof.
  intros Hin Hne. unfold WebhookService.on_failure.
  destruct (_ <? _); destruct w as [w|]; cbn [WebhookService.sr_store]; try exact Hin;
    unfold WebhookService.inc_stats, WebhookService.save_event;
    cbn [webhook_events Db.with_webhooks Db.with_events];
    apply replace_event_keeps; assumption.
Qed.

Lemma sendWebhookEvent_keeps (now : Z) (st : Store) (w : option Webhook.t)
      (e x : WebhookEvent.t) (reply : Reply) :
  In x (webhook_events st) -> WebhookEvent._id x <> WebhookEvent._id e ->
  In x (webhook_events
          (WebhookService.sr_store (WebhookService.sendWebhookEvent now st w e reply))).
Proof.
  intros Hin Hne. unfold WebhookService.sendWebhookEvent.
  destruct w as [w|]; [|apply on_failure_keeps; assumption].
  destruct (Axios.post _ _ _) as [m|[status|m rs]]; try (apply on_failure_keeps; assumption).
  cbn [WebhookService.sr_store].
  unfold WebhookService.inc_stats, WebhookService.save_event.
  cbn [webhook_events Db.with_webhooks Db.with_events].
  apply replace_event_keeps; assumption.
Qed.

Lemma retry_loop_keeps (replies : string -> Reply) (x : WebhookEvent.t)
      (found : list (WebhookEvent.t * option Webhook.t)) :
  Forall (fun p => WebhookEvent._id x <> WebhookEvent._id (fst p)) found ->
  forall acc,
    In x (webhook_events (WebhookService.sw_store acc)) ->
    In x (webhook_events
            (WebhookService.sw_store (WebhookService.retry_loop replies found acc))).
Proof.
  induction 1 as [|[e w] found Hne _ IH]; intros acc Hin; cbn [WebhookService.retry_loop];
    [exact Hin |].
  apply IH. cbn [WebhookService.sw_store]. apply sendWebhookEvent_keeps; assumption.
Qed.

Lemma NoDup_ids_distinct (x e : WebhookEvent.t) (l : list WebhookEvent.t) :
  List.NoDup (map WebhookEvent._id l) -> In x l -> In e l -> x <> e ->
  WebhookEvent._id x <> WebhookEvent._id e.
Proof.
  induction l as [|y l IH]; cbn [map]; [intros _ [] |].
  intros Hn Hx He Hxe Hid. inversion Hn as [|? ? Hy Hl]; subst.
  destruct Hx as [<-|Hx]; destruct He as [<-|He].
  - congruence.
  - apply Hy. rewrite Hid. apply in_map. exact He.
  - apply Hy. rewrite <- Hid. apply in_map. exact Hx.
  - exact (IH Hl Hx He Hxe Hid).
Qed.

End Secrets.

(** X21.  The events, stats and test routes show nothing of a secret: on
    two stores that hold the same documents but for the secrets of the
    subscriptions, each of them gives the same answer. *)
Theorem secrets_do_not_show_in_events_stats_and_test :
  forall (st1 st2 : Store) (user id : string) (query : EventsQuery.t)
         (facets : Result (option JSON)) (now : Z) (reply : Reply),
    same_but_secrets st1 st2 ->
    Routes.events st1 user id query = Routes.events st2 user id query
    /\ Routes.statistics st1 user id facets = Routes.statistics st2 user id facets
    /\ fst (Routes.test now st1 user id reply) = fst (Routes.test now st2 user id reply).
Proof.
  intros st1 st2 user id query facets now reply [Hw He].
  destruct (getWebhookById_same_but_secret st1 st2 id user Hw)
    as [(m & H1 & H2)|(a & b & H1 & H2 & Ha & Hb & Hab)].
  - unfold Routes.events, Routes.statistics, Routes.test, WebhookService.sendTestWebhook.
    rewrite H1, H2. repeat split.
  - split; [|split].
    + unfold Routes.events. rewrite H1, H2. cbn [mbind Result_bind rbind].
      unfold WebhookService.getWebhookEvents. rewrite He. reflexivity.
    + unfold Routes.statistics. rewrite H1, H2. cbn [mbind Result_bind rbind].
      unfold WebhookService.getWebhookStats. rewrite Ha, Hb.
      pose proof (f_equal WebhookService.Listed._id Hab) as E1.
      pose proof (f_equal WebhookService.Listed.name Hab) as E2.
      pose proof (f_equal WebhookService.Listed.url Hab) as E3.
      pose proof (f_equal WebhookService.Listed.isActive Hab) as E4.
      pose proof (f_equal WebhookService.Listed.stats Hab) as E5.
      cbn in E1, E2, E3, E4, E5. rewrite E1, E2, E3, E4, E5. reflexivity.
    + unfold Routes.test, WebhookService.sendTestWebhook. rewrite H1, H2.
      cbn [mbind Result_bind rbind].
      destruct (Axios.post _ _ _) as [m|[status|m rs]]; reflexivity.
Qed.

(** The scenario store against the same store after its secret was
    replaced. *)
Lemma secrets_do_not_show_in_events_stats_and_test_witness :
  Routes.statistics Scenario.store "t1" "0000000000000000000000a1" (Ok None)
  = Routes.statistics
      (MkStore [Webhook.set_secret "another" Scenario.hook] [Scenario.event_x1] 2)
      "t1" "0000000000000000000000a1" (Ok None).
Proof.
  edestruct (secrets_do_not_show_in_events_stats_and_test Scenario.store
               (MkStore [Webhook.set_secret "another" Scenario.hook] [Scenario.event_x1] 2)
               "t1" "0000000000000000000000a1"
               (EventsQuery.Make None None None None None None) (Ok None) 0 Scenario.ok200)
    as (_ & Hs & _).
  - split; [|reflexivity]. constructor; [reflexivity | constructor].
  - exact Hs.
Defined.

(** X22.  Every secret the service issues is a text of 32 hexadecimal
    digits: when the random source gives its sixteen bytes, this holds of
    the secret [generateSecret] returns, of the secret of every subscription
    [createWebhook] stores and of the secret [rotateSecret] puts in
    place. *)
Theorem issued_secrets_are_32_hex_digits :
  forall (strict_arrays : bool) (rng : Entropy) (now : Z) (st : Store),
    length (rng 16%nat) = 16%nat ->
    (String.length (WebhookService.generateSecret rng) = 32%nat
     /\ WebhookService.all_hex (WebhookService.generateSecret rng) = true)
    /\ (forall data w st',
           WebhookService.createWebhook strict_arrays rng now st data = Ok (w, st') ->
           String.length (Webhook.secret w) = 32%nat
           /\ WebhookService.all_hex (Webhook.secret w) = true)
    /\ (forall id user w st',
           WebhookService.rotateSecret strict_arrays rng now st id user = Ok (w, st') ->
           String.length (Webhook.secret w) = 32%nat
           /\ WebhookService.all_hex (Webhook.secret w) = true).
Proof.
  intros strict_arrays rng now st Hlen.
  assert (Hgen : String.length (WebhookService.generateSecret rng) = 32%nat
                 /\ WebhookService.all_hex (WebhookService.generateSecret rng) = true).
  { unfold WebhookService.generateSecret. rewrite hex_length, Hlen, hex_all_hex. auto. }
  split; [exact Hgen |]. split.
  - intros data w st' H.
    destruct (createWebhook_ok _ _ _ _ _ _ _ H) as (_ & _ & _ & _ & Hs & _).
    rewrite Hs. exact Hgen.
  - intros id user w st' H.
    destruct (rotateSecret_ok _ _ _ _ _ _ _ _ H) as (w0 & _ & _ & Hw & _).
    rewrite Hw. exact Hgen.
Qed.

(** The sixteen bytes of the scenarios. *)
Lemma issued_secrets_are_32_hex_digits_witness :
  String.length (WebhookService.generateSecret Scenario.dice) = 32%nat
  /\ WebhookService.all_hex (WebhookService.generateSecret Scenario.dice) = true.
Proof.
  destruct (issued_secrets_are_32_hex_digits false Scenario.dice Scenario.t0
              Scenario.empty_store eq_refl) as [H _].
  exact H.
Defined.

(** X23.  With unique event ids, a dispatch rewrites no row but the one of
    the event it was given, and a retry sweep rewrites no row that was not
    due: every other row of the log is found unchanged afterwards, so an
    event that was delivered or that has failed for good is never touched
    again. *)
Theorem deliveries_rewrite_only_their_own_rows :
  forall (now : Z) (st : Store) (x : WebhookEvent.t),
    unique_event_ids st ->
    In x (webhook_events st) ->
    (forall w e reply,
        In e (webhook_events st) -> x <> e ->
        In x (webhook_events
                (WebhookService.sr_store (WebhookService.sendWebhookEvent now st w e reply))))
    /\ (forall replies sweep,
           WebhookService.retryFailedEvents now st replies = Ok sweep ->
           WebhookService.due now x = false ->
           In x (webhook_events (WebhookService.sw_store sweep))).
Proof.
  intros now st x Hu Hx. split.
  - intros w e reply He Hxe. apply sendWebhookEvent_keeps; [exact Hx |].
    eapply NoDup_ids_distinct; eauto.
  - intros replies sweep H Hdue.
    unfold WebhookService.retryFailedEvents in H. cbn [try_catch] in H.
    inversion H. clear H.
    apply retry_loop_keeps; [|exact Hx].
    apply List.Forall_forall. intros [e w] Hin. apply in_map_iff in Hin.
    destruct Hin as (e' & Heq & Hin). inversion Heq. subst. cbn [fst].
    apply filter_In in Hin. destruct Hin as [Hin He].
    eapply NoDup_ids_distinct; eauto. congruence.
Qed.

(** A log with a delivered row and a row that is due, the receiver
    answering 200 to the retry. *)
Lemma deliveries_rewrite_only_their_own_rows_witness :
  exists sweep,
    WebhookService.retryFailedEvents 1705318200025
      (MkStore [Scenario.hook]
         [WebhookService.mark_success 1705314600025 200 25
            (WebhookEvent.Make "0000000000000000000000e0" "0000000000000000000000a1" None
               "sms.delivered" Scenario.x1 pending None None 0 3 None None None None None
               1705314600000 None);
          Scenario.event_once_failed] 3)
      (fun _ => Scenario.ok200) = Ok sweep
    /\ In (WebhookService.mark_success 1705314600025 200 25
             (WebhookEvent.Make "0000000000000000000000e0" "0000000000000000000000a1" None
                "sms.delivered" Scenario.x1 pending None None 0 3 None None None None None
                1705314600000 None))
          (webhook_events (WebhookService.sw_store sweep)).
Proof.
  eexists. split; [reflexivity |].
  eapply (deliveries_rewrite_only_their_own_rows 1705318200025
            (MkStore [Scenario.hook]
               [WebhookService.mark_success 1705314600025 200 25
                  (WebhookEvent.Make "0000000000000000000000e0" "0000000000000000000000a1"
                     None "sms.delivered" Scenario.x1 pending None None 0 3 None None None
                     None None 1705314600000 None);
                Scenario.event_once_failed] 3)).
  - unfold unique_event_ids. cbn.
    repeat (apply List.NoDup_cons; [cbn; intuition discriminate |]). apply List.NoDup_nil.
  - left. reflexivity.
  - reflexivity.
  - reflexivity.
Defined.

(* ===================================================================== *)
(** ** Further properties: what a delivery reads *)
(* ===================================================================== *)

Section DeliveryInputs.

Lemma same_for_delivery_findById (id : string) (l l' : list Webhook.t) :
  Forall2 same_for_delivery l l' ->
  same_for_delivery_opt (Db.findById id l) (Db.findById id l').
Proof.
  induction 1 as [|x y l l' Hxy Hl IH]; cbn [Db.findById]; [exact I |].
  destruct Hxy as (Hid & Hrest). rewrite Hid.
  destruct (String.eqb (Webhook._id x) id); [split; assumption | exact IH].
Qed.

Lemma same_for_delivery_update (id : string) (f : Stats.t -> Stats.t) (l l' : list Webhook.t) :
  Forall2 same_for_delivery l l' ->
  Forall2 same_for_delivery (Db.update_webhook id (WebhookService.bump f) l)
                            (Db.update_webhook id (WebhookService.bump f) l').
Proof.
  induction 1 as [|x y l l' Hxy Hl IH]; cbn [Db.update_webhook]; [constructor |].
  destruct Hxy as (Hid & Hrest). rewrite Hid.
  destruct (String.eqb (Webhook._id x) id); constructor; try assumption;
    split; assumption.
Qed.

Lemma on_failure_same_inputs (t : Z) (st st' : Store) (o o' : option Webhook.t)
      (e : WebhookEvent.t) (m : string) (q : option Request) :
  same_for_deliveries st st' -> same_for_delivery_opt o o' ->
  let r := WebhookService.on_failure t st o e m q in
  let r' := WebhookService.on_failure t st' o' e m q in
  same_for_deliveries (WebhookService.sr_store r) (WebhookService.sr_store r')
  /\ WebhookService.sr_event r' = WebhookService.sr_event r
  /\ WebhookService.sr_request r' = WebhookService.sr_request r
  /\ WebhookService.sr_finished r' = WebhookService.sr_finished r
  /\ WebhookService.sr_thrown r' = WebhookService.sr_thrown r.
Proof.
  intros [Hw He] Ho. cbv zeta. unfold WebhookService.on_failure.
  destruct o as [w|], o' as [w'|]; cbn [same_for_delivery_opt] in Ho; try contradiction.
  - destruct Ho as (Hid & _ & _ & Hb & _). rewrite Hid, Hb.
    destruct (_ <? _); cbn [WebhookService.sr_store WebhookService.sr_event
      WebhookService.sr_request WebhookService.sr_finished WebhookService.sr_thrown];
      (split; [|auto]);
      unfold same_for_deliveries, WebhookService.inc_stats, WebhookService.save_event;
      cbn [webhooks webhook_events Db.with_webhooks Db.with_events];
      (split; [apply same_for_delivery_update; exact Hw | rewrite He; reflexivity]).
  - destruct (_ <? _); cbn [WebhookService.sr_store WebhookService.sr_event
      WebhookService.sr_request WebhookService.sr_finished WebhookService.sr_thrown];
      (split; [|auto]).
    + split; assumption.
    + unfold same_for_deliveries, WebhookService.save_event.
      cbn [webhooks webhook_events Db.with_webhooks Db.with_events].
      split; [exact Hw | rewrite He; reflexivity].
Qed.

Lemma sendWebhookEvent_same_inputs (now : Z) (st st' : Store) (o o' : option Webhook.t)
      (e : WebhookEvent.t) (reply : Reply) :
  same_for_deliveries st st' -> same_for_delivery_opt o o' ->
  let r := WebhookService.sendWebhookEvent now st o e reply in
  let r' := WebhookService.sendWebhookEvent now st' o' e reply in
  same_for_deliveries (WebhookService.sr_store r) (WebhookService.sr_store r')
  /\ WebhookService.sr_event r' = WebhookService.sr_event r
  /\ WebhookService.sr_request r' = WebhookService.sr_request r
  /\ WebhookService.sr_finished r' = WebhookService.sr_finished r
  /\ WebhookService.sr_thrown r' = WebhookService.sr_thrown r.
Proof.
  intros Hst Ho. cbv zeta. unfold WebhookService.sendWebhookEvent.
  destruct o as [w|], o' as [w'|]; cbn [same_for_delivery_opt] in Ho; try contradiction.
  - pose proof Ho as (Hid & Hu & Hs & Hb & Hm). rewrite Hid, Hu, Hs, Hm.
    destruct (Axios.post _ _ _) as [m|[status|m rs]].
    + apply (on_failure_same_inputs now st st' (Some w) (Some w')); assumption.
    + cbn [WebhookService.sr_store WebhookService.sr_event WebhookService.sr_request
           WebhookService.sr_finished WebhookService.sr_thrown].
      split; [|auto]. destruct Hst as [Hw He].
      unfold same_for_deliveries, WebhookService.inc_stats, WebhookService.save_event.
      cbn [webhooks webhook_events Db.with_webhooks Db.with_events].
      split; [apply same_for_delivery_update; exact Hw | rewrite He; reflexivity].
    + apply (on_failure_same_inputs _ st st' (Some w) (Some w')); assumption.
  - apply (on_failure_same_inputs now st st' None None); [assumption | exact I].
Qed.

Lemma retry_loop_same_inputs (replies : string -> Reply)
      (found found' : list (WebhookEvent.t * option Webhook.t)) :
  Forall2 (fun p p' => fst p' = fst p /\ same_for_delivery_opt (snd p) (snd p')) found found' ->
  forall acc acc',
    same_for_deliveries (WebhookService.sw_store acc) (WebhookService.sw_store acc') ->
    WebhookService.sw_clock acc' = WebhookService.sw_clock acc ->
    WebhookService.sw_results acc' = WebhookService.sw_results acc ->
    WebhookService.sw_requests acc' = WebhookService.sw_requests acc ->
    let s := WebhookService.retry_loop replies found acc in
    let s' := WebhookService.retry_loop replies found' acc' in
    same_for_deliveries (WebhookService.sw_store s) (WebhookService.sw_store s')
    /\ WebhookService.sw_results s' = WebhookService.sw_results s
    /\ WebhookService.sw_requests s' = WebhookService.sw_requests s.
Proof.
  induction 1 as [|[e o] [e' o'] found found' [He Ho] _ IH]; intros acc acc' Hst Hc Hr Hq;
    cbn [WebhookService.retry_loop]; [cbv zeta; auto |].
  cbn [fst snd] in He, Ho. subst e'. cbv zeta. cbv zeta in IH.
  rewrite Hc, Hr, Hq.
  pose proof (sendWebhookEvent_same_inputs (WebhookService.sw_clock acc)
                (WebhookService.sw_store acc) (WebhookService.sw_store acc') o o' e
                (replies (WebhookEvent._id e)) Hst Ho) as Hs.
  cbv zeta in Hs. destruct Hs as (Hst' & Hev & Hrq & Hfin & Hth).
  apply IH; cbn [WebhookService.sw_store WebhookService.sw_clock WebhookService.sw_results
                 WebhookService.sw_requests].
  - exact Hst'.
  - exact Hfin.
  - rewrite Hth. reflexivity.
  - rewrite Hrq. reflexivity.
Qed.

End DeliveryInputs.

(** X24.  A retry sweep reads of a subscription only its id, URL, secret,
    base backoff and size limit.  On two stores with the same log whose
    subscriptions agree on these, the sweep sends the same requests, reports
    the same counts and leaves the same log: whether a subscription is
    active, whether its retries are enabled and which events it lists make
    no difference to the retries of the events already queued. *)
Theorem retries_ignore_the_switches_of_a_subscription :
  forall (now : Z) (st st' : Store) (replies : string -> Reply),
    same_for_deliveries st st' ->
    exists sweep sweep',
      WebhookService.retryFailedEvents now st replies = Ok sweep
      /\ WebhookService.retryFailedEvents now st' replies = Ok sweep'
      /\ WebhookService.sw_requests sweep' = WebhookService.sw_requests sweep
      /\ WebhookService.sw_results sweep' = WebhookService.sw_results sweep
      /\ webhook_events (WebhookService.sw_store sweep')
         = webhook_events (WebhookService.sw_store sweep).
Proof.
  intros now st st' replies [Hw He].
  unfold WebhookService.retryFailedEvents. cbn [try_catch]. rewrite He.
  eexists _, _. split; [reflexivity |]. split; [reflexivity |].
  pose proof (retry_loop_same_inputs replies
                (map (fun e => (e, Db.findById (WebhookEvent.webhookId e) (webhooks st)))
                     (List.filter (WebhookService.due now) (webhook_events st)))
                (map (fun e => (e, Db.findById (WebhookEvent.webhookId e) (webhooks st')))
                     (List.filter (WebhookService.due now) (webhook_events st))))
    as Hloop.
  assert (Hfound :
            Forall2 (fun p p' => fst p' = fst p /\ same_for_delivery_opt (snd p) (snd p'))
              (map (fun e => (e, Db.findById (WebhookEvent.webhookId e) (webhooks st)))
                   (List.filter (WebhookService.due now) (webhook_events st)))
              (map (fun e => (e, Db.findById (WebhookEvent.webhookId e) (webhooks st')))
                   (List.filter (WebhookService.due now) (webhook_events st)))).
  { clear Hloop.
    induction (List.filter _ _) as [|e l IH]; cbn [map]; [constructor |].
    constructor; [|exact IH].
    cbn [fst snd]. split; [reflexivity |]. apply same_for_delivery_findById. exact Hw. }
  specialize (Hloop Hfound
                (WebhookService.MkSweep st now (WebhookService.RetryResults.Make 0 0 0) [])
                (WebhookService.MkSweep st' now (WebhookService.RetryResults.Make 0 0 0) [])).
  cbv zeta in Hloop.
  destruct Hloop as ((_ & Hev) & Hres & Hreq);
    [split; assumption | reflexivity | reflexivity | reflexivity |].
  auto.
Qed.

(** The once-failed event of the scenarios, retried for its subscription
    as stored and for the same subscription switched off. *)
Lemma retries_ignore_the_switches_of_a_subscription_witness :
  exists sweep sweep',
    WebhookService.retryFailedEvents 1705318200025 Scenario.store_hour
      (fun _ => Scenario.unavailable503) = Ok sweep
    /\ WebhookService.retryFailedEvents 1705318200025
         (MkStore [Webhook.set_isActive false (Webhook.set_events [] Scenario.hook_hour)]
                  [Scenario.event_once_failed] 2)
         (fun _ => Scenario.unavailable503) = Ok sweep'
    /\ WebhookService.sw_requests sweep' = WebhookService.sw_requests sweep.
Proof.
  destruct (retries_ignore_the_switches_of_a_subscription 1705318200025 Scenario.store_hour
              (MkStore [Webhook.set_isActive false (Webhook.set_events [] Scenario.hook_hour)]
                       [Scenario.event_once_failed] 2)
              (fun _ => Scenario.unavailable503))
    as (sweep & sweep' & H1 & H2 & Hq & _).
  - split; [|reflexivity]. constructor; [|constructor]. repeat split.
  - exists sweep, sweep'. auto.
Defined.

(** X25.  The statistics of a subscription keep only the last call.  After
    a dispatch whose request went out and was answered with [code], the
    stored subscription has [lastCall] set to the time the answer came; for
    a code in [200,300) its [lastCallStatus] is that code and its
    [averageResponseTime] is the duration of this one call, whatever it was
    before; for any other code its [lastCallStatus] is -1 and its
    [averageResponseTime] is left as it was. *)
Theorem stats_keep_only_the_last_call :
  forall (now : Z) (st : Store) (w stored : Webhook.t) (e : WebhookEvent.t) (lat code : Z),
    Axios.body_allowed (Some (Webhook.maxPayloadSize w))
                       (Json.stringify (WebhookEvent.payload e)) = true ->
    Db.findById (Webhook._id w) (webhooks st) = Some stored ->
    let r := WebhookService.sendWebhookEvent now st (Some w) e (MkReply (Responded code) lat) in
    exists after,
      Db.findById (Webhook._id w) (webhooks (WebhookService.sr_store r)) = Some after
      /\ same_configuration stored after
      /\ Stats.lastCall (Webhook.stats after) = Some (now + lat)
      /\ (200 <= code < 300 ->
          Stats.lastCallStatus (Webhook.stats after) = Some code
          /\ Stats.averageResponseTime (Webhook.stats after) = Some lat)
      /\ (~ 200 <= code < 300 ->
          Stats.lastCallStatus (Webhook.stats after) = Some (-1)
          /\ Stats.averageResponseTime (Webhook.stats after)
             = Stats.averageResponseTime (Webhook.stats stored)).
Proof.
  intros now st w stored e lat code Hbody Hstored. cbv zeta.
  destruct (Axios.validateStatus code) eqn:Hv.
  - destruct (send_resolved_step now st w stored e lat code Hbody Hv Hstored)
      as (_ & _ & Hf).
    eexists. split; [exact Hf |]. apply validateStatus_spec in Hv.
    split; [destruct stored; reflexivity |]. cbn. split; [reflexivity |].
    split; [intros _; split; [reflexivity | f_equal; lia] | intros Hn; contradiction].
  - destruct (send_rejected_step now st w stored e lat code Hbody Hv Hstored)
      as (_ & _ & _ & _ & Hf).
    eexists. split; [exact Hf |].
    assert (Hn : ~ 200 <= code < 300).
    { intros H. apply validateStatus_spec in H. congruence. }
    split; [destruct stored; reflexivity |]. cbn. split; [reflexivity |].
    split; [intros H; contradiction | intros _; split; reflexivity].
Qed.

(** The scenario subscription answered 503. *)
Lemma stats_keep_only_the_last_call_witness :
  exists after,
    Db.findById "0000000000000000000000a1"
      (webhooks (WebhookService.sr_store
                   (WebhookService.sendWebhookEvent Scenario.t0 Scenario.store
                      (Some Scenario.hook) Scenario.event_x1 Scenario.unavailable503)))
    = Some after
    /\ Stats.lastCallStatus (Webhook.stats after) = Some (-1).
Proof.
  destruct (stats_keep_only_the_last_call Scenario.t0 Scenario.store Scenario.hook
              Scenario.hook Scenario.event_x1 25 503 eq_refl eq_refl)
    as (after & Hf & _ & _ & _ & Hn).
  exists after. split; [exact Hf |]. apply Hn. lia.
Defined.

(* ===================================================================== *)
(** ** Further properties: the end of the retries *)
(* ===================================================================== *)

Section Exhaustion.

Lemma attempt_fails_same_payload (w : Webhook.t) (e e' : WebhookEvent.t) (reply : Reply) :
  WebhookEvent.payload e' = WebhookEvent.payload e ->
  attempt_fails w e reply -> attempt_fails w e' reply.
Proof. unfold attempt_fails. intros ->. auto. Qed.

Lemma dispatches_stay_pending (w : Webhook.t) (reply : Reply) (n : nat) :
  forall now st e,
    attempt_fails w e reply ->
    0 <= WebhookEvent.attempts e ->
    WebhookEvent.status e = pending ->
    WebhookEvent.attempts e + Z.of_nat n < WebhookEvent.maxAttempts e ->
    let e' := snd (dispatches n now st w e reply) in
    WebhookEvent.status e' = pending
    /\ WebhookEvent.attempts e' = WebhookEvent.attempts e + Z.of_nat n
    /\ WebhookEvent.maxAttempts e' = WebhookEvent.maxAttempts e
    /\ WebhookEvent.payload e' = WebhookEvent.payload e.
Proof.
  induction n as [|n IH]; intros now st e Hf Ha Hs Hlt; cbn [dispatches]; cbv zeta.
  - cbn [snd]. repeat split; [exact Hs | lia].
  - pose proof (failed_attempt_schedule now st w e reply Ha Hf) as H1. cbv zeta in H1.
    destruct H1 as (Hatt & Hp & _). destruct Hp as [Hp _]; [lia |].
    pose proof (sendWebhookEvent_same_event now st (Some w) e reply)
      as (_ & _ & _ & _ & Hpay & Hmax & _).
    cbv zeta in IH.
    edestruct IH as (Hs' & Ha' & Hm' & Hp').
    + eapply attempt_fails_same_payload; [exact Hpay | exact Hf].
    + rewrite Hatt. lia.
    + exact Hp.
    + rewrite Hatt, Hmax. lia.
    + rewrite Hs', Ha', Hm', Hp', Hatt, Hmax, Hpay. repeat split. lia.
Qed.

End Exhaustion.

(** X26.  The retries of an event end.  When every attempt fails, a
    pending event with [attempts] below [maxAttempts] stays pending through
    the dispatches that leave an attempt over, and after exactly
    [maxAttempts - attempts] dispatches it is failed with [attempts] equal
    to [maxAttempts]; a failed event is not due at any time, so no sweep
    sends it again. *)
Theorem retries_end_after_the_maximum_number_of_attempts :
  forall (now : Z) (st : Store) (w : Webhook.t) (e : WebhookEvent.t) (reply : Reply),
    attempt_fails w e reply ->
    0 <= WebhookEvent.attempts e < WebhookEvent.maxAttempts e ->
    WebhookEvent.status e = pending ->
    let left := Z.to_nat (WebhookEvent.maxAttempts e - WebhookEvent.attempts e) in
    (forall n, (n < left)%nat ->
               WebhookEvent.status (snd (dispatches n now st w e reply)) = pending)
    /\ WebhookEvent.status (snd (dispatches left now st w e reply)) = failed
    /\ WebhookEvent.attempts (snd (dispatches left now st w e reply))
       = WebhookEvent.maxAttempts e
    /\ (forall t, WebhookService.due t (snd (dispatches left now st w e reply)) = false).
Proof.
  intros now st w e reply Hf [Ha Hlt] Hs. cbv zeta.
  assert (Hpend : forall n, (n < Z.to_nat (WebhookEvent.maxAttempts e - WebhookEvent.attempts e))%nat ->
                            WebhookEvent.status (snd (dispatches n now st w e reply)) = pending).
  { intros n Hn.
    apply (dispatches_stay_pending w reply n now st e Hf Ha Hs). lia. }
  split; [exact Hpend |].
  assert (Hlast : WebhookEvent.status
                    (snd (dispatches
                            (Z.to_nat (WebhookEvent.maxAttempts e - WebhookEvent.attempts e))
                            now st w e reply)) = failed
                  /\ WebhookEvent.attempts
                       (snd (dispatches
                               (Z.to_nat (WebhookEvent.maxAttempts e - WebhookEvent.attempts e))
                               now st w e reply)) = WebhookEvent.maxAttempts e).
  { destruct (Z.to_nat (WebhookEvent.maxAttempts e - WebhookEvent.attempts e)) as [|k] eqn:Ek;
      [lia |].
    clear Hpend. revert now st e Hf Ha Hlt Hs Ek.
    induction k as [|k IH]; intros now st e Hf Ha Hlt Hs Ek; cbn [dispatches]; cbv zeta.
    - cbn [snd].
      pose proof (failed_attempt_schedule now st w e reply Ha Hf) as H1. cbv zeta in H1.
      destruct H1 as (Hatt & _ & Hfail). destruct Hfail as [Hfail _]; [lia |].
      split; [exact Hfail | rewrite Hatt; lia].
    - pose proof (failed_attempt_schedule now st w e reply Ha Hf) as H1. cbv zeta in H1.
      destruct H1 as (Hatt & Hp & _). destruct Hp as [Hp _]; [lia |].
      pose proof (sendWebhookEvent_same_event now st (Some w) e reply)
        as (_ & _ & _ & _ & Hpay & Hmax & _).
      rewrite <- Hmax.
      apply IH.
      + eapply attempt_fails_same_payload; [exact Hpay | exact Hf].
      + rewrite Hatt. lia.
      + rewrite Hatt, Hmax. lia.
      + exact Hp.
      + rewrite Hatt, Hmax. lia. }
  destruct Hlast as [Hfailed Hatt].
  split; [exact Hfailed |]. split; [exact Hatt |].
  intros t. unfold WebhookService.due. rewrite Hfailed. reflexivity.
Qed.

(** Scenario S3: five attempts, the receiver answering 503 every time. *)
Lemma retries_end_after_the_maximum_number_of_attempts_witness :
  WebhookEvent.status
    (snd (dispatches 5 Scenario.t0 Scenario.store5 Scenario.hook5 Scenario.event5
            Scenario.unavailable503)) = failed
  /\ WebhookEvent.attempts
       (snd (dispatches 5 Scenario.t0 Scenario.store5 Scenario.hook5 Scenario.event5
               Scenario.unavailable503)) = 5.
Proof.
  destruct (retries_end_after_the_maximum_number_of_attempts Scenario.t0 Scenario.store5
              Scenario.hook5 Scenario.event5 Scenario.unavailable503)
    as (_ & Hs & Ha & _).
  - intros status. vm_compute. discriminate.
  - cbn. lia.
  - reflexivity.
  - split; [exact Hs | exact Ha].
Defined.
